(** * hfi1 interrupt and process affinity (drivers/infiniband/hw/hfi1/affinity.c)

    A shallow embedding of the CPU allocator of the hfi1 driver: the
    per-NUMA-node affinity list, the [cpu_mask_set] pools with their
    generation counter, the partition computed when a device attaches, the
    get/put of an interrupt vector's CPU, the update made when a user moves
    an SDMA interrupt, and the CPU recommended to a process that opens a
    context.

    A [struct cpumask] is a bitmap: it is embedded as an integer whose bit
    [c] tells whether CPU [c] is a member.  [int] values are integers,
    the [uint] generation counter wraps at 2^32. *)

From Stdlib Require Import ZArith Lia Bool Btauto.
From stdpp Require Import base option list.

Local Open Scope Z_scope.

(** ** CPU masks *)

(** Modelled from the spec: [struct cpumask] of <linux/cpumask.h>, the
    CpuSet primitive; bit [c] of the integer is CPU [c].  The operations
    that scan, count or compare look at the bits below [nr_cpu_ids], the
    others work on the bit they are given. *)
Definition cpumask := Z.

(** Modelled from the spec: [find_next_bit] of the kernel's bitmap library
    (lib/find_next_bit.c is not part of the sources): the lowest set bit at
    or above [offset] and below [size], and [size] when there is none.
    [scan_bits m i fuel] walks the bits [i], [i+1], ... for [fuel] steps. *)
Fixpoint scan_bits (m : cpumask) (i : Z) (fuel : nat) : Z :=
  match fuel with
  | O => i
  | S fuel' => if Z.testbit m i then i else scan_bits m (i + 1) fuel'
  end.

(** Modelled from the spec: [find_next_bit(addr, size, offset)], see
    [scan_bits]; an offset at or beyond [size] gives [size]. *)
Definition find_next_bit (m : cpumask) (size offset : Z) : Z :=
  if size <=? offset then size else scan_bits m offset (Z.to_nat (size - offset)).

(** Modelled from the spec: [bitmap_weight(src, nbits)], the number of set
    bits below [nbits] (the population count of the CpuSet primitive). *)
Fixpoint bitmap_weight (m : cpumask) (nbits : nat) : Z :=
  match nbits with
  | O => 0
  | S n => (if Z.testbit m (Z.of_nat n) then 1 else 0) + bitmap_weight m n
  end.

Section Cpumask.

(** The number of CPU ids of the system; every mask operation that
    scans, counts or compares looks at the bits below it. *)
Variable nr_cpu_ids : Z.

(** Modelled from the spec: [cpumask_first] of <linux/cpumask.h>
    (first-set of the CpuSet primitive); [nr_cpu_ids] on an empty mask. *)
Definition cpumask_first (m : cpumask) : Z := find_next_bit m nr_cpu_ids 0.

(** Modelled from the spec: [cpumask_next(n, srcp)] of <linux/cpumask.h>
    (next-set-after of the CpuSet primitive). *)
Definition cpumask_next (n : Z) (m : cpumask) : Z := find_next_bit m nr_cpu_ids (n + 1).

(** Modelled from the spec: [cpumask_weight] of <linux/cpumask.h>
    (population count of the CpuSet primitive). *)
Definition cpumask_weight (m : cpumask) : Z := bitmap_weight m (Z.to_nat nr_cpu_ids).

(** Modelled from the spec: [cpumask_equal] of <linux/cpumask.h>
    (equality of the CpuSet primitive), on the bits below [nr_cpu_ids]. *)
Definition cpumask_equal (a b : cpumask) : bool :=
  Z.land a (Z.ones nr_cpu_ids) =? Z.land b (Z.ones nr_cpu_ids).

(** Modelled from the spec: [cpumask_empty] of <linux/cpumask.h>, on the
    bits below [nr_cpu_ids]. *)
Definition cpumask_empty (a : cpumask) : bool := Z.land a (Z.ones nr_cpu_ids) =? 0.

(** Modelled from the spec: [cpumask_shift_left(dst, src, n)] of
    <linux/cpumask.h> (bit shift of the CpuSet primitive): bits moved to
    [nr_cpu_ids] or beyond are dropped. *)
Definition cpumask_shift_left (src : cpumask) (n : Z) : cpumask :=
  Z.land (Z.shiftl src n) (Z.ones nr_cpu_ids).

End Cpumask.

(** Modelled from the spec: [cpumask_set_cpu(cpu, dstp)] of
    <linux/cpumask.h>, [set_bit(cpu, bits)]. *)
Definition cpumask_set_cpu (cpu : Z) (m : cpumask) : cpumask := Z.lor m (Z.shiftl 1 cpu).

(** Modelled from the spec: [cpumask_clear_cpu(cpu, dstp)] of
    <linux/cpumask.h>, [clear_bit(cpu, bits)]. *)
Definition cpumask_clear_cpu (cpu : Z) (m : cpumask) : cpumask := Z.ldiff m (Z.shiftl 1 cpu).

(** Modelled from the spec: [cpumask_test_cpu(cpu, cpumask)] of
    <linux/cpumask.h>, [test_bit(cpu, bits)]. *)
Definition cpumask_test_cpu (cpu : Z) (m : cpumask) : bool := Z.testbit m cpu.

(** Modelled from the spec: [cpumask_and] of <linux/cpumask.h>
    (intersection of the CpuSet primitive). *)
Definition cpumask_and (a b : cpumask) : cpumask := Z.land a b.

(** Modelled from the spec: [cpumask_or] of <linux/cpumask.h> (union of the
    CpuSet primitive). *)
Definition cpumask_or (a b : cpumask) : cpumask := Z.lor a b.

(** Modelled from the spec: [cpumask_andnot] of <linux/cpumask.h>
    (difference of the CpuSet primitive). *)
Definition cpumask_andnot (a b : cpumask) : cpumask := Z.ldiff a b.

(** Modelled from the spec: the mask left by [cpumask_clear] of
    <linux/cpumask.h>, and the content of a mask from [zalloc_cpumask_var]
    or [kzalloc]. *)
Definition cpumask_none : cpumask := 0.

(** The mask that holds the CPUs of a list; used to write down concrete
    topologies. *)
Definition cpumask_of_list (cpus : list Z) : cpumask := foldr cpumask_set_cpu cpumask_none cpus.

(** [c] is a member of [m]. *)
Definition cpu_in (c : Z) (m : cpumask) : Prop := Z.testbit m c = true.

(** Every member of [a] is a member of [b]. *)
Definition cpumask_subset (a b : cpumask) : Prop := Z.ldiff a b = 0.

(** A mask without a bit at [nr_cpu_ids] or beyond. *)
Definition cpumask_valid (nr_cpu_ids : Z) (m : cpumask) : Prop := 0 <= m < 2 ^ nr_cpu_ids.

(** ** The data model

    The structures are declared in affinity.h and hfi.h, which are not part
    of the sources: they are modelled from section 3 of the specification
    and from the fields that affinity.c reads and writes. *)

(** Modelled from the spec: the conversion to the 32-bit [uint] of
    [cpu_mask_set.gen] and of [num_cores_per_socket] (the type is declared
    in affinity.h, which is not part of the sources). *)
Definition uint (x : Z) : Z := x mod 2 ^ 32.

Definition UINT_MAX : Z := 2 ^ 32 - 1.

(** Modelled from the spec: the error numbers of <linux/errno.h> behind
    the AllocationFailure and InvalidCategory errors. *)
Definition ENOMEM : Z := 12.

(** Modelled from the spec: see [ENOMEM]. *)
Definition EINVAL : Z := 22.

(** Modelled from the spec: [struct cpu_mask_set] of affinity.h, the
    AllocatablePool: the eligible CPUs, those currently allocated, and the
    [uint] generation. *)
Record cpu_mask_set := {
  mask : cpumask;
  used : cpumask;
  gen : Z
}.

Definition set_used (s : cpu_mask_set) (u : cpumask) : cpu_mask_set :=
  {| mask := mask s; used := u; gen := gen s |}.

Definition set_mask (s : cpu_mask_set) (m : cpumask) : cpu_mask_set :=
  {| mask := m; used := used s; gen := gen s |}.

Definition set_gen (s : cpu_mask_set) (g : Z) : cpu_mask_set :=
  {| mask := mask s; used := used s; gen := g |}.

(** Modelled from the spec: [struct hfi1_affinity_node] of affinity.h, the
    NodeAffinityEntry. *)
Record hfi1_affinity_node := {
  node : Z;
  def_intr : cpu_mask_set;
  rcv_intr : cpu_mask_set;
  general_intr_mask : cpumask
}.

(** Modelled from the spec: [struct hfi1_affinity_node_list] of affinity.h
    together with the file's static [hfi1_per_node_cntr] array, the
    AffinityRegistry.  The kernel list [list] is [node_list], in list
    order; the counters are [int]. *)
Record hfi1_affinity_node_list := {
  node_list : list hfi1_affinity_node;
  real_cpu_mask : cpumask;
  proc : cpu_mask_set;
  num_core_siblings : Z;
  num_possible_nodes : Z;
  num_online_nodes : Z;
  num_online_cpus : Z;
  hfi1_per_node_cntr : Z -> Z
}.

Definition with_node_list (a : hfi1_affinity_node_list) (l : list hfi1_affinity_node) :=
  {| node_list := l; real_cpu_mask := real_cpu_mask a; proc := proc a;
     num_core_siblings := num_core_siblings a;
     num_possible_nodes := num_possible_nodes a;
     num_online_nodes := num_online_nodes a;
     num_online_cpus := num_online_cpus a;
     hfi1_per_node_cntr := hfi1_per_node_cntr a |}.

Definition with_proc (a : hfi1_affinity_node_list) (p : cpu_mask_set) :=
  {| node_list := node_list a; real_cpu_mask := real_cpu_mask a; proc := p;
     num_core_siblings := num_core_siblings a;
     num_possible_nodes := num_possible_nodes a;
     num_online_nodes := num_online_nodes a;
     num_online_cpus := num_online_cpus a;
     hfi1_per_node_cntr := hfi1_per_node_cntr a |}.

(** Modelled from the spec: [enum irq_type] of hfi.h, in the order of
    [irq_type_names]. *)
Inductive irq_type := IRQ_SDMA | IRQ_RCVCTXT | IRQ_GENERAL | IRQ_OTHER.

(** What [msix->arg] points to: an SDMA engine of the device (its index in
    [per_sdma]), a receive context (its context number), or nothing that
    this file reads. *)
Inductive msix_arg :=
| arg_sde (idx : nat)
| arg_rcd (ctxt : Z)
| arg_dev.

(** Modelled from the spec: the number of the control context, hfi.h. *)
Definition HFI1_CTRL_CTXT : Z := 0.

(** Modelled from the spec: [struct hfi1_msix_entry] of hfi.h, the fields
    this file uses.  [irq_set_affinity_hint] stores the address
    of [msix->mask], so the hint of the vector is either that mask
    ([affinity_hint = true]) or NULL; [notify_set] tells whether the
    affinity notifier of the vector is registered. *)
Record hfi1_msix_entry := {
  msix_type : irq_type;
  arg : msix_arg;
  msix_mask : cpumask;
  affinity_hint : bool;
  notify_set : bool
}.

(** Modelled from the spec: [struct sdma_engine] of sdma.h, the field this
    file uses: the CPU that the interrupt of the engine targets. *)
Record sdma_engine := { cpu : Z }.

(** Modelled from the spec: [struct hfi1_devdata] of hfi.h, the fields this
    file uses; [msix_entries] has [num_msix_entries] elements. *)
Record hfi1_devdata := {
  dd_node : Z;
  n_krcv_queues : Z;
  msix_entries : list hfi1_msix_entry;
  per_sdma : list sdma_engine
}.

(** Modelled from the spec: the topology queries of the kernel (section 6
    of the specification), as they answer at the time of a call. *)
Record topology := {
  cpu_online_mask : cpumask;
  online_cpus : Z;                        (* num_online_cpus() *)
  online_nodes : Z;                       (* num_online_nodes() *)
  possible_nodes : Z;                     (* num_possible_nodes() *)
  topology_sibling_cpumask : Z -> cpumask;
  topology_core_cpumask : Z -> cpumask;
  cpumask_of_node : Z -> cpumask;
  numa_node_id : Z
}.

(** ** Topology bootstrap *)

(** [init_cpu_mask_set]. *)
Definition init_cpu_mask_set : cpu_mask_set :=
  {| mask := cpumask_none; used := cpumask_none; gen := 0 |}.

Section Affinity.

Variable nr_cpu_ids : Z.

(** The loop [for (...) curr_cpu = cpumask_next(curr_cpu, mask)] of
    [init_real_cpu_mask] and [find_hw_thread_mask], run [n] times. *)
Fixpoint skip_cpus (n : nat) (curr_cpu : Z) (m : cpumask) : Z :=
  match n with
  | O => curr_cpu
  | S n' => skip_cpus n' (cpumask_next nr_cpu_ids curr_cpu m) m
  end.

(** The loop that clears [curr_cpu] and moves to the next CPU of the
    mask, of the same two functions, run [n] times. *)
Fixpoint clear_cpus (n : nat) (curr_cpu : Z) (m : cpumask) : cpumask :=
  match n with
  | O => m
  | S n' =>
      let m' := cpumask_clear_cpu curr_cpu m in
      clear_cpus n' (cpumask_next nr_cpu_ids curr_cpu m') m'
  end.

(** [init_real_cpu_mask]; [None] is the division by an empty sibling
    group. *)
Definition init_real_cpu_mask (t : topology) : option cpumask :=
  let real := cpu_online_mask t in
  let possible := cpumask_weight nr_cpu_ids real in
  let ht := cpumask_weight nr_cpu_ids
              (topology_sibling_cpumask t (cpumask_first nr_cpu_ids real)) in
  if ht =? 0 then None
  else
    let n1 := Z.to_nat (possible ÷ ht) in
    let curr_cpu := skip_cpus n1 (cpumask_first nr_cpu_ids real) real in
    Some (clear_cpus (Z.to_nat (possible - Z.of_nat n1)) curr_cpu real).

(** The registry before [node_affinity_init]: the static
    [node_affinity] with its empty list. *)
Definition node_affinity_static : hfi1_affinity_node_list :=
  {| node_list := []; real_cpu_mask := cpumask_none; proc := init_cpu_mask_set;
     num_core_siblings := 0; num_possible_nodes := 0; num_online_nodes := 0;
     num_online_cpus := 0; hfi1_per_node_cntr := fun _ => 0 |}.

(** The PCI scan of [node_affinity_init]: one count per device found, on
    the node of its bus, or on the current node when the bus has none. *)
Fixpoint count_devices (t : topology) (bus_nodes : list Z) (cntr : Z -> Z) : Z -> Z :=
  match bus_nodes with
  | [] => cntr
  | n :: rest =>
      let nd := if n <? 0 then numa_node_id t else n in
      count_devices t rest (fun k => if k =? nd then uint (cntr k + 1) else cntr k)
  end.

(** [node_affinity_init]: [bus_nodes] are the nodes of the buses of the
    devices that [pci_get_device] finds, [kcalloc_ok] tells whether the
    counter array could be allocated.  [None] as in
    [init_real_cpu_mask]. *)
Definition node_affinity_init (t : topology) (bus_nodes : list Z) (kcalloc_ok : bool)
    (a : hfi1_affinity_node_list) : option (Z * hfi1_affinity_node_list) :=
  let proc' := {| mask := cpu_online_mask t; used := cpumask_none; gen := 0 |} in
  let siblings :=
    cpumask_weight nr_cpu_ids
      (topology_sibling_cpumask t (cpumask_first nr_cpu_ids (mask proc'))) in
  real ← init_real_cpu_mask t;
  let a' cntr :=
    {| node_list := node_list a; real_cpu_mask := real; proc := proc';
       num_core_siblings := siblings;
       num_possible_nodes := possible_nodes t;
       num_online_nodes := online_nodes t;
       num_online_cpus := online_cpus t;
       hfi1_per_node_cntr := cntr |} in
  if kcalloc_ok then Some (0, a' (count_devices t bus_nodes (fun _ => 0)))
  else Some (- ENOMEM, a' (hfi1_per_node_cntr a)).

(** [node_affinity_lookup]: the first entry of the list with this node,
    with its position, which stands for the pointer to it. *)
Definition node_affinity_lookup (a : hfi1_affinity_node_list) (nd : Z)
    : option (nat * hfi1_affinity_node) :=
  list_find (fun e => node e = nd) (node_list a).

(** ** Device attach *)

(** The loop of [hfi1_dev_affinity_init] that moves CPUs from the default
    list to the receive list, at most [n] times, leaving early when the
    CPUs run out. *)
Fixpoint move_rcv_cpus (n : nat) (curr_cpu : Z) (def rcv : cpumask) : cpumask * cpumask :=
  match n with
  | O => (def, rcv)
  | S n' =>
      let def' := cpumask_clear_cpu curr_cpu def in
      let rcv' := cpumask_set_cpu curr_cpu rcv in
      let curr_cpu' := cpumask_next nr_cpu_ids curr_cpu def' in
      if nr_cpu_ids <=? curr_cpu' then (def', rcv')
      else move_rcv_cpus n' curr_cpu' def' rcv'
  end.

(** The entry that [hfi1_dev_affinity_init] builds for a node that has
    none yet: [local_mask] are the CPUs of the node, [krcv] is
    [dd->n_krcv_queues] and [cntr] is [hfi1_per_node_cntr[dd->node]]. *)
Definition new_affinity_node (real local_mask : cpumask) (nd krcv cntr : Z)
    : hfi1_affinity_node :=
  let def0 := cpumask_and real local_mask in
  let possible := cpumask_weight nr_cpu_ids def0 in
  let curr_cpu := cpumask_first nr_cpu_ids def0 in
  if possible =? 1 then
    {| node := nd;
       def_intr := set_mask init_cpu_mask_set def0;
       rcv_intr := set_mask init_cpu_mask_set (cpumask_set_cpu curr_cpu cpumask_none);
       general_intr_mask := cpumask_set_cpu curr_cpu cpumask_none |}
  else
    let def1 := cpumask_clear_cpu curr_cpu def0 in
    let general := cpumask_set_cpu curr_cpu cpumask_none in
    let curr_cpu1 := cpumask_next nr_cpu_ids curr_cpu def1 in
    let '(def2, rcv) :=
      move_rcv_cpus (Z.to_nat (uint ((krcv - 1) * cntr))) curr_cpu1 def1 cpumask_none in
    let def3 := if cpumask_weight nr_cpu_ids def2 =? 0 then general else def2 in
    {| node := nd;
       def_intr := set_mask init_cpu_mask_set def3;
       rcv_intr := set_mask init_cpu_mask_set rcv;
       general_intr_mask := general |}.

Definition with_dd_node (dd : hfi1_devdata) (nd : Z) : hfi1_devdata :=
  {| dd_node := nd; n_krcv_queues := n_krcv_queues dd;
     msix_entries := msix_entries dd; per_sdma := per_sdma dd |}.

(** The node of a device: the node of its PCI bus, or the current node
    when the bus has none ([hfi1_dev_affinity_init], lines 225-232, and
    [node_affinity_init], lines 147-149). *)
Definition device_node (t : topology) (bus_node : Z) : Z :=
  if bus_node <? 0 then numa_node_id t else bus_node.

(** The CPUs local to a node, with the siblings of core 0 when the node
    has none ([hfi1_dev_affinity_init], lines 234-236). *)
Definition node_local_mask (t : topology) (nd : Z) : cpumask :=
  if nr_cpu_ids <=? cpumask_first nr_cpu_ids (cpumask_of_node t nd)
  then topology_core_cpumask t 0 else cpumask_of_node t nd.

(** [hfi1_dev_affinity_init]: [bus_node] is
    [pcibus_to_node(dd->pcidev->bus)], [kzalloc_ok] tells whether
    [node_affinity_allocate] gets its memory. *)
Definition hfi1_dev_affinity_init (t : topology) (bus_node : Z) (kzalloc_ok : bool)
    (a : hfi1_affinity_node_list) (dd : hfi1_devdata)
    : Z * hfi1_affinity_node_list * hfi1_devdata :=
  let nd := device_node t bus_node in
  let dd' := with_dd_node dd nd in
  let local_mask := node_local_mask t nd in
  match node_affinity_lookup a nd with
  | Some _ => (0, a, dd')
  | None =>
      if kzalloc_ok then
        let entry := new_affinity_node (real_cpu_mask a) local_mask nd
                       (n_krcv_queues dd') (hfi1_per_node_cntr a nd) in
        (0, with_node_list a (node_list a ++ [entry]), dd')
      else (- ENOMEM, a, dd')
  end.

(** ** Interrupt affinity: get, put and the user's update *)

(** The pool that the pointer [set] of [get_irq_affinity] and
    [hfi1_put_irq_affinity] designates in the entry. *)
Inductive pool_sel := sel_def | sel_rcv.

Definition get_pool (e : hfi1_affinity_node) (s : pool_sel) : cpu_mask_set :=
  match s with sel_def => def_intr e | sel_rcv => rcv_intr e end.

Definition put_pool (e : hfi1_affinity_node) (s : pool_sel) (p : cpu_mask_set)
    : hfi1_affinity_node :=
  match s with
  | sel_def => {| node := node e; def_intr := p; rcv_intr := rcv_intr e;
                  general_intr_mask := general_intr_mask e |}
  | sel_rcv => {| node := node e; def_intr := def_intr e; rcv_intr := p;
                  general_intr_mask := general_intr_mask e |}
  end.

(** The wrap-around of a pool whose CPUs are all used: the generation is
    bumped and the used map reset ([get_irq_affinity], lines 461-468, and
    [hfi1_get_proc_affinity], lines 644-647). *)
Definition cpu_mask_set_gen_inc (set : cpu_mask_set) : cpu_mask_set :=
  if cpumask_equal nr_cpu_ids (mask set) (used set)
  then {| mask := mask set; used := cpumask_none; gen := uint (gen set + 1) |}
  else set.

(** The allocation of [get_irq_affinity], lines 460-472: the CPU found
    and the pool after it. *)
Definition cpu_mask_set_get_first (set : cpu_mask_set) : Z * cpu_mask_set :=
  let set1 := cpu_mask_set_gen_inc set in
  let diff := cpumask_andnot (mask set1) (used set1) in
  let cpu := cpumask_first nr_cpu_ids diff in
  (cpu, set_used set1 (cpumask_set_cpu cpu (used set1))).

(** The release of [hfi1_put_irq_affinity], lines 528-534, for the CPUs
    of [m] (the mask of the vector). *)
Definition cpu_mask_set_put (set : cpu_mask_set) (m : cpumask) : cpu_mask_set :=
  let used1 := cpumask_andnot (used set) m in
  if cpumask_empty nr_cpu_ids used1 && negb (gen set =? 0)
  then {| mask := mask set; used := mask set; gen := gen set - 1 |}
  else set_used set used1.

Definition with_msix (dd : hfi1_devdata) (i : nat) (m : hfi1_msix_entry) : hfi1_devdata :=
  {| dd_node := dd_node dd; n_krcv_queues := n_krcv_queues dd;
     msix_entries := <[i := m]> (msix_entries dd); per_sdma := per_sdma dd |}.

Definition with_sde (dd : hfi1_devdata) (k : nat) (e : sdma_engine) : hfi1_devdata :=
  {| dd_node := dd_node dd; n_krcv_queues := n_krcv_queues dd;
     msix_entries := msix_entries dd; per_sdma := <[k := e]> (per_sdma dd) |}.

Definition with_entry (a : hfi1_affinity_node_list) (j : nat) (e : hfi1_affinity_node) :=
  with_node_list a (<[j := e]> (node_list a)).

(** What the [switch] of [get_irq_affinity] decides: a fixed CPU or a
    pool to allocate from. *)
Inductive irq_target := fixed_cpu (c : Z) | from_pool (s : pool_sel).

(** [get_irq_affinity] for the vector [dd->msix_entries[i]];
    [zalloc_ok] tells whether [zalloc_cpumask_var] succeeds.  The result
    is [None] where the C code dereferences an entry that the lookup did
    not find, or when [i] or [msix->arg] designate nothing. *)
Definition get_irq_affinity (zalloc_ok : bool) (a : hfi1_affinity_node_list)
    (dd : hfi1_devdata) (i : nat)
    : option (Z * hfi1_affinity_node_list * hfi1_devdata) :=
  msix ← msix_entries dd !! i;
  let msix0 := {| msix_type := msix_type msix; arg := arg msix;
                  msix_mask := cpumask_none;
                  affinity_hint := affinity_hint msix; notify_set := notify_set msix |} in
  if negb zalloc_ok then Some (- ENOMEM, a, with_msix dd i msix0)
  else
    let entry := node_affinity_lookup a (dd_node dd) in
    target ←
      match msix_type msix, arg msix with
      | IRQ_SDMA, arg_sde _ => Some (inr (from_pool sel_def))
      | IRQ_GENERAL, _ =>
          '(_, e) ← entry;
          Some (inr (fixed_cpu (cpumask_first nr_cpu_ids (general_intr_mask e))))
      | IRQ_RCVCTXT, arg_rcd ctxt =>
          if ctxt =? HFI1_CTRL_CTXT
          then '(_, e) ← entry;
               Some (inr (fixed_cpu (cpumask_first nr_cpu_ids (general_intr_mask e))))
          else Some (inr (from_pool sel_rcv))
      | IRQ_OTHER, _ => Some (inl (- EINVAL))
      | _, _ => None
      end;
    match target with
    | inl err => Some (err, a, with_msix dd i msix0)
    | inr tgt =>
        '(cpu, a1) ←
          match tgt with
          | fixed_cpu c => Some (c, a)
          | from_pool s =>
              '(j, e) ← entry;
              let '(c, set') := cpu_mask_set_get_first (get_pool e s) in
              Some (c, with_entry a j (put_pool e s set'))
          end;
        let msix1 := {| msix_type := msix_type msix; arg := arg msix;
                        msix_mask := cpumask_set_cpu cpu cpumask_none;
                        affinity_hint := true;
                        notify_set :=
                          match msix_type msix with
                          | IRQ_SDMA => true
                          | _ => notify_set msix
                          end |} in
        let dd1 := with_msix dd i msix1 in
        match msix_type msix, arg msix with
        | IRQ_SDMA, arg_sde k =>
            _ ← per_sdma dd !! k;
            Some (0, a1, with_sde dd1 k {| cpu := cpu |})
        | _, _ => Some (0, a1, dd1)
        end
    end.

(** [hfi1_get_irq_affinity]: [get_irq_affinity] under the lock. *)
Definition hfi1_get_irq_affinity := get_irq_affinity.

(** [hfi1_put_irq_affinity] for the vector [dd->msix_entries[i]]. *)
Definition hfi1_put_irq_affinity (a : hfi1_affinity_node_list) (dd : hfi1_devdata) (i : nat)
    : option (hfi1_affinity_node_list * hfi1_devdata) :=
  msix ← msix_entries dd !! i;
  let entry := node_affinity_lookup a (dd_node dd) in
  let released nfy :=
    {| msix_type := msix_type msix; arg := arg msix; msix_mask := cpumask_none;
       affinity_hint := false; notify_set := nfy |} in
  let put s nfy :=
    '(j, e) ← entry;
    Some (with_entry a j (put_pool e s (cpu_mask_set_put (get_pool e s) (msix_mask msix))),
          with_msix dd i (released nfy)) in
  match msix_type msix, arg msix with
  | IRQ_SDMA, _ => put sel_def false
  | IRQ_GENERAL, _ => Some (a, with_msix dd i (released (notify_set msix)))
  | IRQ_RCVCTXT, arg_rcd ctxt =>
      if ctxt =? HFI1_CTRL_CTXT
      then Some (a, with_msix dd i (released (notify_set msix)))
      else put sel_rcv (notify_set msix)
  | IRQ_RCVCTXT, _ => None
  | IRQ_OTHER, _ => Some (a, dd)
  end.

(** The scan of [hfi1_update_sdma_affinity], lines 350-359: whether an
    SDMA vector other than [self] has [old_cpu] in its mask; [i] is the
    index of the head of [l] in [dd->msix_entries]. *)
Fixpoint other_sdma_uses (l : list hfi1_msix_entry) (i self : nat) (old_cpu : Z) : bool :=
  match l with
  | [] => false
  | other_msix :: rest =>
      match msix_type other_msix with
      | IRQ_SDMA =>
          if (i =? self)%nat then other_sdma_uses rest (S i) self old_cpu
          else if cpumask_test_cpu old_cpu (msix_mask other_msix) then true
               else other_sdma_uses rest (S i) self old_cpu
      | _ => other_sdma_uses rest (S i) self old_cpu
      end
  end.

(** [hfi1_update_sdma_affinity] for the vector [dd->msix_entries[i]] and
    the CPU [new_cpu] that the notifier reports.  [None] when [i] does not
    designate a vector whose [arg] is an SDMA engine of the device. *)
Definition hfi1_update_sdma_affinity (t : topology) (a : hfi1_affinity_node_list)
    (dd : hfi1_devdata) (i : nat) (new_cpu : Z)
    : option (hfi1_affinity_node_list * hfi1_devdata) :=
  msix ← msix_entries dd !! i;
  match arg msix with
  | arg_sde k =>
      sde ← per_sdma dd !! k;
      if (online_cpus t <? uint new_cpu) || (new_cpu =? cpu sde) then Some (a, dd)
      else
        match node_affinity_lookup a (dd_node dd) with
        | None => Some (a, dd)
        | Some (j, entry) =>
            let old_cpu := cpu sde in
            let msix1 := {| msix_type := msix_type msix; arg := arg msix;
                            msix_mask := cpumask_set_cpu new_cpu cpumask_none;
                            affinity_hint := true; notify_set := notify_set msix |} in
            let dd1 := with_msix (with_sde dd k {| cpu := new_cpu |}) i msix1 in
            let set := def_intr entry in
            let set1 := {| mask := cpumask_set_cpu new_cpu (mask set);
                           used := cpumask_set_cpu new_cpu (used set);
                           gen := gen set |} in
            let set2 :=
              if other_sdma_uses (msix_entries dd1) 0 i old_cpu then set1
              else {| mask := cpumask_clear_cpu old_cpu (mask set1);
                      used := cpumask_clear_cpu old_cpu (used set1);
                      gen := gen set1 |} in
            Some (with_entry a j (put_pool entry sel_def set2), dd1)
        end
  | _ => None
  end.

(** [hfi1_irq_notifier_notify]: the notifier hands the first CPU of the
    new mask to [hfi1_update_sdma_affinity]. *)
Definition hfi1_irq_notifier_notify (t : topology) (a : hfi1_affinity_node_list)
    (dd : hfi1_devdata) (i : nat) (m : cpumask) :=
  hfi1_update_sdma_affinity t a dd i (cpumask_first nr_cpu_ids m).

(** ** Process affinity *)

(** [find_hw_thread_mask]: the mask of the hardware threads number
    [hw_thread_no] of the physical cores.  [None] is the division by
    zero of [num_cores_per_socket]. *)
Definition find_hw_thread_mask (hw_thread_no : Z) (affinity : hfi1_affinity_node_list)
    : option cpumask :=
  if (num_core_siblings affinity =? 0) || (num_online_nodes affinity =? 0) then None
  else
    let num_cores_per_socket :=
      uint (num_online_cpus affinity ÷ num_core_siblings affinity
              ÷ num_online_nodes affinity) in
    let hw_thread_mask := mask (proc affinity) in
    if 0 <? num_core_siblings affinity then
      let possible := cpumask_weight nr_cpu_ids hw_thread_mask in
      let n1 := Z.to_nat (uint (num_cores_per_socket * num_online_nodes affinity)) in
      let curr_cpu := skip_cpus n1 (cpumask_first nr_cpu_ids hw_thread_mask) hw_thread_mask in
      let hw_thread_mask1 :=
        clear_cpus (Z.to_nat (possible - Z.of_nat n1)) curr_cpu hw_thread_mask in
      Some (cpumask_shift_left nr_cpu_ids hw_thread_mask1
              (uint (num_cores_per_socket * num_online_nodes affinity * hw_thread_no)))
    else Some hw_thread_mask.

(** The loop of [hfi1_get_proc_affinity] over the hardware thread numbers
    [i], [i+1], ..., [n] of them: it stops at the first one with a CPU
    that is not used, and keeps the last mask when there is none. *)
Fixpoint find_free_hw_thread (n : nat) (i : Z) (hw_thread_mask : cpumask)
    (affinity : hfi1_affinity_node_list) (used_mask : cpumask) : option cpumask :=
  match n with
  | O => Some hw_thread_mask
  | S n' =>
      hw ← find_hw_thread_mask i affinity;
      if negb (cpumask_empty nr_cpu_ids (cpumask_andnot hw used_mask)) then Some hw
      else find_free_hw_thread n' (i + 1) hw affinity used_mask
  end.

(** The mask of the CPUs that interrupt handlers of the node use
    ([hfi1_get_proc_affinity], lines 653-662). *)
Definition intrs_mask_of (entry : option (nat * hfi1_affinity_node)) : cpumask :=
  match entry with
  | None => cpumask_none
  | Some (_, e) =>
      let m1 := if gen (def_intr e) =? 0 then used (def_intr e) else mask (def_intr e) in
      let m2 := cpumask_or m1
                  (if gen (rcv_intr e) =? 0 then used (rcv_intr e) else mask (rcv_intr e)) in
      cpumask_or m2 (general_intr_mask e)
  end.

(** [hfi1_get_proc_affinity]: [proc_mask] is
    [tsk_cpus_allowed(current)], [zalloc_ok] tells whether the four
    scratch masks could be allocated.  The result is the CPU recommended
    (or -1) and the registry after the call. *)
Definition hfi1_get_proc_affinity (t : topology) (proc_mask : cpumask) (zalloc_ok : bool)
    (affinity : hfi1_affinity_node_list) (nd : Z)
    : option (Z * hfi1_affinity_node_list) :=
  let set := proc affinity in
  if cpumask_weight nr_cpu_ids proc_mask =? 1 then
    let cpu := cpumask_first nr_cpu_ids proc_mask in
    Some (cpu, with_proc affinity (set_used set (cpumask_set_cpu cpu (used set))))
  else if cpumask_weight nr_cpu_ids proc_mask <? cpumask_weight nr_cpu_ids (mask set) then
    Some (-1, affinity)
  else if negb zalloc_ok then Some (-1, affinity)
  else
    let set1 := cpu_mask_set_gen_inc set in
    let affinity1 := with_proc affinity set1 in
    let intrs_mask := intrs_mask_of (node_affinity_lookup affinity1 nd) in
    hw_thread_mask ←
      (if 0 <? num_core_siblings affinity1
       then find_free_hw_thread (Z.to_nat (num_core_siblings affinity1)) 0
              (mask set1) affinity1 (used set1)
       else Some (mask set1));
    let node_mask := cpumask_of_node t nd in
    let available0 :=
      cpumask_andnot (cpumask_and hw_thread_mask node_mask) (used set1) in
    let diff0 := cpumask_andnot available0 intrs_mask in
    let available1 := if negb (cpumask_empty nr_cpu_ids diff0) then diff0 else available0 in
    let available2 :=
      if cpumask_empty nr_cpu_ids available1 then
        let other := cpumask_andnot (cpumask_andnot hw_thread_mask (used set1)) node_mask in
        let diff1 := cpumask_andnot other intrs_mask in
        if negb (cpumask_empty nr_cpu_ids diff1) then diff1 else other
      else available1 in
    let cpu := cpumask_first nr_cpu_ids available2 in
    if nr_cpu_ids <=? cpu then Some (-1, affinity1)
    else Some (cpu, with_proc affinity1 (set_used set1 (cpumask_set_cpu cpu (used set1)))).

(** [hfi1_put_proc_affinity]. *)
Definition hfi1_put_proc_affinity (affinity : hfi1_affinity_node_list) (cpu : Z)
    : hfi1_affinity_node_list :=
  let set := proc affinity in
  if cpu <? 0 then affinity
  else
    let used1 := cpumask_clear_cpu cpu (used set) in
    if cpumask_empty nr_cpu_ids used1 && negb (gen set =? 0)
    then with_proc affinity {| mask := mask set; used := mask set; gen := gen set - 1 |}
    else with_proc affinity (set_used set used1).

End Affinity.


(** ** The round-robin of a pool over several allocations *)

(** [n] consecutive allocations from a pool, with the CPUs they return in
    order and the pool after the last one. *)
Fixpoint allocate_n (nr_cpu_ids : Z) (n : nat) (set : cpu_mask_set) : list Z * cpu_mask_set :=
  match n with
  | O => ([], set)
  | S n' =>
      let '(c, set1) := cpu_mask_set_get_first nr_cpu_ids set in
      let '(cs, set2) := allocate_n nr_cpu_ids n' set1 in
      (c :: cs, set2)
  end.

(** ** The allocation of the specification *)

(** [c] is the lowest-numbered CPU with the property [P]. *)
Definition lowest_cpu (c : Z) (P : Z -> Prop) : Prop :=
  P c /\ forall c', P c' -> c <= c'.

(** The candidates of a pool: the CPUs of [mask] that are not in [used]. *)
Definition candidate (p : cpu_mask_set) (c : Z) : Prop :=
  cpu_in c (mask p) /\ ~ cpu_in c (used p).

(** [allocate] as section 4.2 of the specification words it, on sets of
    CPUs: when [used] equals [mask] the generation (an unsigned counter) is
    incremented and [used] cleared; then the lowest-numbered candidate [c]
    is marked used and returned. *)
Definition allocate_spec (p : cpu_mask_set) (c : Z) (p' : cpu_mask_set) : Prop :=
  let p0 :=
    if used p =? mask p
    then {| mask := mask p; used := cpumask_none; gen := uint (gen p + 1) |}
    else p in
  lowest_cpu c (candidate p0) /\
  mask p' = mask p0 /\
  gen p' = gen p0 /\
  forall i, cpu_in i (used p') <-> (cpu_in i (used p0) \/ i = c).

(** ** Vectors of a device that target a CPU *)

(** An SDMA vector of the device other than the vector [i] has the CPU [c]
    in its mask. *)
Definition other_sdma_targets (dd : hfi1_devdata) (i : nat) (c : Z) : Prop :=
  exists i' other,
    i' <> i /\ msix_entries dd !! i' = Some other /\
    msix_type other = IRQ_SDMA /\ cpu_in c (msix_mask other).

(** The default pool of the entry of a node, when the node has one. *)
Definition default_pool (a : hfi1_affinity_node_list) (nd : Z) : option cpu_mask_set :=
  '(_, e) ← node_affinity_lookup a nd; Some (def_intr e).

(** ** Idle pools *)

(** A pool without a used CPU is at generation 0: the release refills a
    pool that it empties at a later generation. *)
Definition pool_idle_inv (nr_cpu_ids : Z) (p : cpu_mask_set) : Prop :=
  cpumask_empty nr_cpu_ids (used p) = true -> gen p = 0.

(** ** The invariant of the pools and the steps of the registry *)

(** The invariant of a pool: every used CPU is a CPU of the mask. *)
Definition pool_inv (s : cpu_mask_set) : Prop := cpumask_subset (used s) (mask s).

(** The invariant for every pool of the registry: the process pool and
    the default and receive pools of every node. *)
Definition registry_inv (a : hfi1_affinity_node_list) : Prop :=
  pool_inv (proc a) /\
  Forall (fun e => pool_inv (def_intr e) /\ pool_inv (rcv_intr e)) (node_list a).

(** The pool that the vector draws its CPU from, when it draws from one. *)
Definition irq_pool (m : hfi1_msix_entry) : option pool_sel :=
  match msix_type m, arg m with
  | IRQ_SDMA, arg_sde _ => Some sel_def
  | IRQ_RCVCTXT, arg_rcd ctxt => if ctxt =? HFI1_CTRL_CTXT then None else Some sel_rcv
  | _, _ => None
  end.

(** The pool that the vector [i] of the device draws from has a CPU in
    its mask. *)
Definition irq_pool_nonempty (nr_cpu_ids : Z) (a : hfi1_affinity_node_list)
    (dd : hfi1_devdata) (i : nat) : Prop :=
  forall m j e s,
    msix_entries dd !! i = Some m ->
    node_affinity_lookup a (dd_node dd) = Some (j, e) ->
    irq_pool m = Some s ->
    cpumask_empty nr_cpu_ids (mask (get_pool e s)) = false.

(** A process that is pinned to a single CPU is pinned to a CPU of the
    process pool. *)
Definition pinned_in_pool (nr_cpu_ids : Z) (a : hfi1_affinity_node_list)
    (proc_mask : cpumask) : Prop :=
  cpumask_weight nr_cpu_ids proc_mask = 1 ->
  cpu_in (cpumask_first nr_cpu_ids proc_mask) (mask (proc a)).

(** The masks of the hardware threads that the advisor tries are made of
    CPUs of the process pool. *)
Definition hw_threads_in_pool (nr_cpu_ids : Z) (a : hfi1_affinity_node_list) : Prop :=
  forall i hw,
    0 <= i < num_core_siblings a ->
    find_hw_thread_mask nr_cpu_ids i a = Some hw ->
    cpumask_subset hw (mask (proc a)).

(** One completed operation on the registry: attach, the get and put of an
    interrupt vector, the update of a moved SDMA vector, the advice to a
    process and its release.  The get draws from a pool with a CPU in its
    mask, and the advice is asked under [pinned_in_pool] and
    [hw_threads_in_pool]. *)
Inductive affinity_step (nr_cpu_ids : Z)
    : hfi1_affinity_node_list -> hfi1_affinity_node_list -> Prop :=
| step_attach t bus_node ok a dd r a' dd' :
    hfi1_dev_affinity_init nr_cpu_ids t bus_node ok a dd = (r, a', dd') ->
    affinity_step nr_cpu_ids a a'
| step_get_irq ok a dd i r a' dd' :
    hfi1_get_irq_affinity nr_cpu_ids ok a dd i = Some (r, a', dd') ->
    irq_pool_nonempty nr_cpu_ids a dd i ->
    affinity_step nr_cpu_ids a a'
| step_put_irq a dd i a' dd' :
    hfi1_put_irq_affinity nr_cpu_ids a dd i = Some (a', dd') ->
    affinity_step nr_cpu_ids a a'
| step_update t a dd i new_cpu a' dd' :
    hfi1_update_sdma_affinity t a dd i new_cpu = Some (a', dd') ->
    affinity_step nr_cpu_ids a a'
| step_get_proc t proc_mask ok a nd c a' :
    hfi1_get_proc_affinity nr_cpu_ids t proc_mask ok a nd = Some (c, a') ->
    pinned_in_pool nr_cpu_ids a proc_mask ->
    hw_threads_in_pool nr_cpu_ids a ->
    affinity_step nr_cpu_ids a a'
| step_put_proc a c :
    affinity_step nr_cpu_ids a (hfi1_put_proc_affinity nr_cpu_ids a c).

(** The registries that [node_affinity_init] and the steps lead to. *)
Inductive reachable (nr_cpu_ids : Z) : hfi1_affinity_node_list -> Prop :=
| reach_init t bus_nodes ok r a :
    node_affinity_init nr_cpu_ids t bus_nodes ok node_affinity_static = Some (r, a) ->
    reachable nr_cpu_ids a
| reach_step a a' :
    reachable nr_cpu_ids a ->
    affinity_step nr_cpu_ids a a' ->
    reachable nr_cpu_ids a'.

(** ** Concrete systems *)

(** Eight online CPUs on two nodes, CPUs 0 to 3 on node 0 and 4 to 7 on
    node 1, no hyperthreading. *)
Definition two_node_topology : topology :=
  {| cpu_online_mask := cpumask_of_list [0; 1; 2; 3; 4; 5; 6; 7];
     online_cpus := 8;
     online_nodes := 2;
     possible_nodes := 2;
     topology_sibling_cpumask := fun c => cpumask_of_list [c];
     topology_core_cpumask := fun c => cpumask_of_list [c];
     cpumask_of_node :=
       fun n => if n =? 0 then cpumask_of_list [0; 1; 2; 3]
                else cpumask_of_list [4; 5; 6; 7];
     numa_node_id := 0 |}.

Definition sdma_vector (k : nat) : hfi1_msix_entry :=
  {| msix_type := IRQ_SDMA; arg := arg_sde k; msix_mask := cpumask_none;
     affinity_hint := false; notify_set := false |}.

Definition general_vector : hfi1_msix_entry :=
  {| msix_type := IRQ_GENERAL; arg := arg_dev; msix_mask := cpumask_none;
     affinity_hint := false; notify_set := false |}.

(** A device with two SDMA engines and two receive queues, before it
    attaches. *)
Definition two_engine_device : hfi1_devdata :=
  {| dd_node := 0; n_krcv_queues := 2;
     msix_entries := [sdma_vector 0; sdma_vector 1; general_vector];
     per_sdma := [{| cpu := 0 |}; {| cpu := 0 |}] |}.

(** The registry of [two_node_topology] after [node_affinity_init] with
    this one device on node 0. *)
Definition two_node_registry : hfi1_affinity_node_list :=
  match node_affinity_init 8 two_node_topology [0] true node_affinity_static with
  | Some (_, a) => a
  | None => node_affinity_static
  end.

(** The registry and the device after the device attached. *)
Definition attached_registry : hfi1_affinity_node_list :=
  (hfi1_dev_affinity_init 8 two_node_topology 0 true two_node_registry two_engine_device).1.2.

Definition attached_device : hfi1_devdata :=
  (hfi1_dev_affinity_init 8 two_node_topology 0 true two_node_registry two_engine_device).2.

(** The registry after the first SDMA vector got its CPU. *)
Definition armed_registry : hfi1_affinity_node_list :=
  match hfi1_get_irq_affinity 8 true attached_registry attached_device 0 with
  | Some (_, a, _) => a
  | None => attached_registry
  end.

(** The registry and the device after both SDMA vectors got their CPU. *)
Definition armed_system : option (hfi1_affinity_node_list * hfi1_devdata) :=
  '(_, a1, dd1) ← hfi1_get_irq_affinity 8 true attached_registry attached_device 0;
  '(_, a2, dd2) ← hfi1_get_irq_affinity 8 true a1 dd1 1;
  Some (a2, dd2).

(** A registry without entries whose real CPUs are 0 to 9, with one device
    counted on every node, and a topology whose node 1 has the CPUs 2, 4,
    6 and 8 and whose node 2 has the CPU 5. *)
Definition bare_registry : hfi1_affinity_node_list :=
  {| node_list := [];
     real_cpu_mask := cpumask_of_list [0; 1; 2; 3; 4; 5; 6; 7; 8; 9];
     proc := {| mask := cpumask_of_list [0; 1; 2; 3; 4; 5; 6; 7; 8; 9];
                used := cpumask_none; gen := 0 |};
     num_core_siblings := 1; num_possible_nodes := 3; num_online_nodes := 3;
     num_online_cpus := 10; hfi1_per_node_cntr := fun _ => 1 |}.

Definition sparse_topology : topology :=
  {| cpu_online_mask := cpumask_of_list [0; 1; 2; 3; 4; 5; 6; 7; 8; 9];
     online_cpus := 10;
     online_nodes := 3;
     possible_nodes := 3;
     topology_sibling_cpumask := fun c => cpumask_of_list [c];
     topology_core_cpumask := fun c => cpumask_of_list [c];
     cpumask_of_node :=
       fun n => if n =? 1 then cpumask_of_list [2; 4; 6; 8]
                else if n =? 2 then cpumask_of_list [5]
                else cpumask_of_list [0; 1; 3; 7; 9];
     numa_node_id := 0 |}.

(** The registry and the device after both SDMA vectors got their CPU,
    as a pair. *)
Definition armed_pair : hfi1_affinity_node_list * hfi1_devdata :=
  default (attached_registry, attached_device) armed_system.

(** A device with one receive queue (the control context only) whose
    vector belongs to receive context 1, and the registry after it
    attached on node 0 of [two_node_topology]. *)
Definition one_queue_device : hfi1_devdata :=
  {| dd_node := 0; n_krcv_queues := 1;
     msix_entries := [{| msix_type := IRQ_RCVCTXT; arg := arg_rcd 1;
                         msix_mask := cpumask_none;
                         affinity_hint := false; notify_set := false |}];
     per_sdma := [] |}.

Definition one_queue_registry : hfi1_affinity_node_list :=
  (hfi1_dev_affinity_init 8 two_node_topology 0 true two_node_registry one_queue_device).1.2.

(** Four online CPUs 0, 1, 4 and 5 out of eight CPU ids, on one node, with
    two hardware threads per core: CPU 4 is the sibling of CPU 0 and CPU 5
    the sibling of CPU 1.  The registry is the one [node_affinity_init]
    leaves. *)
Definition sibling_topology : topology :=
  {| cpu_online_mask := cpumask_of_list [0; 1; 4; 5];
     online_cpus := 4;
     online_nodes := 1;
     possible_nodes := 1;
     topology_sibling_cpumask :=
       fun c => if (c =? 0) || (c =? 4) then cpumask_of_list [0; 4]
                else cpumask_of_list [1; 5];
     topology_core_cpumask := fun c => cpumask_of_list [0; 1; 4; 5];
     cpumask_of_node := fun n => cpumask_of_list [0; 1; 4; 5];
     numa_node_id := 0 |}.

Definition sibling_registry : hfi1_affinity_node_list :=
  match node_affinity_init 8 sibling_topology [0] true node_affinity_static with
  | Some (_, a) => a
  | None => node_affinity_static
  end.

(** Three processes, each allowed on all online CPUs, ask for a CPU. *)
Definition three_processes : option (list Z * hfi1_affinity_node_list) :=
  '(c1, a1) ← hfi1_get_proc_affinity 8 sibling_topology (cpumask_of_list [0; 1; 4; 5]) true
                sibling_registry 0;
  '(c2, a2) ← hfi1_get_proc_affinity 8 sibling_topology (cpumask_of_list [0; 1; 4; 5]) true
                a1 0;
  '(c3, a3) ← hfi1_get_proc_affinity 8 sibling_topology (cpumask_of_list [0; 1; 4; 5]) true
                a2 0;
  Some ([c1; c2; c3], a3).

(** Sixteen CPU ids of which 0 to 6 and 9 are online, on one node, and the
    system after [node_affinity_init], the attach of [two_engine_device]
    and the get of its first SDMA vector. *)
Definition gap_topology : topology :=
  {| cpu_online_mask := cpumask_of_list [0; 1; 2; 3; 4; 5; 6; 9];
     online_cpus := 8;
     online_nodes := 1;
     possible_nodes := 1;
     topology_sibling_cpumask := fun c => cpumask_of_list [c];
     topology_core_cpumask := fun c => cpumask_of_list [c];
     cpumask_of_node := fun n => cpumask_of_list [0; 1; 2; 3; 4; 5; 6; 9];
     numa_node_id := 0 |}.

Definition gap_system : option (hfi1_affinity_node_list * hfi1_devdata) :=
  '(_, a0) ← node_affinity_init 16 gap_topology [0] true node_affinity_static;
  let '(_, a1, dd1) := hfi1_dev_affinity_init 16 gap_topology 0 true a0 two_engine_device in
  '(_, a2, dd2) ← hfi1_get_irq_affinity 16 true a1 dd1 0;
  Some (a2, dd2).

(** The registry of a system with sixteen CPU ids of which the eight of
    [two_node_topology] are online when [node_affinity_init] runs. *)
Definition hotplug_registry : hfi1_affinity_node_list :=
  match node_affinity_init 16 two_node_topology [0] true node_affinity_static with
  | Some (_, a) => a
  | None => node_affinity_static
  end.

(** Pools over the CPUs 0 to 3: one with CPUs 0 and 1 used, one with all
    CPUs used after three wrap-arounds, one with all CPUs used at the
    last generation of the counter, and one fresh over the CPUs 0, 1
    and 3. *)
Definition half_used_pool : cpu_mask_set :=
  {| mask := cpumask_of_list [0; 1; 2; 3]; used := cpumask_of_list [0; 1]; gen := 0 |}.

Definition full_pool : cpu_mask_set :=
  {| mask := cpumask_of_list [0; 1; 2; 3]; used := cpumask_of_list [0; 1; 2; 3]; gen := 3 |}.

Definition last_generation_pool : cpu_mask_set :=
  {| mask := cpumask_of_list [0; 1; 2; 3]; used := cpumask_of_list [0; 1; 2; 3];
     gen := UINT_MAX |}.

Definition fresh_pool : cpu_mask_set :=
  {| mask := cpumask_of_list [0; 1; 3]; used := cpumask_none; gen := 7 |}.

(** ** Sequences of operations *)

(** One completed operation on the registry, whatever its arguments and
    its result. *)
Inductive registry_op (nr_cpu_ids : Z)
    : hfi1_affinity_node_list -> hfi1_affinity_node_list -> Prop :=
| op_attach t bus_node ok a dd r a' dd' :
    hfi1_dev_affinity_init nr_cpu_ids t bus_node ok a dd = (r, a', dd') ->
    registry_op nr_cpu_ids a a'
| op_get_irq ok a dd i r a' dd' :
    hfi1_get_irq_affinity nr_cpu_ids ok a dd i = Some (r, a', dd') ->
    registry_op nr_cpu_ids a a'
| op_put_irq a dd i a' dd' :
    hfi1_put_irq_affinity nr_cpu_ids a dd i = Some (a', dd') ->
    registry_op nr_cpu_ids a a'
| op_update t a dd i new_cpu a' dd' :
    hfi1_update_sdma_affinity t a dd i new_cpu = Some (a', dd') ->
    registry_op nr_cpu_ids a a'
| op_get_proc t proc_mask ok a nd c a' :
    hfi1_get_proc_affinity nr_cpu_ids t proc_mask ok a nd = Some (c, a') ->
    registry_op nr_cpu_ids a a'
| op_put_proc a c :
    registry_op nr_cpu_ids a (hfi1_put_proc_affinity nr_cpu_ids a c).

(** Any number of operations, one after the other. *)
Inductive registry_ops (nr_cpu_ids : Z)
    : hfi1_affinity_node_list -> hfi1_affinity_node_list -> Prop :=
| ops_none a : registry_ops nr_cpu_ids a a
| ops_then a a1 a2 :
    registry_ops nr_cpu_ids a a1 ->
    registry_op nr_cpu_ids a1 a2 ->
    registry_ops nr_cpu_ids a a2.

(** What an operation may change in the list of entries: nothing, one
    pool of one entry (and of the receive pool only the used CPUs and the
    generation), or the list grows by an entry for a node that had
    none. *)
Inductive list_change (a a' : hfi1_affinity_node_list) : Prop :=
| change_none : node_list a' = node_list a -> list_change a a'
| change_pool j e s p :
    node_list a !! j = Some e ->
    (s = sel_rcv -> mask p = mask (rcv_intr e)) ->
    node_list a' = <[j := put_pool e s p]> (node_list a) ->
    list_change a a'
| change_new e :
    node_affinity_lookup a (node e) = None ->
    node_list a' = node_list a ++ [e] ->
    list_change a a'.

(** What the operations leave alone: the topology that
    [node_affinity_init] recorded, the real CPU mask, the device counters
    and the mask of the process pool. *)
Definition same_topology (a a' : hfi1_affinity_node_list) : Prop :=
  real_cpu_mask a' = real_cpu_mask a /\
  mask (proc a') = mask (proc a) /\
  num_core_siblings a' = num_core_siblings a /\
  num_possible_nodes a' = num_possible_nodes a /\
  num_online_nodes a' = num_online_nodes a /\
  num_online_cpus a' = num_online_cpus a /\
  hfi1_per_node_cntr a' = hfi1_per_node_cntr a.

(** A vector as the driver sets it up: the argument of an SDMA vector is
    an engine of the device, that of a receive vector is a receive
    context. *)
Definition msix_ok (dd : hfi1_devdata) (m : hfi1_msix_entry) : Prop :=
  match msix_type m, arg m with
  | IRQ_SDMA, arg_sde k => is_Some (per_sdma dd !! k)
  | IRQ_SDMA, _ => False
  | IRQ_RCVCTXT, arg_rcd _ => True
  | IRQ_RCVCTXT, _ => False
  | IRQ_GENERAL, _ => True
  | IRQ_OTHER, _ => True
  end.

(** The vector as [hfi1_put_irq_affinity] leaves it: no CPU in the mask,
    no affinity hint, and for an SDMA vector no affinity notifier. *)
Definition released_vector (m : hfi1_msix_entry) : hfi1_msix_entry :=
  {| msix_type := msix_type m; arg := arg m; msix_mask := cpumask_none;
     affinity_hint := false;
     notify_set := match msix_type m with IRQ_SDMA => false | _ => notify_set m end |}.

(** A pool in order: mask and used set hold CPUs below [nr_cpu_ids], the
    mask has a CPU, the used CPUs are CPUs of the mask, the generation is
    a [uint], it is 0 when no CPU is used, and it is not the last one
    when every CPU is used. *)
Definition pool_in_order (nr_cpu_ids : Z) (p : cpu_mask_set) : Prop :=
  cpumask_valid nr_cpu_ids (mask p) /\
  cpumask_valid nr_cpu_ids (used p) /\
  cpumask_subset (used p) (mask p) /\
  mask p <> cpumask_none /\
  0 <= gen p <= UINT_MAX /\
  (used p = cpumask_none -> gen p = 0) /\
  (used p = mask p -> gen p < UINT_MAX).

(** ** The advice to a process *)

(** The mask of hardware threads that [hfi1_get_proc_affinity] settles
    on for a process without preset affinity (lines 644-688): after the
    wrap-around of the process pool, the first of the masks of the
    hardware threads number 0, 1, ... with a CPU that is not used, the
    last of them when there is none, and the mask of the pool without
    hyperthreading. *)
Definition proc_hw_thread_mask (nr_cpu_ids : Z) (affinity : hfi1_affinity_node_list)
    : option cpumask :=
  let set1 := cpu_mask_set_gen_inc nr_cpu_ids (proc affinity) in
  let affinity1 := with_proc affinity set1 in
  if 0 <? num_core_siblings affinity1
  then find_free_hw_thread nr_cpu_ids (Z.to_nat (num_core_siblings affinity1)) 0
         (mask set1) affinity1 (used set1)
  else Some (mask set1).

(** A CPU that can be given to a process: a CPU of the hardware thread
    mask that is not used. *)
Definition proc_candidate (nr_cpu_ids : Z) (hw used_mask : cpumask) (x : Z) : Prop :=
  0 <= x < nr_cpu_ids /\ cpu_in x hw /\ ~ cpu_in x used_mask.

(** The CPUs that the advisor chooses from ([hfi1_get_proc_affinity],
    lines 697-738), given the hardware thread mask, the used CPUs, the
    CPUs of the node of the device and the CPUs of its interrupts. *)
Definition proc_available (nr_cpu_ids : Z) (hw used_mask node_mask intrs_mask : cpumask)
    : cpumask :=
  let available0 := cpumask_andnot (cpumask_and hw node_mask) used_mask in
  let diff0 := cpumask_andnot available0 intrs_mask in
  let available1 := if negb (cpumask_empty nr_cpu_ids diff0) then diff0 else available0 in
  if cpumask_empty nr_cpu_ids available1 then
    let other := cpumask_andnot (cpumask_andnot hw used_mask) node_mask in
    let diff1 := cpumask_andnot other intrs_mask in
    if negb (cpumask_empty nr_cpu_ids diff1) then diff1 else other
  else available1.

(** The device after its first SDMA vector got its CPU. *)
Definition armed_device : hfi1_devdata :=
  match hfi1_get_irq_affinity 8 true attached_registry attached_device 0 with
  | Some (_, _, dd) => dd
  | None => attached_device
  end.

(** The registry of a system with eight online CPUs 0 to 7 on one node
    and two hardware threads per core. *)
Definition threaded_registry : hfi1_affinity_node_list :=
  {| node_list := [];
     real_cpu_mask := cpumask_of_list [0; 1; 2; 3];
     proc := {| mask := cpumask_of_list [0; 1; 2; 3; 4; 5; 6; 7];
                used := cpumask_none; gen := 0 |};
     num_core_siblings := 2; num_possible_nodes := 1; num_online_nodes := 1;
     num_online_cpus := 8; hfi1_per_node_cntr := fun _ => 1 |}.

(** The topology of [threaded_registry]: CPU [c + 4] is the second
    hardware thread of the core of CPU [c]. *)
Definition threaded_topology : topology :=
  {| cpu_online_mask := cpumask_of_list [0; 1; 2; 3; 4; 5; 6; 7];
     online_cpus := 8;
     online_nodes := 1;
     possible_nodes := 1;
     topology_sibling_cpumask := fun c => cpumask_of_list [c mod 4; c mod 4 + 4];
     topology_core_cpumask := fun c => cpumask_of_list [0; 1; 2; 3; 4; 5; 6; 7];
     cpumask_of_node := fun n => cpumask_of_list [0; 1; 2; 3; 4; 5; 6; 7];
     numa_node_id := 0 |}.

(** That system when the hardware threads number 0 of its four cores,
    the CPUs 0 to 3, are all used. *)
Definition threaded_busy_registry : hfi1_affinity_node_list :=
  with_proc threaded_registry
    {| mask := cpumask_of_list [0; 1; 2; 3; 4; 5; 6; 7];
       used := cpumask_of_list [0; 1; 2; 3]; gen := 0 |}.

(** * Properties *)

(** A concrete mask has no CPU at [nr_cpu_ids] or beyond. *)
Ltac valid_mask := unfold cpumask_valid; vm_compute; split; [discriminate | reflexivity].

(** ** Bits of the mask primitives *)

Lemma testbit_cpu_bit (c i : Z) :
  Z.testbit (Z.shiftl 1 c) i = (0 <=? c) && (i =? c).
Proof.
  destruct (Z.leb_spec 0 c) as [Hc|Hc]; cbn [andb].
  - rewrite Z.shiftl_1_l, Z.pow2_bits_eqb by lia. apply Z.eqb_sym.
  - rewrite Z.shiftl_1_l, Z.pow_neg_r by lia. apply Z.bits_0.
Qed.

Lemma testbit_set_cpu (c i : Z) (m : cpumask) :
  Z.testbit (cpumask_set_cpu c m) i = Z.testbit m i || ((0 <=? c) && (i =? c)).
Proof. unfold cpumask_set_cpu. now rewrite Z.lor_spec, testbit_cpu_bit. Qed.

Lemma testbit_clear_cpu (c i : Z) (m : cpumask) :
  Z.testbit (cpumask_clear_cpu c m) i = Z.testbit m i && negb ((0 <=? c) && (i =? c)).
Proof. unfold cpumask_clear_cpu. now rewrite Z.ldiff_spec, testbit_cpu_bit. Qed.

Lemma testbit_ones (n i : Z) :
  0 <= n -> Z.testbit (Z.ones n) i = (0 <=? i) && (i <? n).
Proof.
  intros Hn. destruct (Z.leb_spec 0 i) as [Hi|Hi]; cbn [andb].
  - destruct (Z.ltb_spec i n).
    + apply Z.ones_spec_low; lia.
    + apply Z.ones_spec_high; lia.
  - now apply Z.testbit_neg_r.
Qed.

Lemma cpumask_subset_spec (a b : cpumask) :
  cpumask_subset a b <-> forall i, Z.testbit a i = true -> Z.testbit b i = true.
Proof.
  unfold cpumask_subset. split.
  - intros H i Ha.
    assert (Hi : Z.testbit (Z.ldiff a b) i = false) by (rewrite H; apply Z.bits_0).
    rewrite Z.ldiff_spec, Ha in Hi. now destruct (Z.testbit b i).
  - intros H. apply Z.bits_inj'. intros i _.
    rewrite Z.ldiff_spec, Z.bits_0.
    destruct (Z.testbit a i) eqn:Ha; [|reflexivity].
    now rewrite (H i Ha).
Qed.

Lemma cpumask_valid_spec (nr : Z) (m : cpumask) :
  0 <= nr ->
  cpumask_valid nr m <-> (0 <= m /\ forall i, nr <= i -> Z.testbit m i = false).
Proof.
  intros Hnr. unfold cpumask_valid. split.
  - intros [H0 H1]. split; [assumption|]. intros i Hi.
    destruct (Z.eq_dec m 0) as [->|Hm]; [apply Z.bits_0|].
    apply Z.bits_above_log2; [lia|].
    assert (Z.log2 m < nr) by (apply Z.log2_lt_pow2; lia). lia.
  - intros [H0 H1]. split; [assumption|].
    destruct (Z.eq_dec m 0) as [->|Hm]; [apply Z.pow_pos_nonneg; lia|].
    apply Z.log2_lt_pow2; [lia|].
    destruct (Z.lt_ge_cases (Z.log2 m) nr) as [|Hge]; [assumption|].
    specialize (H1 (Z.log2 m) Hge). rewrite Z.bit_log2 in H1 by lia. discriminate.
Qed.

Lemma cpumask_valid_eq (nr : Z) (a b : cpumask) :
  0 <= nr -> cpumask_valid nr a -> cpumask_valid nr b ->
  (forall i, 0 <= i < nr -> Z.testbit a i = Z.testbit b i) -> a = b.
Proof.
  intros Hnr [_ Ha]%cpumask_valid_spec [_ Hb]%cpumask_valid_spec H; try assumption.
  apply Z.bits_inj'. intros i Hi.
  destruct (Z.lt_ge_cases i nr); [apply H; lia|].
  now rewrite Ha, Hb.
Qed.

(** ** Scanning a mask *)

Lemma scan_bits_range (m : cpumask) (fuel : nat) (i : Z) :
  i <= scan_bits m i fuel <= i + Z.of_nat fuel.
Proof.
  revert i. induction fuel as [|f IH]; intros i; cbn [scan_bits]; [lia|].
  destruct (Z.testbit m i); [lia|]. specialize (IH (i + 1)). lia.
Qed.

Lemma scan_bits_hit (m : cpumask) (fuel : nat) (i : Z) :
  scan_bits m i fuel < i + Z.of_nat fuel -> Z.testbit m (scan_bits m i fuel) = true.
Proof.
  revert i. induction fuel as [|f IH]; intros i; cbn [scan_bits]; [lia|].
  destruct (Z.testbit m i) eqn:Hb; [easy|]. intros H. apply IH. lia.
Qed.

Lemma scan_bits_least (m : cpumask) (fuel : nat) (i j : Z) :
  i <= j < scan_bits m i fuel -> Z.testbit m j = false.
Proof.
  revert i. induction fuel as [|f IH]; intros i; cbn [scan_bits]; [lia|].
  destruct (Z.testbit m i) eqn:Hb; [lia|]. intros H.
  destruct (Z.eq_dec i j) as [->|Hne]; [assumption|]. apply (IH (i + 1)). lia.
Qed.

Lemma find_next_bit_range (m : cpumask) (size offset : Z) :
  offset <= size -> offset <= find_next_bit m size offset <= size.
Proof.
  intros H. unfold find_next_bit. destruct (Z.leb_spec size offset); [lia|].
  pose proof (scan_bits_range m (Z.to_nat (size - offset)) offset). lia.
Qed.

Lemma find_next_bit_le (m : cpumask) (size offset : Z) :
  find_next_bit m size offset <= size.
Proof.
  unfold find_next_bit. destruct (Z.leb_spec size offset); [lia|].
  pose proof (scan_bits_range m (Z.to_nat (size - offset)) offset). lia.
Qed.

Lemma find_next_bit_hit (m : cpumask) (size offset : Z) :
  find_next_bit m size offset < size ->
  Z.testbit m (find_next_bit m size offset) = true.
Proof.
  unfold find_next_bit. destruct (Z.leb_spec size offset); [lia|].
  intros Hlt. apply scan_bits_hit. lia.
Qed.

Lemma find_next_bit_least (m : cpumask) (size offset j : Z) :
  offset <= j < find_next_bit m size offset -> Z.testbit m j = false.
Proof.
  unfold find_next_bit. destruct (Z.leb_spec size offset); [lia|].
  apply scan_bits_least.
Qed.

Lemma find_next_bit_unique (m : cpumask) (size offset c : Z) :
  offset <= c < size -> Z.testbit m c = true ->
  (forall j, offset <= j < c -> Z.testbit m j = false) ->
  find_next_bit m size offset = c.
Proof.
  intros Hc Hb Hleast.
  pose proof (find_next_bit_range m size offset ltac:(lia)) as Hr.
  destruct (Z.lt_trichotomy (find_next_bit m size offset) c) as [Hlt|[Heq|Hgt]].
  - pose proof (find_next_bit_hit m size offset ltac:(lia)) as Hhit.
    rewrite Hleast in Hhit by lia. discriminate.
  - assumption.
  - rewrite (find_next_bit_least m size offset c) in Hb by lia. discriminate.
Qed.

Lemma find_next_bit_none (m : cpumask) (size offset : Z) :
  (forall j, offset <= j < size -> Z.testbit m j = false) ->
  find_next_bit m size offset = size.
Proof.
  intros Hnone.
  destruct (Z.le_gt_cases size offset) as [Hle|Hlt].
  - unfold find_next_bit. destruct (Z.leb_spec size offset); [reflexivity|lia].
  - pose proof (find_next_bit_range m size offset ltac:(lia)) as Hr.
    destruct (Z.eq_dec (find_next_bit m size offset) size) as [|Hne]; [assumption|].
    pose proof (find_next_bit_hit m size offset ltac:(lia)) as Hhit.
    rewrite Hnone in Hhit by lia. discriminate.
Qed.

(** ** Counting the CPUs of a mask *)

Lemma bitmap_weight_bounds (m : cpumask) (n : nat) :
  0 <= bitmap_weight m n <= Z.of_nat n.
Proof.
  induction n as [|n IH]; cbn [bitmap_weight]; [lia|].
  destruct (Z.testbit m (Z.of_nat n)); lia.
Qed.

Lemma bitmap_weight_ext (a b : cpumask) (n : nat) :
  (forall i, 0 <= i < Z.of_nat n -> Z.testbit a i = Z.testbit b i) ->
  bitmap_weight a n = bitmap_weight b n.
Proof.
  induction n as [|n IH]; intros H; cbn [bitmap_weight]; [reflexivity|].
  rewrite (H (Z.of_nat n)) by lia. rewrite IH; [reflexivity|].
  intros i Hi. apply H. lia.
Qed.

Lemma bitmap_weight_zero (m : cpumask) (n : nat) :
  bitmap_weight m n = 0 <-> forall i, 0 <= i < Z.of_nat n -> Z.testbit m i = false.
Proof.
  induction n as [|n IH]; cbn [bitmap_weight].
  - split; [intros _ i Hi; lia | reflexivity].
  - pose proof (bitmap_weight_bounds m n) as Hb. split.
    + intros H i Hi. destruct (Z.testbit m (Z.of_nat n)) eqn:Hn; [lia|].
      destruct (Z.eq_dec i (Z.of_nat n)) as [->|Hne]; [assumption|].
      apply IH; lia.
    + intros H. rewrite (H (Z.of_nat n)) by lia.
      apply proj2 in IH. rewrite IH; [reflexivity|]. intros i Hi. apply H. lia.
Qed.

Lemma bitmap_weight_set (m : cpumask) (n : nat) (c : Z) :
  0 <= c < Z.of_nat n -> Z.testbit m c = false ->
  bitmap_weight (cpumask_set_cpu c m) n = bitmap_weight m n + 1.
Proof.
  induction n as [|n IH]; intros Hc Hb; cbn [bitmap_weight]; [lia|].
  rewrite testbit_set_cpu.
  destruct (Z.eq_dec c (Z.of_nat n)) as [->|Hne].
  - rewrite Hb, Z.eqb_refl. replace (0 <=? Z.of_nat n) with true by (symmetry; apply Z.leb_le; lia).
    cbn [orb andb]. rewrite (bitmap_weight_ext (cpumask_set_cpu (Z.of_nat n) m) m); [lia|].
    intros i Hi. rewrite testbit_set_cpu.
    replace (i =? Z.of_nat n) with false by (symmetry; apply Z.eqb_neq; lia).
    now rewrite andb_false_r, orb_false_r.
  - replace (Z.of_nat n =? c) with false by (symmetry; apply Z.eqb_neq; lia).
    rewrite andb_false_r, orb_false_r, IH by (assumption || lia). lia.
Qed.

Lemma bitmap_weight_clear (m : cpumask) (n : nat) (c : Z) :
  0 <= c < Z.of_nat n -> Z.testbit m c = true ->
  bitmap_weight (cpumask_clear_cpu c m) n = bitmap_weight m n - 1.
Proof.
  induction n as [|n IH]; intros Hc Hb; cbn [bitmap_weight]; [lia|].
  rewrite testbit_clear_cpu.
  destruct (Z.eq_dec c (Z.of_nat n)) as [->|Hne].
  - rewrite Hb, Z.eqb_refl. replace (0 <=? Z.of_nat n) with true by (symmetry; apply Z.leb_le; lia).
    cbn [negb andb]. rewrite (bitmap_weight_ext (cpumask_clear_cpu (Z.of_nat n) m) m); [lia|].
    intros i Hi. rewrite testbit_clear_cpu.
    replace (i =? Z.of_nat n) with false by (symmetry; apply Z.eqb_neq; lia).
    now rewrite andb_false_r, andb_true_r.
  - replace (Z.of_nat n =? c) with false by (symmetry; apply Z.eqb_neq; lia).
    rewrite andb_false_r. cbn [negb]. rewrite andb_true_r, IH by (assumption || lia). lia.
Qed.

Lemma bitmap_weight_subset (a b : cpumask) (n : nat) :
  (forall i, 0 <= i < Z.of_nat n -> Z.testbit a i = true -> Z.testbit b i = true) ->
  bitmap_weight a n <= bitmap_weight b n /\
  (bitmap_weight a n = bitmap_weight b n ->
   forall i, 0 <= i < Z.of_nat n -> Z.testbit a i = Z.testbit b i).
Proof.
  induction n as [|n IH]; intros H; cbn [bitmap_weight].
  - split; [lia | intros _ i Hi; lia].
  - destruct IH as [IH1 IH2]; [intros i Hi; apply H; lia|].
    specialize (H (Z.of_nat n) ltac:(lia)).
    destruct (Z.testbit a (Z.of_nat n)) eqn:Ha.
    + rewrite H by reflexivity. split; [lia|]. intros Heq i Hi.
      destruct (Z.eq_dec i (Z.of_nat n)) as [->|Hne]; [now rewrite Ha, H|].
      apply IH2; lia.
    + destruct (Z.testbit b (Z.of_nat n)) eqn:Hb.
      * split; [lia|]. intros Heq. lia.
      * split; [lia|]. intros Heq i Hi.
        destruct (Z.eq_dec i (Z.of_nat n)) as [->|Hne]; [now rewrite Ha, Hb|].
        apply IH2; lia.
Qed.

Lemma bitmap_weight_above (m : cpumask) (k n : nat) :
  (k <= n)%nat ->
  (forall i, Z.of_nat k <= i -> Z.testbit m i = false) ->
  bitmap_weight m n = bitmap_weight m k.
Proof.
  intros Hkn Hhigh. induction n as [|n IH].
  - now replace k with 0%nat by lia.
  - destruct (Nat.eq_dec k (S n)) as [->|Hne]; [reflexivity|].
    cbn [bitmap_weight]. rewrite Hhigh by lia. rewrite IH by lia. lia.
Qed.

(** ** Comparing, scanning and counting below [nr_cpu_ids] *)

Section CpumaskFacts.

Variable nr_cpu_ids : Z.
Hypothesis nr_cpu_ids_nonneg : 0 <= nr_cpu_ids.

Lemma testbit_low_bits (m : cpumask) (i : Z) :
  Z.testbit (Z.land m (Z.ones nr_cpu_ids)) i = Z.testbit m i && ((0 <=? i) && (i <? nr_cpu_ids)).
Proof. now rewrite Z.land_spec, testbit_ones. Qed.

Lemma low_bits_eq (a b : cpumask) :
  Z.land a (Z.ones nr_cpu_ids) = Z.land b (Z.ones nr_cpu_ids) <->
  forall i, 0 <= i < nr_cpu_ids -> Z.testbit a i = Z.testbit b i.
Proof.
  split.
  - intros H i Hi.
    assert (Hb : Z.testbit (Z.land a (Z.ones nr_cpu_ids)) i
                 = Z.testbit (Z.land b (Z.ones nr_cpu_ids)) i) by now rewrite H.
    rewrite !testbit_low_bits in Hb.
    replace (0 <=? i) with true in Hb by (symmetry; apply Z.leb_le; lia).
    replace (i <? nr_cpu_ids) with true in Hb by (symmetry; apply Z.ltb_lt; lia).
    now rewrite !andb_true_r in Hb.
  - intros H. apply Z.bits_inj'. intros i Hi. rewrite !testbit_low_bits.
    destruct (Z.ltb_spec i nr_cpu_ids).
    + now rewrite H by lia.
    + now rewrite !andb_false_r.
Qed.

Lemma cpumask_equal_true (a b : cpumask) :
  cpumask_equal nr_cpu_ids a b = true <->
  forall i, 0 <= i < nr_cpu_ids -> Z.testbit a i = Z.testbit b i.
Proof. unfold cpumask_equal. rewrite Z.eqb_eq. apply low_bits_eq. Qed.

Lemma cpumask_empty_true (a : cpumask) :
  cpumask_empty nr_cpu_ids a = true <->
  forall i, 0 <= i < nr_cpu_ids -> Z.testbit a i = false.
Proof.
  unfold cpumask_empty. rewrite Z.eqb_eq.
  rewrite <- (Z.land_0_l (Z.ones nr_cpu_ids)) at 1. rewrite low_bits_eq.
  split; intros H i Hi; specialize (H i Hi); now rewrite Z.bits_0 in *.
Qed.

Lemma cpumask_equal_valid (a b : cpumask) :
  cpumask_valid nr_cpu_ids a -> cpumask_valid nr_cpu_ids b ->
  cpumask_equal nr_cpu_ids a b = (a =? b).
Proof.
  intros Ha Hb. destruct (Z.eqb_spec a b) as [->|Hne].
  - apply cpumask_equal_true. reflexivity.
  - apply not_true_is_false. intros H. apply Hne.
    apply (cpumask_valid_eq nr_cpu_ids); try assumption.
    now apply cpumask_equal_true.
Qed.

Lemma cpumask_empty_valid (a : cpumask) :
  cpumask_valid nr_cpu_ids a -> cpumask_empty nr_cpu_ids a = (a =? 0).
Proof.
  intros Ha. destruct (Z.eqb_spec a 0) as [->|Hne].
  - apply cpumask_empty_true. intros i _. apply Z.bits_0.
  - apply not_true_is_false. intros H. apply Hne.
    apply (cpumask_valid_eq nr_cpu_ids); try assumption.
    + unfold cpumask_valid. split; [lia|]. apply Z.pow_pos_nonneg; lia.
    + intros i Hi. rewrite Z.bits_0. now apply cpumask_empty_true.
Qed.

Lemma cpumask_first_range (m : cpumask) : 0 <= cpumask_first nr_cpu_ids m <= nr_cpu_ids.
Proof. apply find_next_bit_range. assumption. Qed.

Lemma cpumask_first_lt (m : cpumask) :
  cpumask_empty nr_cpu_ids m = false -> cpumask_first nr_cpu_ids m < nr_cpu_ids.
Proof.
  intros Hne. pose proof (cpumask_first_range m) as Hr.
  destruct (Z.eq_dec (cpumask_first nr_cpu_ids m) nr_cpu_ids) as [Heq|]; [|lia].
  exfalso. apply not_true_iff_false in Hne. apply Hne.
  apply cpumask_empty_true. intros i Hi.
  apply (find_next_bit_least m nr_cpu_ids 0). fold (cpumask_first nr_cpu_ids m). lia.
Qed.

Lemma cpumask_first_in (m : cpumask) :
  cpumask_first nr_cpu_ids m < nr_cpu_ids ->
  Z.testbit m (cpumask_first nr_cpu_ids m) = true.
Proof. apply find_next_bit_hit. Qed.

Lemma cpumask_first_least (m : cpumask) (j : Z) :
  0 <= j < cpumask_first nr_cpu_ids m -> Z.testbit m j = false.
Proof. apply find_next_bit_least. Qed.

Lemma cpumask_first_empty (m : cpumask) :
  cpumask_empty nr_cpu_ids m = true -> cpumask_first nr_cpu_ids m = nr_cpu_ids.
Proof.
  intros H. apply find_next_bit_none. intros j Hj.
  now apply cpumask_empty_true.
Qed.

Lemma cpumask_weight_bounds (m : cpumask) :
  0 <= cpumask_weight nr_cpu_ids m <= nr_cpu_ids.
Proof.
  unfold cpumask_weight. pose proof (bitmap_weight_bounds m (Z.to_nat nr_cpu_ids)). lia.
Qed.

Lemma cpumask_weight_set (m : cpumask) (c : Z) :
  0 <= c < nr_cpu_ids -> Z.testbit m c = false ->
  cpumask_weight nr_cpu_ids (cpumask_set_cpu c m) = cpumask_weight nr_cpu_ids m + 1.
Proof. intros Hc Hb. apply bitmap_weight_set; [lia | assumption]. Qed.

Lemma cpumask_weight_clear (m : cpumask) (c : Z) :
  0 <= c < nr_cpu_ids -> Z.testbit m c = true ->
  cpumask_weight nr_cpu_ids (cpumask_clear_cpu c m) = cpumask_weight nr_cpu_ids m - 1.
Proof. intros Hc Hb. apply bitmap_weight_clear; [lia | assumption]. Qed.

Lemma cpumask_weight_zero (m : cpumask) :
  cpumask_weight nr_cpu_ids m = 0 <-> cpumask_empty nr_cpu_ids m = true.
Proof.
  unfold cpumask_weight. rewrite bitmap_weight_zero, cpumask_empty_true.
  split; intros H i Hi; apply H; lia.
Qed.

Lemma cpumask_weight_subset_eq (a b : cpumask) :
  cpumask_subset a b ->
  cpumask_weight nr_cpu_ids a = cpumask_weight nr_cpu_ids b ->
  cpumask_equal nr_cpu_ids b a = true.
Proof.
  intros Hsub Hw. apply cpumask_equal_true. intros i Hi. symmetry.
  refine (proj2 (bitmap_weight_subset a b (Z.to_nat nr_cpu_ids) _) Hw i _); [|lia].
  intros j _. now apply cpumask_subset_spec.
Qed.

Lemma cpumask_weight_equal (a b : cpumask) :
  cpumask_equal nr_cpu_ids a b = true ->
  cpumask_weight nr_cpu_ids a = cpumask_weight nr_cpu_ids b.
Proof.
  intros H. apply bitmap_weight_ext. intros i Hi.
  apply (proj1 (cpumask_equal_true a b) H). lia.
Qed.

Lemma cpumask_valid_none : cpumask_valid nr_cpu_ids cpumask_none.
Proof. split; [reflexivity|]. apply Z.pow_pos_nonneg; lia. Qed.

Lemma cpumask_valid_set_cpu (m : cpumask) (c : Z) :
  cpumask_valid nr_cpu_ids m -> c < nr_cpu_ids ->
  cpumask_valid nr_cpu_ids (cpumask_set_cpu c m).
Proof.
  intros Hm Hc. apply cpumask_valid_spec in Hm as [H0 Hhigh]; [|assumption].
  apply cpumask_valid_spec; [assumption|]. split.
  - unfold cpumask_set_cpu. apply Z.lor_nonneg. split; [assumption|].
    apply Z.shiftl_nonneg. lia.
  - intros i Hi. rewrite testbit_set_cpu, Hhigh by assumption.
    replace (i =? c) with false by (symmetry; apply Z.eqb_neq; lia).
    now rewrite andb_false_r.
Qed.

Lemma cpumask_valid_clear_cpu (m : cpumask) (c : Z) :
  cpumask_valid nr_cpu_ids m -> cpumask_valid nr_cpu_ids (cpumask_clear_cpu c m).
Proof.
  intros Hm. apply cpumask_valid_spec in Hm as [H0 Hhigh]; [|assumption].
  apply cpumask_valid_spec; [assumption|]. split.
  - unfold cpumask_clear_cpu. apply Z.ldiff_nonneg. now left.
  - intros i Hi. now rewrite testbit_clear_cpu, Hhigh.
Qed.

Lemma cpumask_valid_andnot (a b : cpumask) :
  cpumask_valid nr_cpu_ids a -> cpumask_valid nr_cpu_ids (cpumask_andnot a b).
Proof.
  intros Hm. apply cpumask_valid_spec in Hm as [H0 Hhigh]; [|assumption].
  apply cpumask_valid_spec; [assumption|]. split.
  - unfold cpumask_andnot. apply Z.ldiff_nonneg. now left.
  - intros i Hi. unfold cpumask_andnot. now rewrite Z.ldiff_spec, Hhigh.
Qed.

Lemma cpumask_valid_and (a b : cpumask) :
  cpumask_valid nr_cpu_ids a -> cpumask_valid nr_cpu_ids (cpumask_and a b).
Proof.
  intros Hm. apply cpumask_valid_spec in Hm as [H0 Hhigh]; [|assumption].
  apply cpumask_valid_spec; [assumption|]. split.
  - unfold cpumask_and. apply Z.land_nonneg. now left.
  - intros i Hi. unfold cpumask_and. now rewrite Z.land_spec, Hhigh.
Qed.

End CpumaskFacts.

(** ** The pools *)

Section Pools.

Variable nr_cpu_ids : Z.
Hypothesis nr_cpu_ids_nonneg : 0 <= nr_cpu_ids.

Local Abbreviation get_first := (cpu_mask_set_get_first nr_cpu_ids).
Local Abbreviation gen_inc := (cpu_mask_set_gen_inc nr_cpu_ids).
Local Abbreviation put := (cpu_mask_set_put nr_cpu_ids).

Lemma gen_inc_mask (p : cpu_mask_set) : mask (gen_inc p) = mask p.
Proof. unfold cpu_mask_set_gen_inc. now destruct (cpumask_equal _ _ _). Qed.

Lemma gen_inc_subset (p : cpu_mask_set) :
  cpumask_subset (used p) (mask p) ->
  cpumask_subset (used (gen_inc p)) (mask (gen_inc p)).
Proof.
  unfold cpu_mask_set_gen_inc. destruct (cpumask_equal _ _ _); [|easy].
  intros _. apply cpumask_subset_spec. cbn. intros i. now rewrite Z.bits_0.
Qed.

(** After the wrap-around step a pool with a non-empty mask has a
    candidate below [nr_cpu_ids]. *)
Lemma gen_inc_candidates (p : cpu_mask_set) :
  cpumask_subset (used p) (mask p) ->
  cpumask_empty nr_cpu_ids (mask p) = false ->
  cpumask_empty nr_cpu_ids
    (cpumask_andnot (mask (gen_inc p)) (used (gen_inc p))) = false.
Proof.
  intros Hsub Hne. apply not_true_is_false. intros Hempty.
  pose proof (proj1 (cpumask_empty_true nr_cpu_ids nr_cpu_ids_nonneg _) Hempty) as Hbits.
  unfold cpu_mask_set_gen_inc in Hbits.
  destruct (cpumask_equal nr_cpu_ids (mask p) (used p)) eqn:Heq; cbn in Hbits.
  - apply not_true_iff_false in Hne. apply Hne.
    apply cpumask_empty_true; [assumption|]. intros i Hi.
    specialize (Hbits i Hi). unfold cpumask_andnot, cpumask_none in Hbits.
    now rewrite Z.ldiff_spec, Z.bits_0, andb_true_r in Hbits.
  - apply not_true_iff_false in Heq. apply Heq.
    apply cpumask_equal_true; [assumption|]. intros i Hi.
    specialize (Hbits i Hi). unfold cpumask_andnot in Hbits.
    rewrite Z.ldiff_spec in Hbits.
    pose proof (proj1 (cpumask_subset_spec _ _) Hsub i) as Hs.
    destruct (Z.testbit (mask p) i), (Z.testbit (used p) i); try reflexivity.
    + discriminate.
    + now specialize (Hs eq_refl).
Qed.

(** What the allocation returns: a CPU below [nr_cpu_ids] that is in the
    mask, was not used after the wrap-around step, and is the lowest
    such. *)
Lemma get_first_cpu (p : cpu_mask_set) :
  cpumask_subset (used p) (mask p) ->
  cpumask_empty nr_cpu_ids (mask p) = false ->
  let c := fst (get_first p) in
  0 <= c < nr_cpu_ids /\
  Z.testbit (mask p) c = true /\
  Z.testbit (used (gen_inc p)) c = false /\
  forall j, 0 <= j < c ->
    Z.testbit (mask p) j && negb (Z.testbit (used (gen_inc p)) j) = false.
Proof.
  intros Hsub Hne. cbn.
  pose proof (gen_inc_candidates p Hsub Hne) as Hcand.
  set (diff := cpumask_andnot (mask (gen_inc p)) (used (gen_inc p))) in *.
  pose proof (cpumask_first_range nr_cpu_ids nr_cpu_ids_nonneg diff) as Hr.
  pose proof (cpumask_first_lt nr_cpu_ids nr_cpu_ids_nonneg diff Hcand) as Hlt.
  pose proof (cpumask_first_in nr_cpu_ids diff Hlt) as Hin.
assert (Hd : forall x, Z.testbit diff x
                       = Z.testbit (mask p) x && negb (Z.testbit (used (gen_inc p)) x)).
{ intros x. unfold diff, cpumask_andnot. now rewrite Z.ldiff_spec, gen_inc_mask. }
rewrite Hd in Hin. apply andb_true_iff in Hin as [Hm Hu]. apply negb_true_iff in Hu.
split; [lia|]. split; [assumption|]. split; [assumption|].
intros j Hj. rewrite <- Hd. now apply (cpumask_first_least nr_cpu_ids).
Qed.

Lemma get_first_pool (p : cpu_mask_set) :
  snd (get_first p)
  = {| mask := mask p;
       used := cpumask_set_cpu (fst (get_first p)) (used (gen_inc p));
       gen := gen (gen_inc p) |}.
Proof. cbn. unfold set_used. now rewrite gen_inc_mask. Qed.

Lemma get_first_subset (p : cpu_mask_set) :
  cpumask_subset (used p) (mask p) ->
  cpumask_empty nr_cpu_ids (mask p) = false ->
  cpumask_subset (used (snd (get_first p))) (mask (snd (get_first p))).
Proof.
  intros Hsub Hne.
  destruct (get_first_cpu p Hsub Hne) as (Hc & Hm & _).
  rewrite get_first_pool. cbn [mask used].
  apply cpumask_subset_spec. intros i. rewrite testbit_set_cpu.
  intros [Hi|Hi]%orb_true_iff.
  - pose proof (gen_inc_subset p Hsub) as Hs. rewrite gen_inc_mask in Hs.
    now apply (proj1 (cpumask_subset_spec _ _) Hs).
  - apply andb_true_iff in Hi as [_ ->%Z.eqb_eq]. assumption.
Qed.

Lemma put_subset (p : cpu_mask_set) (m : cpumask) :
  cpumask_subset (used p) (mask p) ->
  cpumask_subset (used (put p m)) (mask (put p m)).
Proof.
  intros Hsub. unfold cpu_mask_set_put.
  destruct (_ && _); cbn.
  - apply cpumask_subset_spec. auto.
  - apply cpumask_subset_spec. intros i. unfold cpumask_andnot.
    rewrite Z.ldiff_spec. intros [Hi _]%andb_true_iff.
    now apply (proj1 (cpumask_subset_spec _ _) Hsub).
Qed.

End Pools.

(** ** Allocation against the specification *)

Section Allocate.

Variable nr_cpu_ids : Z.
Hypothesis nr_cpu_ids_nonneg : 0 <= nr_cpu_ids.

Lemma gen_inc_valid (p : cpu_mask_set) :
  cpumask_valid nr_cpu_ids (mask p) -> cpumask_valid nr_cpu_ids (used p) ->
  cpu_mask_set_gen_inc nr_cpu_ids p
  = if used p =? mask p
    then {| mask := mask p; used := cpumask_none; gen := uint (gen p + 1) |}
    else p.
Proof.
  intros Hm Hu. unfold cpu_mask_set_gen_inc.
  now rewrite (cpumask_equal_valid nr_cpu_ids nr_cpu_ids_nonneg _ _ Hm Hu), Z.eqb_sym.
Qed.

Lemma gen_inc_used_valid (p : cpu_mask_set) :
  cpumask_valid nr_cpu_ids (used p) ->
  cpumask_valid nr_cpu_ids (used (cpu_mask_set_gen_inc nr_cpu_ids p)).
Proof.
  intros Hu. unfold cpu_mask_set_gen_inc. destruct (cpumask_equal _ _ _); [|assumption].
  now apply cpumask_valid_none.
Qed.

Lemma nonempty_valid (m : cpumask) :
  cpumask_valid nr_cpu_ids m -> m <> cpumask_none -> cpumask_empty nr_cpu_ids m = false.
Proof.
  intros Hm Hne. rewrite cpumask_empty_valid by assumption. now apply Z.eqb_neq.
Qed.

Lemma lowest_cpu_unique (P : Z -> Prop) (c1 c2 : Z) :
  lowest_cpu c1 P -> lowest_cpu c2 P -> c1 = c2.
Proof. intros [H1 L1] [H2 L2]. specialize (L1 _ H2). specialize (L2 _ H1). lia. Qed.

Lemma get_first_allocate_spec (p : cpu_mask_set) :
  cpumask_valid nr_cpu_ids (mask p) -> cpumask_valid nr_cpu_ids (used p) ->
  cpumask_subset (used p) (mask p) ->
  mask p <> cpumask_none ->
  allocate_spec p (fst (cpu_mask_set_get_first nr_cpu_ids p))
                  (snd (cpu_mask_set_get_first nr_cpu_ids p)) /\
  cpumask_valid nr_cpu_ids (used (snd (cpu_mask_set_get_first nr_cpu_ids p))).
Proof.
  intros Hm Hu Hsub Hne.
  pose proof (nonempty_valid _ Hm Hne) as Hne'.
  destruct (get_first_cpu nr_cpu_ids nr_cpu_ids_nonneg p Hsub Hne') as (Hc & Hcm & Hcu & Hleast).
  rewrite get_first_pool.
  set (c := fst (cpu_mask_set_get_first nr_cpu_ids p)) in *.
  unfold allocate_spec. rewrite <- (gen_inc_valid p Hm Hu).
  set (p0 := cpu_mask_set_gen_inc nr_cpu_ids p) in *.
  assert (Hp0 : mask p0 = mask p) by apply gen_inc_mask.
  cbn [mask used gen]. split; [split; [|split; [|split]]|].
  - split.
    + split; unfold cpu_in; [now rewrite Hp0 | now rewrite Hcu].
    + intros c' [Hin Hnu]. unfold cpu_in in Hin, Hnu. rewrite Hp0 in Hin.
      destruct (Z.le_gt_cases c c') as [|Hlt]; [assumption|]. exfalso.
      assert (0 <= c').
      { destruct (Z.le_gt_cases 0 c'); [assumption|].
        rewrite Z.testbit_neg_r in Hin by lia. discriminate. }
      specialize (Hleast c' ltac:(lia)). rewrite Hin in Hleast.
      destruct (Z.testbit (used p0) c'); [now apply Hnu | discriminate].
  - now rewrite Hp0.
  - reflexivity.
  - intros i. unfold cpu_in. rewrite testbit_set_cpu, orb_true_iff, andb_true_iff.
    rewrite Z.eqb_eq, Z.leb_le. intuition lia.
  - apply cpumask_valid_set_cpu; [assumption | now apply gen_inc_used_valid | lia].
Qed.

(** C2. For a pool with a non-empty mask (and [used] inside [mask], both
    without bits beyond the CPU ids), the allocation of [get_irq_affinity]
    returns [c] and leaves the pool [p'] exactly when the specification's
    allocate allows it: if [used] equals [mask] the generation is
    incremented and [used] cleared, then the lowest-numbered CPU of
    [mask] minus [used] is marked used and returned. *)
Theorem allocate_refines_spec (p : cpu_mask_set) (c : Z) (p' : cpu_mask_set) :
  cpumask_valid nr_cpu_ids (mask p) ->
  cpumask_valid nr_cpu_ids (used p) ->
  cpumask_subset (used p) (mask p) ->
  mask p <> cpumask_none ->
  cpu_mask_set_get_first nr_cpu_ids p = (c, p') <->
  (allocate_spec p c p' /\ cpumask_valid nr_cpu_ids (used p')).
Proof.
  intros Hm Hu Hsub Hne.
  pose proof (get_first_allocate_spec p Hm Hu Hsub Hne) as [Hspec Hvalid].
  split.
  - intros Heq. rewrite Heq in Hspec, Hvalid. now split.
  - intros [Hspec' Hvalid'].
    destruct (cpu_mask_set_get_first nr_cpu_ids p) as [c0 p0'] eqn:Heq.
    cbn [fst snd] in Hspec, Hvalid.
    unfold allocate_spec in Hspec, Hspec'.
    destruct Hspec as (Hlow & Hmask & Hgen & Hused).
    destruct Hspec' as (Hlow' & Hmask' & Hgen' & Hused').
    assert (c0 = c) as -> by (eapply lowest_cpu_unique; eassumption).
    f_equal. destruct p0' as [m0 u0 g0], p' as [m1 u1 g1]. cbn [mask used gen] in *.
    f_equal; try congruence.
    apply (cpumask_valid_eq nr_cpu_ids); try assumption.
    intros i _. specialize (Hused i). specialize (Hused' i). unfold cpu_in in *.
    destruct (Z.testbit u0 i), (Z.testbit u1 i); try reflexivity; intuition congruence.
Qed.

End Allocate.

(** ** Allocate then release *)

Section RoundTrip.

Variable nr_cpu_ids : Z.
Hypothesis nr_cpu_ids_nonneg : 0 <= nr_cpu_ids.

Lemma set_clear_same (c : Z) (u : cpumask) :
  Z.testbit u c = false ->
  cpumask_andnot (cpumask_set_cpu c u) (cpumask_set_cpu c cpumask_none) = u.
Proof.
  intros Hc. apply Z.bits_inj'. intros i _. unfold cpumask_andnot.
  rewrite Z.ldiff_spec, !testbit_set_cpu. unfold cpumask_none. rewrite Z.bits_0.
  destruct (Z.leb_spec 0 c), (Z.eqb_spec i c); subst; cbn; rewrite ?Hc; btauto.
Qed.

Lemma uint_small (x : Z) : 0 <= x <= UINT_MAX -> uint x = x.
Proof. unfold uint, UINT_MAX. intros H. apply Z.mod_small. lia. Qed.

(** The release of the CPU that an allocation returned undoes the
    allocation. *)
Lemma get_first_put_restores (p : cpu_mask_set) :
  cpumask_valid nr_cpu_ids (mask p) ->
  cpumask_valid nr_cpu_ids (used p) ->
  cpumask_subset (used p) (mask p) ->
  mask p <> cpumask_none ->
  0 <= gen p <= UINT_MAX ->
  (used p = cpumask_none -> gen p = 0) ->
  (used p = mask p -> gen p < UINT_MAX) ->
  cpu_mask_set_put nr_cpu_ids
    (snd (cpu_mask_set_get_first nr_cpu_ids p))
    (cpumask_set_cpu (fst (cpu_mask_set_get_first nr_cpu_ids p)) cpumask_none)
  = p.
Proof.
  intros Hm Hu Hsub Hne Hgen Hidle Hfull.
  pose proof (nonempty_valid nr_cpu_ids nr_cpu_ids_nonneg _ Hm Hne) as Hne'.
  destruct (get_first_cpu nr_cpu_ids nr_cpu_ids_nonneg p Hsub Hne') as (Hc & Hcm & Hcu & _).
  rewrite get_first_pool.
  set (c := fst (cpu_mask_set_get_first nr_cpu_ids p)) in *.
  rewrite (gen_inc_valid nr_cpu_ids nr_cpu_ids_nonneg p Hm Hu) in *.
  unfold cpu_mask_set_put. cbn [mask used gen].
  destruct p as [m u g]. cbn [mask used gen] in *.
  destruct (Z.eqb_spec u m) as [->|Hum]; cbn [mask used gen] in *.
  - rewrite set_clear_same by apply Z.bits_0.
    rewrite (cpumask_empty_valid nr_cpu_ids nr_cpu_ids_nonneg)
      by now apply cpumask_valid_none.
    specialize (Hfull eq_refl).
    rewrite uint_small by (unfold UINT_MAX in *; lia).
    replace (g + 1 =? 0) with false by (symmetry; apply Z.eqb_neq; lia).
    cbn. f_equal. lia.
  - rewrite set_clear_same by assumption.
    rewrite (cpumask_empty_valid nr_cpu_ids nr_cpu_ids_nonneg) by assumption.
    destruct (Z.eqb_spec u 0) as [->|Hu0].
    + rewrite (Hidle eq_refl). reflexivity.
    + reflexivity.
Qed.

(** C3, amended. For a pool with a non-empty mask and [used] inside
    [mask], whose generation is 0 whenever [used] is empty (as in every
    state that the operations leave) and is below [UINT_MAX] whenever
    [used] equals [mask], an allocation followed by the release of the
    CPU it returned restores mask, used and generation, also when the
    allocation wrapped around. *)
Theorem allocate_release_restores (p : cpu_mask_set) :
  cpumask_valid nr_cpu_ids (mask p) ->
  cpumask_valid nr_cpu_ids (used p) ->
  cpumask_subset (used p) (mask p) ->
  mask p <> cpumask_none ->
  0 <= gen p <= UINT_MAX ->
  (used p = cpumask_none -> gen p = 0) ->
  (used p = mask p -> gen p < UINT_MAX) ->
  cpu_mask_set_put nr_cpu_ids
    (snd (cpu_mask_set_get_first nr_cpu_ids p))
    (cpumask_set_cpu (fst (cpu_mask_set_get_first nr_cpu_ids p)) cpumask_none)
  = p.
Proof. apply get_first_put_restores. Qed.

(** Allocation and release keep an idle pool at generation 0. *)
Lemma get_first_idle_inv (p : cpu_mask_set) :
  cpumask_subset (used p) (mask p) ->
  cpumask_empty nr_cpu_ids (mask p) = false ->
  pool_idle_inv nr_cpu_ids (snd (cpu_mask_set_get_first nr_cpu_ids p)).
Proof.
  intros Hsub Hne Hempty. exfalso.
  destruct (get_first_cpu nr_cpu_ids nr_cpu_ids_nonneg p Hsub Hne) as (Hc & _).
  rewrite get_first_pool in Hempty. cbn [used] in Hempty.
  pose proof (proj1 (cpumask_empty_true nr_cpu_ids nr_cpu_ids_nonneg _) Hempty _ Hc) as Hbit.
  rewrite testbit_set_cpu, Z.eqb_refl in Hbit.
  replace (0 <=? fst (cpu_mask_set_get_first nr_cpu_ids p)) with true in Hbit
    by (symmetry; apply Z.leb_le; lia).
  rewrite orb_true_r in Hbit. discriminate.
Qed.

Lemma put_idle_inv (p : cpu_mask_set) (m : cpumask) :
  cpumask_subset (used p) (mask p) ->
  pool_idle_inv nr_cpu_ids p ->
  pool_idle_inv nr_cpu_ids (cpu_mask_set_put nr_cpu_ids p m).
Proof.
  intros Hsub Hidle. unfold cpu_mask_set_put, pool_idle_inv in *.
  destruct (cpumask_empty nr_cpu_ids (cpumask_andnot (used p) m)) eqn:Hempty;
    cbn [andb].
  - destruct (Z.eqb_spec (gen p) 0) as [Hg|Hg]; cbn [negb used gen mask set_used].
    + intros _. exact Hg.
    + intros Hmask. exfalso. apply Hg, Hidle.
      apply cpumask_empty_true; [assumption|]. intros i Hi.
      pose proof (proj1 (cpumask_empty_true nr_cpu_ids nr_cpu_ids_nonneg _) Hmask i Hi) as Hm.
      destruct (Z.testbit (used p) i) eqn:Hu; [|reflexivity].
      rewrite (proj1 (cpumask_subset_spec _ _) Hsub i Hu) in Hm. discriminate.
  - cbn [used set_used]. intros H. rewrite H in Hempty. discriminate.
Qed.

End RoundTrip.

(** ** Exhaustion and wrap-around *)

Section Exhaustion.

Variable nr_cpu_ids : Z.
Hypothesis nr_cpu_ids_nonneg : 0 <= nr_cpu_ids.

Lemma weight_lt_not_equal (p : cpu_mask_set) :
  cpumask_weight nr_cpu_ids (used p) < cpumask_weight nr_cpu_ids (mask p) ->
  cpu_mask_set_gen_inc nr_cpu_ids p = p /\ cpumask_empty nr_cpu_ids (mask p) = false.
Proof.
  intros Hlt. split.
  - unfold cpu_mask_set_gen_inc.
    destruct (cpumask_equal nr_cpu_ids (mask p) (used p)) eqn:Heq; [|reflexivity].
    apply (cpumask_weight_equal nr_cpu_ids nr_cpu_ids_nonneg) in Heq. lia.
  - apply not_true_is_false. intros He.
    apply (cpumask_weight_zero nr_cpu_ids nr_cpu_ids_nonneg) in He.
    pose proof (cpumask_weight_bounds nr_cpu_ids nr_cpu_ids_nonneg (used p)). lia.
Qed.

(** While CPUs are left, [n] allocations take [n] new CPUs of the mask and
    leave the generation alone. *)
Lemma allocate_n_fresh (n : nat) (p : cpu_mask_set) :
  cpumask_subset (used p) (mask p) ->
  cpumask_weight nr_cpu_ids (used p) + Z.of_nat n <= cpumask_weight nr_cpu_ids (mask p) ->
  let r := allocate_n nr_cpu_ids n p in
  mask (snd r) = mask p /\
  gen (snd r) = gen p /\
  cpumask_subset (used (snd r)) (mask p) /\
  cpumask_weight nr_cpu_ids (used (snd r)) = cpumask_weight nr_cpu_ids (used p) + Z.of_nat n /\
  length (fst r) = n /\
  NoDup (fst r) /\
  (forall c, c ∈ fst r ->
     0 <= c < nr_cpu_ids /\ Z.testbit (mask p) c = true /\
     Z.testbit (used p) c = false /\ Z.testbit (used (snd r)) c = true) /\
  (forall i, Z.testbit (used p) i = true -> Z.testbit (used (snd r)) i = true).
Proof.
  revert p. induction n as [|n IH]; intros p Hsub Hw; cbn zeta.
  - cbn. repeat split; try easy; try lia; try constructor;
      intros c Hc; inversion Hc.
  - destruct (weight_lt_not_equal p ltac:(lia)) as [Hinc Hne].
    pose proof (get_first_cpu nr_cpu_ids nr_cpu_ids_nonneg p Hsub Hne) as (Hc & Hcm & Hcu & _).
    pose proof (get_first_subset nr_cpu_ids nr_cpu_ids_nonneg p Hsub Hne) as Hsub1.
    pose proof (get_first_pool nr_cpu_ids p) as Hp1.
    rewrite Hinc in Hcu, Hp1.
    cbn [allocate_n].
    destruct (cpu_mask_set_get_first nr_cpu_ids p) as [c p1].
    cbn [fst snd] in *. subst p1. cbn [mask used gen] in *.
    set (p1 := {| mask := mask p; used := cpumask_set_cpu c (used p); gen := gen p |}) in *.
    specialize (IH p1 Hsub1).
    assert (Hw1 : cpumask_weight nr_cpu_ids (used p1)
                  = cpumask_weight nr_cpu_ids (used p) + 1)
      by now apply cpumask_weight_set.
    change (mask p1) with (mask p) in IH. change (gen p1) with (gen p) in IH.
    destruct IH as (IHm & IHg & IHs & IHw & IHl & IHnd & IHin & IHmono); [lia|].
    destruct (allocate_n nr_cpu_ids n p1) as [cs p2]. cbn [fst snd] in *.
    assert (Hcin : Z.testbit (used p1) c = true).
    { cbn. rewrite testbit_set_cpu, Z.eqb_refl.
      replace (0 <=? c) with true by (symmetry; apply Z.leb_le; lia).
      now rewrite orb_true_r. }
    split; [assumption|]. split; [assumption|]. split; [assumption|].
    split; [lia|]. split; [now rewrite <- IHl|]. split; [|split].
    + constructor; [|assumption]. intros Hin.
      destruct (IHin c Hin) as (_ & _ & Hfalse & _). congruence.
    + intros c' [->|Hin]%elem_of_cons.
      * repeat split; try assumption; try lia. now apply IHmono.
      * destruct (IHin c' Hin) as (H1 & H2 & H3 & H4).
        repeat split; try assumption; try lia.
        cbn in H3. rewrite testbit_set_cpu in H3. now apply orb_false_iff in H3.
    + intros i Hi. apply IHmono. cbn. rewrite testbit_set_cpu, Hi. reflexivity.
Qed.

(** C4. From a pool whose used set is empty and whose mask has [k]
    members, [k] consecutive allocations return [k] pairwise distinct
    CPUs of the mask and the generation stays what it was after each of
    them; the allocation after these increments the [uint] generation by
    one. *)
Theorem exhaustion_wraparound (p : cpu_mask_set) (k : nat) :
  used p = cpumask_none ->
  cpumask_weight nr_cpu_ids (mask p) = Z.of_nat k ->
  let r := allocate_n nr_cpu_ids k p in
  length (fst r) = k /\
  NoDup (fst r) /\
  (forall c, c ∈ fst r -> 0 <= c < nr_cpu_ids /\ cpu_in c (mask p)) /\
  (forall j, (j <= k)%nat -> gen (snd (allocate_n nr_cpu_ids j p)) = gen p) /\
  gen (snd (cpu_mask_set_get_first nr_cpu_ids (snd r))) = uint (gen p + 1) /\
  (0 <= gen p < UINT_MAX ->
   gen (snd (cpu_mask_set_get_first nr_cpu_ids (snd r))) = gen p + 1).
Proof.
  intros Hu Hk.
  assert (Hsub : cpumask_subset (used p) (mask p)).
  { rewrite Hu. unfold cpumask_subset, cpumask_none. apply Z.ldiff_0_l. }
  assert (Hw0 : cpumask_weight nr_cpu_ids (used p) = 0).
  { rewrite Hu. apply cpumask_weight_zero; [assumption|].
    apply cpumask_empty_true; [assumption|]. intros i _. apply Z.bits_0. }
  cbn zeta.
  destruct (allocate_n_fresh k p Hsub ltac:(lia)) as (Hm & Hg & Hs & Hw & Hl & Hnd & Hin & _).
  split; [assumption|]. split; [assumption|]. split; [|split].
  - intros c Hc. destruct (Hin c Hc) as (H1 & H2 & _). now split.
  - intros j Hj. now destruct (allocate_n_fresh j p Hsub ltac:(lia)) as (_ & Hgj & _).
  - assert (Hgen : gen (snd (cpu_mask_set_get_first nr_cpu_ids
                               (snd (allocate_n nr_cpu_ids k p)))) = uint (gen p + 1)).
    { rewrite get_first_pool. cbn [gen]. unfold cpu_mask_set_gen_inc.
      rewrite Hm, cpumask_weight_subset_eq; try assumption; [|lia].
      cbn [gen]. now rewrite Hg. }
    split; [assumption|]. intros Hrange. rewrite Hgen.
    apply uint_small. unfold UINT_MAX in *. lia.
Qed.

End Exhaustion.

(** ** Device attach *)

Section Attach.

Variable nr_cpu_ids : Z.
Hypothesis nr_cpu_ids_nonneg : 0 <= nr_cpu_ids.

(** A scan over [nr_cpu_ids] bits finds what a scan that stops right
    after [c] finds. *)
Lemma find_next_bit_below (m : cpumask) (offset c : Z) :
  offset <= c < nr_cpu_ids ->
  find_next_bit m (c + 1) offset = c ->
  find_next_bit m nr_cpu_ids offset = c.
Proof.
  intros Hc Hfind. apply find_next_bit_unique; [assumption| |].
  - pose proof (find_next_bit_hit m (c + 1) offset) as Hhit.
    rewrite Hfind in Hhit. apply Hhit. lia.
  - intros j Hj. apply (find_next_bit_least m (c + 1) offset). rewrite Hfind. lia.
Qed.

Lemma cpumask_weight_below (m : cpumask) (k : Z) :
  0 <= k <= nr_cpu_ids -> cpumask_valid k m ->
  cpumask_weight nr_cpu_ids m = bitmap_weight m (Z.to_nat k).
Proof.
  intros Hk Hm. apply bitmap_weight_above; [lia|].
  intros i Hi. apply cpumask_valid_spec in Hm as [_ Hm]; [|lia]. apply Hm. lia.
Qed.

Lemma attach_first_device (t : topology) (bus_node : Z)
    (a : hfi1_affinity_node_list) (dd : hfi1_devdata) :
  node_affinity_lookup a (device_node t bus_node) = None ->
  hfi1_dev_affinity_init nr_cpu_ids t bus_node true a dd
  = (0,
     with_node_list a
       (node_list a ++
        [new_affinity_node nr_cpu_ids (real_cpu_mask a)
           (node_local_mask nr_cpu_ids t (device_node t bus_node))
           (device_node t bus_node) (n_krcv_queues dd)
           (hfi1_per_node_cntr a (device_node t bus_node))]),
     with_dd_node dd (device_node t bus_node)).
Proof. intros Hnone. unfold hfi1_dev_affinity_init. now rewrite Hnone. Qed.

(** The partition of the CPUs 2, 4, 6 and 8 for two receive queues and one
    device on the node. *)
Lemma new_affinity_node_2468 (real local_mask : cpumask) (nd : Z) :
  9 <= nr_cpu_ids ->
  cpumask_and real local_mask = cpumask_of_list [2; 4; 6; 8] ->
  new_affinity_node nr_cpu_ids real local_mask nd 2 1
  = {| node := nd;
       def_intr := {| mask := cpumask_of_list [6; 8]; used := cpumask_none; gen := 0 |};
       rcv_intr := {| mask := cpumask_of_list [4]; used := cpumask_none; gen := 0 |};
       general_intr_mask := cpumask_of_list [2] |}.
Proof.
  intros Hnr Hcand. unfold new_affinity_node. rewrite Hcand.
  change (cpumask_of_list [2; 4; 6; 8]) with 340.
  rewrite (cpumask_weight_below 340 9) by (unfold cpumask_valid; lia).
  change (bitmap_weight 340 (Z.to_nat 9) =? 1) with false. cbv iota.
  unfold cpumask_first, cpumask_next.
  rewrite (find_next_bit_below 340 0 2) by (lia || reflexivity).
  change (cpumask_clear_cpu 2 340) with 336.
  rewrite (find_next_bit_below 336 (2 + 1) 4) by (lia || reflexivity).
  change (Z.to_nat (uint ((2 - 1) * 1))) with 1%nat.
  cbn [move_rcv_cpus]. unfold cpumask_next.
  change (cpumask_clear_cpu 4 336) with 320.
  rewrite (find_next_bit_below 320 (4 + 1) 6) by (lia || reflexivity).
  replace (nr_cpu_ids <=? 6) with false by (symmetry; apply Z.leb_gt; lia).
  rewrite (cpumask_weight_below 320 9) by (unfold cpumask_valid; lia).
  reflexivity.
Qed.

(** C5. The first device that attaches on a node whose real local CPUs are
    2, 4, 6 and 8, with two receive queues and one device counted on the
    node, gets the entry with general mask {2}, receive mask {4} and
    default mask {6, 8}. *)
Theorem attach_partition_example (t : topology) (bus_node : Z)
    (a : hfi1_affinity_node_list) (dd : hfi1_devdata) :
  9 <= nr_cpu_ids ->
  node_affinity_lookup a (device_node t bus_node) = None ->
  cpumask_and (real_cpu_mask a) (node_local_mask nr_cpu_ids t (device_node t bus_node))
  = cpumask_of_list [2; 4; 6; 8] ->
  n_krcv_queues dd = 2 ->
  hfi1_per_node_cntr a (device_node t bus_node) = 1 ->
  exists entry,
    hfi1_dev_affinity_init nr_cpu_ids t bus_node true a dd
    = (0, with_node_list a (node_list a ++ [entry]),
       with_dd_node dd (device_node t bus_node)) /\
    node entry = device_node t bus_node /\
    general_intr_mask entry = cpumask_of_list [2] /\
    mask (rcv_intr entry) = cpumask_of_list [4] /\
    mask (def_intr entry) = cpumask_of_list [6; 8].
Proof.
  intros Hnr Hnone Hcand Hkrcv Hcntr.
  rewrite (attach_first_device t bus_node a dd Hnone), Hkrcv, Hcntr.
  rewrite (new_affinity_node_2468 _ _ _ Hnr Hcand).
  eexists. split; [reflexivity|]. cbn [node general_intr_mask rcv_intr def_intr mask].
  repeat split.
Qed.

(** A valid mask of weight one is the bit of its first CPU. *)
Lemma cpumask_weight_one (m : cpumask) :
  cpumask_valid nr_cpu_ids m ->
  cpumask_weight nr_cpu_ids m = 1 ->
  0 <= cpumask_first nr_cpu_ids m < nr_cpu_ids /\
  cpu_in (cpumask_first nr_cpu_ids m) m /\
  m = cpumask_set_cpu (cpumask_first nr_cpu_ids m) cpumask_none.
Proof.
  intros Hm Hw.
  assert (Hne : cpumask_empty nr_cpu_ids m = false).
  { apply not_true_is_false. intros He.
    apply (cpumask_weight_zero nr_cpu_ids nr_cpu_ids_nonneg) in He. lia. }
  pose proof (cpumask_first_range nr_cpu_ids nr_cpu_ids_nonneg m) as Hr.
  pose proof (cpumask_first_lt nr_cpu_ids nr_cpu_ids_nonneg m Hne) as Hlt.
  pose proof (cpumask_first_in nr_cpu_ids m Hlt) as Hin.
  set (c := cpumask_first nr_cpu_ids m) in *.
  split; [lia|]. split; [assumption|].
  assert (Hrest : cpumask_weight nr_cpu_ids (cpumask_clear_cpu c m) = 0).
  { rewrite cpumask_weight_clear by (assumption || lia). lia. }
  apply (cpumask_weight_zero nr_cpu_ids nr_cpu_ids_nonneg) in Hrest.
  pose proof (proj1 (cpumask_empty_true nr_cpu_ids nr_cpu_ids_nonneg _) Hrest) as Hbits.
  apply (cpumask_valid_eq nr_cpu_ids); try assumption.
  - apply cpumask_valid_set_cpu; [assumption | now apply cpumask_valid_none | lia].
  - intros i Hi. specialize (Hbits i Hi).
    rewrite testbit_clear_cpu in Hbits. rewrite testbit_set_cpu.
    unfold cpumask_none. rewrite Z.bits_0.
    destruct (Z.eq_dec i c) as [Hic|Hne'].
    + rewrite Hic, Hin, Z.eqb_refl.
      now replace (0 <=? c) with true by (symmetry; apply Z.leb_le; lia).
    + replace (i =? c) with false in * by (symmetry; apply Z.eqb_neq; lia).
      rewrite andb_false_r in *. cbn [negb orb] in *. now rewrite andb_true_r in Hbits.
Qed.

(** C6. The first device that attaches on a node with exactly one
    candidate CPU gets an entry whose general mask, receive mask and
    default mask are all the singleton of that CPU. *)
Theorem attach_single_cpu_node (t : topology) (bus_node : Z)
    (a : hfi1_affinity_node_list) (dd : hfi1_devdata) :
  let nd := device_node t bus_node in
  let candidates := cpumask_and (real_cpu_mask a) (node_local_mask nr_cpu_ids t nd) in
  cpumask_valid nr_cpu_ids (real_cpu_mask a) ->
  node_affinity_lookup a nd = None ->
  cpumask_weight nr_cpu_ids candidates = 1 ->
  exists entry c,
    hfi1_dev_affinity_init nr_cpu_ids t bus_node true a dd
    = (0, with_node_list a (node_list a ++ [entry]), with_dd_node dd nd) /\
    0 <= c < nr_cpu_ids /\
    (forall i, cpu_in i candidates <-> i = c) /\
    general_intr_mask entry = cpumask_of_list [c] /\
    mask (rcv_intr entry) = cpumask_of_list [c] /\
    mask (def_intr entry) = cpumask_of_list [c].
Proof.
  intros nd candidates Hreal Hnone Hw.
  assert (Hvalid : cpumask_valid nr_cpu_ids candidates)
    by now apply cpumask_valid_and.
  destruct (cpumask_weight_one candidates Hvalid Hw) as (Hc & Hin & Heq).
  rewrite (attach_first_device t bus_node a dd Hnone).
  fold nd. unfold new_affinity_node. fold candidates. rewrite Hw. cbn [Z.eqb Pos.eqb].
  eexists. exists (cpumask_first nr_cpu_ids candidates).
  split; [reflexivity|]. cbn [general_intr_mask rcv_intr def_intr mask set_mask].
  split; [assumption|]. split; [|repeat split; exact Heq].
  intros i. rewrite Heq at 1. unfold cpu_in. rewrite testbit_set_cpu.
  unfold cpumask_none. rewrite Z.bits_0, orb_false_l, andb_true_iff, Z.leb_le, Z.eqb_eq.
  intuition lia.
Qed.

End Attach.

(** ** The update of an SDMA vector moved by the user *)

Section Update.

Lemma lookup_with_entry (a : hfi1_affinity_node_list) (nd : Z) (j : nat)
    (e e' : hfi1_affinity_node) :
  node_affinity_lookup a nd = Some (j, e) ->
  node e' = nd ->
  node_affinity_lookup (with_entry a j e') nd = Some (j, e').
Proof.
  unfold node_affinity_lookup, with_entry. cbn [node_list with_node_list].
  intros (Hj & He & Hfirst)%list_find_Some He'.
  apply list_find_Some. split; [|split].
  - apply list_lookup_insert_eq. now apply lookup_lt_Some in Hj.
  - assumption.
  - intros i y Hy Hlt. rewrite list_lookup_insert_ne in Hy by lia. eauto.
Qed.

Lemma lookup_node (a : hfi1_affinity_node_list) (nd : Z) (j : nat) (e : hfi1_affinity_node) :
  node_affinity_lookup a nd = Some (j, e) -> node e = nd /\ node_list a !! j = Some e.
Proof. unfold node_affinity_lookup. now intros (Hj & He & _)%list_find_Some. Qed.

(** The scan of the vectors finds just the other SDMA vectors that have
    the CPU in their mask. *)
Lemma other_sdma_uses_spec (l : list hfi1_msix_entry) (base self : nat) (c : Z) :
  other_sdma_uses l base self c = true <->
  exists k other,
    (base + k)%nat <> self /\ l !! k = Some other /\
    msix_type other = IRQ_SDMA /\ cpu_in c (msix_mask other).
Proof.
  revert base. induction l as [|m l IH]; intros base; cbn [other_sdma_uses].
  - split; [discriminate|]. intros (k & other & _ & Hk & _). destruct k; discriminate.
  - assert (Hrest :
      other_sdma_uses l (S base) self c = true <->
      exists k other, (base + S k)%nat <> self /\ (m :: l) !! S k = Some other /\
                      msix_type other = IRQ_SDMA /\ cpu_in c (msix_mask other)).
    { rewrite IH. split; intros (k & other & Hne & Hk & Hrest);
        exists k, other; (split; [lia|]); now split. }
    assert (Hsplit : forall P : nat -> Prop,
      (exists k, P k) <-> (P 0%nat \/ exists k, P (S k))).
    { intros P. split.
      - intros [[|k] Hk]; [now left | right; now exists k].
      - intros [H0|[k Hk]]; [now exists 0%nat | now exists (S k)]. }
    rewrite (Hsplit (fun k => exists other, (base + k)%nat <> self /\ (m :: l) !! k = Some other
                                  /\ msix_type other = IRQ_SDMA
                                  /\ cpu_in c (msix_mask other))).
    rewrite <- Hrest. cbn [lookup list_lookup].
    destruct (msix_type m) eqn:Hty.
    2,3,4: split; [now right|];
           intros [(other & _ & [= <-] & Hsd & _)|H]; [congruence | assumption].
    destruct (Nat.eqb_spec base self) as [->|Hbase].
    + split; [now right|]. intros [(other & Hne & _)|H]; [lia | assumption].
    + unfold cpumask_test_cpu. destruct (Z.testbit (msix_mask m) c) eqn:Hbit.
      * split; [|reflexivity]. intros _. left. exists m.
        split; [lia|]. now repeat split.
      * split; [now right|].
        intros [(other & _ & [= <-] & _ & Hin)|H]; [unfold cpu_in in Hin; congruence | assumption].
Qed.

Lemma other_sdma_uses_targets (dd : hfi1_devdata) (i : nat) (c : Z) :
  other_sdma_uses (msix_entries dd) 0 i c = true <-> other_sdma_targets dd i c.
Proof. rewrite other_sdma_uses_spec. reflexivity. Qed.

(** The vector that is moved is not looked at by the scan. *)
Lemma other_sdma_uses_insert (l : list hfi1_msix_entry) (base self : nat) (c : Z)
    (m : hfi1_msix_entry) :
  (base <= self)%nat ->
  other_sdma_uses (<[(self - base)%nat := m]> l) base self c = other_sdma_uses l base self c.
Proof.
  revert base. induction l as [|m0 l IH]; intros base Hle; [reflexivity|].
  destruct (Nat.eq_dec base self) as [->|Hne].
  - rewrite Nat.sub_diag. cbn [list_insert insert other_sdma_uses].
    rewrite Nat.eqb_refl. now destruct (msix_type m), (msix_type m0).
  - replace (self - base)%nat with (S (self - S base)) by lia.
    cbn [list_insert insert other_sdma_uses].
    destruct (msix_type m0), (base =? self)%nat, (cpumask_test_cpu c (msix_mask m0));
      try reflexivity; apply (IH (S base)); lia.
Qed.

Lemma other_sdma_uses_insert_self (l : list hfi1_msix_entry) (self : nat) (c : Z)
    (m : hfi1_msix_entry) :
  other_sdma_uses (<[self := m]> l) 0 self c = other_sdma_uses l 0 self c.
Proof.
  pose proof (other_sdma_uses_insert l 0 self c m ltac:(lia)) as H.
  now rewrite Nat.sub_0_r in H.
Qed.

Variable t : topology.
Variable a : hfi1_affinity_node_list.
Variable dd : hfi1_devdata.
Variable i : nat.
Variable msix : hfi1_msix_entry.
Variable k : nat.
Variable sde : sdma_engine.

Hypothesis vector_i : msix_entries dd !! i = Some msix.
Hypothesis vector_engine : arg msix = arg_sde k.
Hypothesis engine_k : per_sdma dd !! k = Some sde.

(** The two tests that reject a request leave everything as it is. *)
Lemma update_rejected (new_cpu : Z) :
  online_cpus t < uint new_cpu \/ new_cpu = cpu sde ->
  hfi1_update_sdma_affinity t a dd i new_cpu = Some (a, dd).
Proof.
  intros Hrej. unfold hfi1_update_sdma_affinity.
  rewrite vector_i. cbn. rewrite vector_engine, engine_k. cbn.
  destruct (Z.ltb_spec (online_cpus t) (uint new_cpu)); [reflexivity|].
  destruct (Z.eqb_spec new_cpu (cpu sde)); [reflexivity|]. intuition lia.
Qed.

(** C10. When the node of the device has no entry in the list, the
    update of an SDMA vector changes nothing, whatever CPU is reported
    and whatever mask the notifier is called with: the device (with the
    CPU recorded for the engine, the mask of the vector and its affinity
    hint) and the registry (with every pool) come back as they were. *)
Theorem update_without_entry_is_noop :
  node_affinity_lookup a (dd_node dd) = None ->
  (forall new_cpu, hfi1_update_sdma_affinity t a dd i new_cpu = Some (a, dd)) /\
  (forall nr_cpu_ids m, hfi1_irq_notifier_notify nr_cpu_ids t a dd i m = Some (a, dd)).
Proof.
  intros Hnone.
  assert (Hupdate : forall new_cpu,
            hfi1_update_sdma_affinity t a dd i new_cpu = Some (a, dd)).
  { intros new_cpu. unfold hfi1_update_sdma_affinity.
    rewrite vector_i. cbn. rewrite vector_engine, engine_k. cbn.
    destruct (_ || _); [reflexivity|]. now rewrite Hnone. }
  split; [exact Hupdate|]. intros nr_cpu_ids m. apply Hupdate.
Qed.

(** C7. An accepted move of the vector from CPU [cpu sde] to CPU
    [new_cpu]: the new CPU is in the mask and in the used set of the
    default pool of the node; the old CPU is cleared from both when no
    other SDMA vector of the device has it in its mask, and is left as it
    was in both when one has. *)
Theorem update_accepted (new_cpu : Z) (j : nat) (entry : hfi1_affinity_node) :
  0 <= new_cpu ->
  uint new_cpu <= online_cpus t ->
  new_cpu <> cpu sde ->
  node_affinity_lookup a (dd_node dd) = Some (j, entry) ->
  exists a' dd' set',
    hfi1_update_sdma_affinity t a dd i new_cpu = Some (a', dd') /\
    default_pool a' (dd_node dd) = Some set' /\
    cpu_in new_cpu (mask set') /\
    cpu_in new_cpu (used set') /\
    (other_sdma_targets dd i (cpu sde) ->
       (cpu_in (cpu sde) (mask set') <-> cpu_in (cpu sde) (mask (def_intr entry))) /\
       (cpu_in (cpu sde) (used set') <-> cpu_in (cpu sde) (used (def_intr entry)))) /\
    (~ other_sdma_targets dd i (cpu sde) ->
       ~ cpu_in (cpu sde) (mask set') /\ ~ cpu_in (cpu sde) (used set')) /\
    (cpu_in (cpu sde) (mask (def_intr entry)) ->
       (~ cpu_in (cpu sde) (mask set') /\ ~ cpu_in (cpu sde) (used set')) <->
       ~ other_sdma_targets dd i (cpu sde)).
Proof.
  intros Hnew Hrange Hne Hentry.
  destruct (lookup_node _ _ _ _ Hentry) as [Hnode _].
  unfold hfi1_update_sdma_affinity.
  rewrite vector_i. cbn [mbind option_bind]. rewrite vector_engine, engine_k.
  cbn [mbind option_bind].
  replace (online_cpus t <? uint new_cpu) with false by (symmetry; apply Z.ltb_ge; lia).
  replace (new_cpu =? cpu sde) with false by (symmetry; apply Z.eqb_neq; lia).
  cbn [orb]. rewrite Hentry.
  cbn [with_msix with_sde msix_entries].
  rewrite other_sdma_uses_insert_self.
  pose proof (other_sdma_uses_targets dd i (cpu sde)) as Hscan.
  assert (Hbit : forall m, Z.testbit (cpumask_set_cpu new_cpu m) new_cpu = true).
  { intros m. rewrite testbit_set_cpu, Z.eqb_refl.
    replace (0 <=? new_cpu) with true by (symmetry; apply Z.leb_le; lia).
    apply orb_true_r. }
  assert (Hold : forall m, Z.testbit (cpumask_set_cpu new_cpu m) (cpu sde)
                           = Z.testbit m (cpu sde)).
  { intros m. rewrite testbit_set_cpu.
    replace (cpu sde =? new_cpu) with false by (symmetry; apply Z.eqb_neq; lia).
    now rewrite andb_false_r, orb_false_r. }
  assert (Hclr : forall m, Z.testbit (cpumask_clear_cpu (cpu sde) m) (cpu sde) = false).
  { intros m. rewrite testbit_clear_cpu, Z.eqb_refl.
    destruct (Z.leb_spec 0 (cpu sde)); cbn.
    - apply andb_false_r.
    - rewrite andb_true_r. apply Z.testbit_neg_r. lia. }
  assert (Hkeep : forall m, Z.testbit (cpumask_clear_cpu (cpu sde) (cpumask_set_cpu new_cpu m))
                              new_cpu = true).
  { intros m. rewrite testbit_clear_cpu, Hbit.
    replace (new_cpu =? cpu sde) with false by (symmetry; apply Z.eqb_neq; lia).
    now rewrite andb_false_r. }
  destruct (other_sdma_uses (msix_entries dd) 0 i (cpu sde)) eqn:Hothers.
  - destruct Hscan as [Hscan _]. specialize (Hscan eq_refl).
    eexists _, _, _. split; [reflexivity|]. split.
    { unfold default_pool. erewrite lookup_with_entry by (eassumption || exact Hnode).
      reflexivity. }
    cbn [mask used def_intr put_pool]. unfold cpu_in. rewrite !Hbit, !Hold.
    repeat split; try tauto.
  - assert (Hnone : ~ other_sdma_targets dd i (cpu sde)).
    { intros H. apply Hscan in H. discriminate. }
    eexists _, _, _. split; [reflexivity|]. split.
    { unfold default_pool. erewrite lookup_with_entry by (eassumption || exact Hnode).
      reflexivity. }
    cbn [mask used def_intr put_pool]. unfold cpu_in. rewrite !Hkeep, !Hclr.
    repeat split; try tauto; try discriminate.
Qed.

End Update.

(** ** The hardware thread masks *)

Section HwThreads.

Variable nr_cpu_ids : Z.
Hypothesis nr_cpu_ids_nonneg : 0 <= nr_cpu_ids.

Lemma cpumask_next_range (c : Z) (m : cpumask) :
  c < nr_cpu_ids -> c < cpumask_next nr_cpu_ids c m <= nr_cpu_ids.
Proof.
  intros Hc. pose proof (find_next_bit_range m nr_cpu_ids (c + 1) ltac:(lia)).
  unfold cpumask_next. lia.
Qed.

Lemma cpumask_next_end (c : Z) (m : cpumask) :
  nr_cpu_ids <= c -> cpumask_next nr_cpu_ids c m = nr_cpu_ids.
Proof.
  intros Hc. unfold cpumask_next, find_next_bit.
  destruct (Z.leb_spec nr_cpu_ids (c + 1)); [reflexivity | lia].
Qed.

Lemma cpumask_next_le (c : Z) (m : cpumask) :
  c <= nr_cpu_ids -> c <= cpumask_next nr_cpu_ids c m <= nr_cpu_ids.
Proof.
  intros Hc. destruct (Z.eq_dec c nr_cpu_ids) as [->|Hne].
  - rewrite cpumask_next_end; lia.
  - pose proof (cpumask_next_range c m ltac:(lia)). lia.
Qed.

(** Skipping [n] CPUs moves at least [n] ids up, or to the end. *)
Lemma skip_cpus_range (n : nat) (c : Z) (m : cpumask) :
  c <= nr_cpu_ids ->
  Z.min (c + Z.of_nat n) nr_cpu_ids <= skip_cpus nr_cpu_ids n c m <= nr_cpu_ids.
Proof.
  revert c. induction n as [|n IH]; intros c Hc; cbn [skip_cpus]; [lia|].
  pose proof (cpumask_next_le c m Hc) as Hle.
  specialize (IH (cpumask_next nr_cpu_ids c m) ltac:(lia)).
  destruct (Z.eq_dec c nr_cpu_ids) as [->|Hne].
  - rewrite cpumask_next_end in * by lia. lia.
  - pose proof (cpumask_next_range c m ltac:(lia)). lia.
Qed.

(** The clearing loop leaves the CPUs below its start alone and adds
    none. *)
Lemma clear_cpus_below (n : nat) (c : Z) (m : cpumask) (i : Z) :
  c <= nr_cpu_ids -> i < c ->
  Z.testbit (clear_cpus nr_cpu_ids n c m) i = Z.testbit m i.
Proof.
  revert c m. induction n as [|n IH]; intros c m Hc Hi; cbn [clear_cpus]; [reflexivity|].
  pose proof (cpumask_next_le c (cpumask_clear_cpu c m) Hc) as Hle.
  rewrite IH by lia. rewrite testbit_clear_cpu.
  replace (i =? c) with false by (symmetry; apply Z.eqb_neq; lia).
  now rewrite andb_false_r, andb_true_r.
Qed.

Lemma clear_cpus_subset (n : nat) (c : Z) (m : cpumask) (i : Z) :
  Z.testbit (clear_cpus nr_cpu_ids n c m) i = true -> Z.testbit m i = true.
Proof.
  revert c m. induction n as [|n IH]; intros c m; cbn [clear_cpus]; [easy|].
  intros H%IH. rewrite testbit_clear_cpu in H. now apply andb_true_iff in H.
Qed.

Lemma testbit_shift_left_0 (m : cpumask) (i : Z) :
  Z.testbit (cpumask_shift_left nr_cpu_ids m 0) i
  = Z.testbit m i && ((0 <=? i) && (i <? nr_cpu_ids)).
Proof.
  unfold cpumask_shift_left. now rewrite Z.shiftl_0_r, testbit_low_bits.
Qed.

(** The mask of the hardware threads number 0: CPUs of the process mask,
    among them all those below the number of cores that the registry
    counts. *)
Lemma find_hw_thread_mask_0 (a : hfi1_affinity_node_list) (hw : cpumask) :
  find_hw_thread_mask nr_cpu_ids 0 a = Some hw ->
  (forall i, Z.testbit hw i = true -> Z.testbit (mask (proc a)) i = true) /\
  (forall i, 0 <= i < nr_cpu_ids ->
     i < uint (uint (num_online_cpus a ÷ num_core_siblings a ÷ num_online_nodes a)
               * num_online_nodes a) ->
     Z.testbit hw i = Z.testbit (mask (proc a)) i).
Proof.
  unfold find_hw_thread_mask. destruct (_ || _); [discriminate|].
  set (cores := uint (uint (num_online_cpus a ÷ num_core_siblings a ÷ num_online_nodes a)
                      * num_online_nodes a)).
  destruct (0 <? num_core_siblings a).
  - rewrite Z.mul_0_r. change (uint 0) with 0. intros [= <-]. split.
    + intros i. rewrite testbit_shift_left_0. intros [H _]%andb_true_iff.
      now apply clear_cpus_subset in H.
    + intros i Hi Hcores. rewrite testbit_shift_left_0.
      replace (0 <=? i) with true by (symmetry; apply Z.leb_le; lia).
      replace (i <? nr_cpu_ids) with true by (symmetry; apply Z.ltb_lt; lia).
      rewrite !andb_true_r.
      pose proof (cpumask_first_range nr_cpu_ids nr_cpu_ids_nonneg (mask (proc a))) as Hf.
      pose proof (skip_cpus_range (Z.to_nat cores)
                    (cpumask_first nr_cpu_ids (mask (proc a))) (mask (proc a))
                    ltac:(lia)) as Hs.
      apply clear_cpus_below; lia.
  - intros [= <-]. split; [easy|reflexivity].
Qed.

Lemma find_hw_thread_mask_some (i : Z) (a : hfi1_affinity_node_list) :
  num_core_siblings a <> 0 -> num_online_nodes a <> 0 ->
  exists hw, find_hw_thread_mask nr_cpu_ids i a = Some hw.
Proof.
  intros Hs Hn. unfold find_hw_thread_mask.
  replace (num_core_siblings a =? 0) with false by (symmetry; now apply Z.eqb_neq).
  replace (num_online_nodes a =? 0) with false by (symmetry; now apply Z.eqb_neq).
  cbn [orb]. destruct (0 <? num_core_siblings a); eauto.
Qed.

(** Without hyperthreading the loop over the hardware threads keeps the
    mask of the threads number 0. *)
Lemma find_free_hw_thread_single (a : hfi1_affinity_node_list) (m0 used_mask : cpumask) :
  num_online_nodes a <> 0 -> num_core_siblings a = 1 ->
  exists hw,
    find_hw_thread_mask nr_cpu_ids 0 a = Some hw /\
    find_free_hw_thread nr_cpu_ids (Z.to_nat (num_core_siblings a)) 0 m0 a used_mask = Some hw.
Proof.
  intros Hn Hs.
  destruct (find_hw_thread_mask_some 0 a ltac:(lia) Hn) as [hw Hhw].
  exists hw. split; [assumption|]. rewrite Hs.
  change (Z.to_nat 1) with 1%nat. cbn [find_free_hw_thread]. rewrite Hhw.
  cbn [mbind option_bind]. now destruct (negb _).
Qed.

Lemma cpumask_nonempty_bit (m : cpumask) (c : Z) :
  0 <= c < nr_cpu_ids -> Z.testbit m c = true -> cpumask_empty nr_cpu_ids m = false.
Proof.
  intros Hc Hb. apply not_true_is_false. intros He.
  rewrite (proj1 (cpumask_empty_true nr_cpu_ids nr_cpu_ids_nonneg m) He c Hc) in Hb.
  discriminate.
Qed.

Lemma cpumask_first_unique (m : cpumask) (c : Z) :
  0 <= c < nr_cpu_ids -> Z.testbit m c = true ->
  (forall j, 0 <= j < c -> Z.testbit m j = false) ->
  cpumask_first nr_cpu_ids m = c.
Proof. intros. now apply find_next_bit_unique. Qed.

End HwThreads.

(** ** The process advisor on an idle eight-CPU pool *)

Section ProcExample.

Variable nr_cpu_ids : Z.
Hypothesis eight_cpus : 8 <= nr_cpu_ids.

Variable t : topology.
Variable nd : Z.
Hypothesis node_cpus : cpumask_of_node t nd = cpumask_of_list [0; 1; 2; 3].

Lemma with_proc_same (a : hfi1_affinity_node_list) : with_proc a (proc a) = a.
Proof. now destruct a. Qed.

Lemma cores_of_eight (n : Z) :
  1 <= n <= 8 -> 5 <= uint (uint (8 ÷ 1 ÷ n) * n).
Proof.
  intros Hn.
  assert (Hcases : n = 1 \/ n = 2 \/ n = 3 \/ n = 4 \/ n = 5 \/ n = 6 \/ n = 7 \/ n = 8)
    by lia.
  destruct Hcases as [->|[->|[->|[->|[->|[->|[->| ->]]]]]]]; vm_compute; discriminate.
Qed.

(** With the CPUs below [c] used and nothing else, the advisor gives the
    CPU [c] of the node. *)
Lemma proc_affinity_next_cpu (a : hfi1_affinity_node_list) (c : Z) :
  0 <= c <= 3 ->
  mask (proc a) = cpumask_of_list [0; 1; 2; 3; 4; 5; 6; 7] ->
  used (proc a) = Z.ones c ->
  num_core_siblings a = 1 ->
  num_online_cpus a = 8 ->
  1 <= num_online_nodes a <= 8 ->
  node_affinity_lookup a nd = None ->
  hfi1_get_proc_affinity nr_cpu_ids t (mask (proc a)) true a nd
  = Some (c, with_proc a (set_used (proc a) (cpumask_set_cpu c (used (proc a))))).
Proof.
  intros Hc Hmask Hused Hsib Hcpus Hnodes Hlookup.
  assert (Hnr : 0 <= nr_cpu_ids) by lia.
  change (cpumask_of_list [0; 1; 2; 3; 4; 5; 6; 7]) with (Z.ones 8) in Hmask.
  change (cpumask_of_list [0; 1; 2; 3]) with (Z.ones 4) in node_cpus.
  assert (Hm : forall i, 0 <= i <= 3 -> Z.testbit (mask (proc a)) i = true).
  { intros i Hi. rewrite Hmask, testbit_ones by lia.
    apply andb_true_iff. split; [apply Z.leb_le | apply Z.ltb_lt]; lia. }
  assert (Hinc : cpu_mask_set_gen_inc nr_cpu_ids (proc a) = proc a).
  { unfold cpu_mask_set_gen_inc.
    destruct (cpumask_equal nr_cpu_ids (mask (proc a)) (used (proc a))) eqn:Heq;
      [|reflexivity].
    pose proof (proj1 (cpumask_equal_true nr_cpu_ids Hnr _ _) Heq c ltac:(lia)) as Hbit.
    rewrite Hm, Hused, testbit_ones in Hbit by lia.
    rewrite Z.ltb_irrefl, andb_false_r in Hbit. discriminate. }
  assert (Hw : cpumask_weight nr_cpu_ids (mask (proc a)) = 8).
  { rewrite (cpumask_weight_below nr_cpu_ids (mask (proc a)) 8);
      [now rewrite Hmask|lia|].
    rewrite Hmask. unfold cpumask_valid.
    change (Z.ones 8) with 255. change (2 ^ 8) with 256. lia. }
  unfold hfi1_get_proc_affinity. cbv zeta. rewrite !Hw.
  change (8 =? 1) with false. change (8 <? 8) with false. cbv iota. cbn [negb].
  rewrite Hinc, with_proc_same, Hlookup, Hsib.
  change (0 <? 1) with true. cbv iota. rewrite <- Hsib.
  destruct (find_free_hw_thread_single nr_cpu_ids a (mask (proc a)) (used (proc a))
              ltac:(lia) Hsib) as (hw & Hhw & ->).
  destruct (find_hw_thread_mask_0 nr_cpu_ids Hnr a hw Hhw) as [_ Hlow].
  rewrite Hsib, Hcpus in Hlow.
  pose proof (cores_of_eight (num_online_nodes a) Hnodes) as Hcores.
  cbn [mbind option_bind intrs_mask_of]. rewrite node_cpus, Hused.
  set (avail := cpumask_andnot (cpumask_andnot (cpumask_and hw (Z.ones 4)) (Z.ones c))
                  cpumask_none).
  assert (Hbits : forall i, 0 <= i <= 3 ->
            Z.testbit avail i = negb (i <? c)).
  { intros i Hi. unfold avail, cpumask_andnot, cpumask_and, cpumask_none.
    rewrite !Z.ldiff_spec, Z.land_spec, Z.bits_0, !testbit_ones by lia.
    rewrite Hlow, Hm by lia.
    replace (0 <=? i) with true by (symmetry; apply Z.leb_le; lia).
    replace (i <? 4) with true by (symmetry; apply Z.ltb_lt; lia).
    now destruct (i <? c). }
  assert (Hin : Z.testbit avail c = true).
  { rewrite Hbits by lia. now rewrite Z.ltb_irrefl. }
  rewrite (cpumask_nonempty_bit nr_cpu_ids Hnr avail c) by (lia || assumption).
  cbn [negb]. rewrite (cpumask_nonempty_bit nr_cpu_ids Hnr avail c) by (lia || assumption).
  rewrite (cpumask_first_unique nr_cpu_ids avail c); [|lia|assumption|].
  - replace (nr_cpu_ids <=? c) with false by (symmetry; apply Z.leb_gt; lia).
    reflexivity.
  - intros j Hj. rewrite Hbits by lia.
    now replace (j <? c) with true by (symmetry; apply Z.ltb_lt; lia).
Qed.

(** C9. Process pool {0..7}, nothing used, generation 0, no
    hyperthreading (one sibling per core), eight online CPUs on one to
    eight online nodes, no entry for the node, whose CPUs are 0 to 3, and
    a process allowed on the whole pool: the first call returns CPU 0 and
    marks it used, the next call returns CPU 1. *)
Theorem proc_affinity_first_calls (a : hfi1_affinity_node_list) :
  mask (proc a) = cpumask_of_list [0; 1; 2; 3; 4; 5; 6; 7] ->
  used (proc a) = cpumask_none ->
  gen (proc a) = 0 ->
  num_core_siblings a = 1 ->
  num_online_cpus a = 8 ->
  1 <= num_online_nodes a <= 8 ->
  node_affinity_lookup a nd = None ->
  exists a1 a2,
    hfi1_get_proc_affinity nr_cpu_ids t (mask (proc a)) true a nd = Some (0, a1) /\
    proc a1 = {| mask := mask (proc a); used := cpumask_of_list [0]; gen := 0 |} /\
    hfi1_get_proc_affinity nr_cpu_ids t (mask (proc a)) true a1 nd = Some (1, a2) /\
    proc a2 = {| mask := mask (proc a); used := cpumask_of_list [0; 1]; gen := 0 |}.
Proof.
  intros Hmask Hused Hgen Hsib Hcpus Hnodes Hlookup.
  pose proof (proc_affinity_next_cpu a 0 ltac:(lia) Hmask Hused Hsib Hcpus Hnodes Hlookup)
    as Hfirst.
  set (a1 := with_proc a (set_used (proc a) (cpumask_set_cpu 0 (used (proc a))))) in *.
  assert (Hproc1 : proc a1
                   = {| mask := mask (proc a); used := cpumask_of_list [0]; gen := 0 |}).
  { unfold a1. cbn. unfold set_used. now rewrite Hused, Hgen. }
  pose proof (proc_affinity_next_cpu a1 1 ltac:(lia)) as Hsecond.
  rewrite Hproc1 in Hsecond. cbn [mask used gen] in Hsecond.
  specialize (Hsecond Hmask eq_refl Hsib Hcpus Hnodes Hlookup).
  exists a1. eexists. split; [exact Hfirst|]. split; [exact Hproc1|].
  split; [exact Hsecond|]. reflexivity.
Qed.

End ProcExample.

(** ** The invariant [used ⊆ mask] *)

Section Invariant.

Variable nr_cpu_ids : Z.
Hypothesis nr_cpu_ids_nonneg : 0 <= nr_cpu_ids.

Lemma pool_inv_unused (m : cpumask) (g : Z) :
  pool_inv {| mask := m; used := cpumask_none; gen := g |}.
Proof. unfold pool_inv, cpumask_subset, cpumask_none. apply Z.ldiff_0_l. Qed.

Lemma pool_inv_spec (s : cpu_mask_set) :
  pool_inv s <-> forall i, Z.testbit (used s) i = true -> Z.testbit (mask s) i = true.
Proof. apply cpumask_subset_spec. Qed.

Lemma init_inv (t : topology) (bus_nodes : list Z) (ok : bool) (r : Z)
    (a : hfi1_affinity_node_list) :
  node_affinity_init nr_cpu_ids t bus_nodes ok node_affinity_static = Some (r, a) ->
  registry_inv a.
Proof.
  unfold node_affinity_init. destruct (init_real_cpu_mask nr_cpu_ids t); [|discriminate].
  cbn [mbind option_bind].
  destruct ok; intros [= <- <-]; (split; [apply pool_inv_unused | constructor]).
Qed.

Lemma new_affinity_node_inv (real local_mask : cpumask) (nd krcv cntr : Z) :
  let e := new_affinity_node nr_cpu_ids real local_mask nd krcv cntr in
  pool_inv (def_intr e) /\ pool_inv (rcv_intr e).
Proof.
  unfold new_affinity_node. destruct (_ =? 1).
  - split; apply pool_inv_unused.
  - destruct (move_rcv_cpus _ _ _ _ _). split; apply pool_inv_unused.
Qed.

Lemma attach_inv (t : topology) (bus_node : Z) (ok : bool)
    (a a' : hfi1_affinity_node_list) (dd dd' : hfi1_devdata) (r : Z) :
  hfi1_dev_affinity_init nr_cpu_ids t bus_node ok a dd = (r, a', dd') ->
  registry_inv a -> registry_inv a'.
Proof.
  unfold hfi1_dev_affinity_init. intros Heq [Hproc Hnodes].
  destruct (node_affinity_lookup a _); [now injection Heq as <- <- <-|].
  destruct ok; injection Heq as <- <- <-; [|now split].
  split; [assumption|]. cbn [node_list with_node_list].
  apply Forall_app. split; [assumption|]. constructor; [|constructor].
  apply new_affinity_node_inv.
Qed.

Lemma with_entry_inv (a : hfi1_affinity_node_list) (j : nat) (e : hfi1_affinity_node)
    (s : pool_sel) (p : cpu_mask_set) :
  registry_inv a -> node_list a !! j = Some e -> pool_inv p ->
  registry_inv (with_entry a j (put_pool e s p)).
Proof.
  intros [Hproc Hnodes] Hj Hp. split; [assumption|].
  cbn [with_entry node_list with_node_list]. apply Forall_insert; [assumption|].
  pose proof (Forall_lookup_1 _ _ _ _ Hnodes Hj) as [Hd Hr].
  destruct s; now split.
Qed.

Lemma entry_pool_inv (a : hfi1_affinity_node_list) (nd : Z) (j : nat)
    (e : hfi1_affinity_node) (s : pool_sel) :
  registry_inv a -> node_affinity_lookup a nd = Some (j, e) ->
  node_list a !! j = Some e /\ pool_inv (get_pool e s).
Proof.
  intros [_ Hnodes] Hlook. destruct (lookup_node _ _ _ _ Hlook) as [_ Hj].
  split; [assumption|].
  pose proof (Forall_lookup_1 _ _ _ _ Hnodes Hj) as [Hd Hr]. now destruct s.
Qed.

Lemma get_irq_inv (ok : bool) (a a' : hfi1_affinity_node_list) (dd dd' : hfi1_devdata)
    (i : nat) (r : Z) :
  hfi1_get_irq_affinity nr_cpu_ids ok a dd i = Some (r, a', dd') ->
  irq_pool_nonempty nr_cpu_ids a dd i ->
  registry_inv a -> registry_inv a'.
Proof.
  unfold hfi1_get_irq_affinity, get_irq_affinity, irq_pool_nonempty.
  intros Heq Hne Hinv.
  destruct (msix_entries dd !! i) as [m|] eqn:Hm; [|discriminate].
  cbn [mbind option_bind] in Heq. specialize (Hne m).
  destruct ok; cbn [negb] in Heq; [|now injection Heq as <- <- <-].
  destruct (node_affinity_lookup a (dd_node dd)) as [[j e]|] eqn:Hlook.
  - specialize (Hne j e).
    pose proof (fun s => entry_pool_inv a (dd_node dd) j e s Hinv Hlook) as Hpool.
    unfold irq_pool in Hne.
    destruct (msix_type m) eqn:Hty, (arg m) as [k|ctxt|] eqn:Harg;
      cbn [mbind option_bind] in Heq; try discriminate;
      try (now injection Heq as <- <- <-).
    + destruct (per_sdma dd !! k); [|discriminate].
      cbn [mbind option_bind] in Heq. injection Heq as <- <- <-.
      destruct (Hpool sel_def) as [Hj Hp].
      refine (with_entry_inv a j e sel_def
                (snd (cpu_mask_set_get_first nr_cpu_ids (def_intr e))) Hinv Hj _).
      apply get_first_subset; [assumption|exact Hp|]. now apply (Hne sel_def).
    + destruct (ctxt =? HFI1_CTRL_CTXT) eqn:Hctl; cbn [mbind option_bind] in Heq.
      * now injection Heq as <- <- <-.
      * injection Heq as <- <- <-.
        destruct (Hpool sel_rcv) as [Hj Hp].
        refine (with_entry_inv a j e sel_rcv
                  (snd (cpu_mask_set_get_first nr_cpu_ids (rcv_intr e))) Hinv Hj _).
        apply get_first_subset; [assumption|exact Hp|]. now apply (Hne sel_rcv).
  - destruct (msix_type m) eqn:Hty, (arg m) as [k|ctxt|] eqn:Harg;
      cbn [mbind option_bind] in Heq; try discriminate;
      try (now injection Heq as <- <- <-).
    destruct (ctxt =? HFI1_CTRL_CTXT); cbn [mbind option_bind] in Heq; discriminate.
Qed.

Lemma put_irq_inv (a a' : hfi1_affinity_node_list) (dd dd' : hfi1_devdata) (i : nat) :
  hfi1_put_irq_affinity nr_cpu_ids a dd i = Some (a', dd') ->
  registry_inv a -> registry_inv a'.
Proof.
  unfold hfi1_put_irq_affinity. intros Heq Hinv.
  destruct (msix_entries dd !! i) as [m|] eqn:Hm; [|discriminate].
  cbn [mbind option_bind] in Heq.
  assert (Hput : forall s (x : hfi1_devdata),
    ('(j, e) ← node_affinity_lookup a (dd_node dd);
     Some (with_entry a j
             (put_pool e s (cpu_mask_set_put nr_cpu_ids (get_pool e s) (msix_mask m))),
           x)) = Some (a', dd') -> registry_inv a').
  { intros s x Hs.
    destruct (node_affinity_lookup a (dd_node dd)) as [[j e]|] eqn:Hlook; [|discriminate].
    cbn [mbind option_bind] in Hs. injection Hs as <- <-.
    destruct (entry_pool_inv a (dd_node dd) j e s Hinv Hlook) as [Hj Hp].
    apply with_entry_inv; try assumption. now apply put_subset. }
  destruct (msix_type m), (arg m) as [k|ctxt|];
    try discriminate; try (now injection Heq as <- <-);
    try (eapply Hput; exact Heq).
  destruct (ctxt =? HFI1_CTRL_CTXT); [now injection Heq as <- <-|].
  eapply Hput; exact Heq.
Qed.

Lemma update_inv (t : topology) (a a' : hfi1_affinity_node_list) (dd dd' : hfi1_devdata)
    (i : nat) (new_cpu : Z) :
  hfi1_update_sdma_affinity t a dd i new_cpu = Some (a', dd') ->
  registry_inv a -> registry_inv a'.
Proof.
  unfold hfi1_update_sdma_affinity. intros Heq Hinv.
  destruct (msix_entries dd !! i) as [m|]; [|discriminate].
  cbn [mbind option_bind] in Heq.
  destruct (arg m) as [k| |]; try discriminate.
  destruct (per_sdma dd !! k) as [sde|]; [|discriminate].
  cbn [mbind option_bind] in Heq.
  destruct (_ || _); [now injection Heq as <- <-|].
  destruct (node_affinity_lookup a (dd_node dd)) as [[j e]|] eqn:Hlook;
    [|now injection Heq as <- <-].
  injection Heq as <- <-.
  destruct (entry_pool_inv a (dd_node dd) j e sel_def Hinv Hlook) as [Hj Hp].
  refine (with_entry_inv a j e sel_def _ Hinv Hj _).
  cbn [get_pool] in Hp. pose proof (proj1 (pool_inv_spec _) Hp) as Hp'. clear Hp.
  rename Hp' into Hp. apply pool_inv_spec.
  destruct (other_sdma_uses _ _ _ _); cbn [mask used]; intros x.
  - rewrite !testbit_set_cpu. intros [H|H]%orb_true_iff.
    + now rewrite (Hp x H).
    + rewrite H. apply orb_true_r.
  - rewrite !testbit_clear_cpu, !testbit_set_cpu.
    intros [[H|H]%orb_true_iff ->]%andb_true_iff; rewrite andb_true_r.
    + now rewrite (Hp x H).
    + rewrite H. apply orb_true_r.
Qed.

Lemma put_proc_inv (a : hfi1_affinity_node_list) (c : Z) :
  registry_inv a -> registry_inv (hfi1_put_proc_affinity nr_cpu_ids a c).
Proof.
  intros [Hproc Hnodes]. unfold hfi1_put_proc_affinity.
  destruct (c <? 0); [now split|].
  destruct (_ && _); (split; [|assumption]); cbn [proc with_proc].
  - apply pool_inv_spec. auto.
  - apply pool_inv_spec. cbn [used mask set_used]. intros x.
    rewrite testbit_clear_cpu. intros [H _]%andb_true_iff.
    now apply (proj1 (pool_inv_spec _) Hproc).
Qed.

Lemma find_hw_thread_mask_with_proc (i : Z) (a : hfi1_affinity_node_list)
    (p : cpu_mask_set) :
  mask p = mask (proc a) ->
  find_hw_thread_mask nr_cpu_ids i (with_proc a p) = find_hw_thread_mask nr_cpu_ids i a.
Proof.
  intros Hp. unfold find_hw_thread_mask.
  cbn [with_proc num_core_siblings num_online_nodes num_online_cpus proc].
  now rewrite Hp.
Qed.

Lemma find_free_hw_thread_cases (n : nat) (i : Z) (m0 : cpumask)
    (a : hfi1_affinity_node_list) (u hw : cpumask) :
  find_free_hw_thread nr_cpu_ids n i m0 a u = Some hw ->
  hw = m0 \/
  exists k, i <= k < i + Z.of_nat n /\ find_hw_thread_mask nr_cpu_ids k a = Some hw.
Proof.
  revert i m0. induction n as [|n IH]; intros i m0; cbn [find_free_hw_thread].
  - intros [= ->]. now left.
  - destruct (find_hw_thread_mask nr_cpu_ids i a) as [hw'|] eqn:Hhw; [|discriminate].
    cbn [mbind option_bind].
    destruct (negb _).
    + intros [= <-]. right. exists i. split; [lia | assumption].
    + intros [->|(k & Hk & Hfound)]%IH.
      * right. exists i. split; [lia | assumption].
      * right. exists k. split; [lia | assumption].
Qed.

Lemma get_proc_inv (t : topology) (proc_mask : cpumask) (ok : bool)
    (a a' : hfi1_affinity_node_list) (nd c : Z) :
  hfi1_get_proc_affinity nr_cpu_ids t proc_mask ok a nd = Some (c, a') ->
  pinned_in_pool nr_cpu_ids a proc_mask ->
  hw_threads_in_pool nr_cpu_ids a ->
  registry_inv a -> registry_inv a'.
Proof.
  unfold hfi1_get_proc_affinity, pinned_in_pool, hw_threads_in_pool.
  intros Heq Hpin Hhw [Hproc Hnodes]. cbv zeta in Heq.
  destruct (Z.eqb_spec (cpumask_weight nr_cpu_ids proc_mask) 1) as [Hone|_].
  { injection Heq as <- <-. split; [|assumption]. cbn [proc with_proc].
    apply pool_inv_spec. cbn [used mask set_used]. intros x.
    rewrite testbit_set_cpu. intros [H|H]%orb_true_iff.
    - now apply (proj1 (pool_inv_spec _) Hproc).
    - apply andb_true_iff in H as [_ ->%Z.eqb_eq]. now apply Hpin. }
  destruct (_ <? _); [now injection Heq as <- <-|].
  destruct ok; cbn [negb] in Heq; [|now injection Heq as <- <-].
  set (set1 := cpu_mask_set_gen_inc nr_cpu_ids (proc a)) in *.
  assert (Hmask1 : mask set1 = mask (proc a)) by apply gen_inc_mask.
  assert (Hinv1 : pool_inv set1) by now apply gen_inc_subset.
  assert (Hsib : num_core_siblings (with_proc a set1) = num_core_siblings a) by reflexivity.
  rewrite Hsib in Heq.
  match type of Heq with
  | (?x ≫= _) = _ => destruct x as [hw|] eqn:Hthreads; [|discriminate]
  end.
  cbn [mbind option_bind] in Heq.
  assert (Hsub : forall x, Z.testbit hw x = true -> Z.testbit (mask set1) x = true).
  { destruct (Z.ltb_spec 0 (num_core_siblings a)) as [Hpos|_].
    - apply find_free_hw_thread_cases in Hthreads as [->|(k & Hk & Hfound)]; [easy|].
      rewrite find_hw_thread_mask_with_proc in Hfound by assumption.
      rewrite Hmask1. apply cpumask_subset_spec. apply (Hhw k); [lia | assumption].
    - now injection Hthreads as <-. }
  match type of Heq with
  | (if nr_cpu_ids <=? cpumask_first nr_cpu_ids ?m then _ else _) = _ =>
      set (avail := m) in *;
      assert (Havail : forall x, Z.testbit avail x = true -> Z.testbit hw x = true)
  end.
  { intros x. unfold avail, cpumask_andnot, cpumask_and.
    repeat match goal with
           | |- context [if ?b then _ else _] => destruct b
           end;
      rewrite ?Z.ldiff_spec, ?Z.land_spec, ?andb_true_iff; tauto. }
  destruct (Z.leb_spec nr_cpu_ids (cpumask_first nr_cpu_ids avail)) as [|Hlt];
    injection Heq as <- <-; (split; [|assumption]); cbn [proc with_proc]; [assumption|].
  apply pool_inv_spec. cbn [used mask set_used]. intros x.
  rewrite testbit_set_cpu. intros [H|H]%orb_true_iff.
  - now apply (proj1 (pool_inv_spec _) Hinv1).
  - apply andb_true_iff in H as [_ ->%Z.eqb_eq].
    apply Hsub, Havail. now apply cpumask_first_in.
Qed.

Lemma step_inv (a a' : hfi1_affinity_node_list) :
  affinity_step nr_cpu_ids a a' -> registry_inv a -> registry_inv a'.
Proof.
  intros Hstep Hinv. destruct Hstep.
  - eapply attach_inv; eassumption.
  - eapply get_irq_inv; eassumption.
  - eapply put_irq_inv; eassumption.
  - eapply update_inv; eassumption.
  - eapply get_proc_inv; eassumption.
  - now apply put_proc_inv.
Qed.

(** C1, amended. After [node_affinity_init] and after every completed
    attach, get of a vector that draws from a pool whose mask has a CPU,
    put of a vector, update of a moved SDMA vector, release of a process
    CPU, and advice to a process that is not pinned to a single CPU
    outside the process pool and whose hardware thread masks lie in the
    process pool (as they do without hyperthreading, and when the online
    CPUs have contiguous ids): in the process pool and in the default and
    receive pools of every node, every used CPU is a CPU of the mask. *)
Theorem used_subset_mask (a : hfi1_affinity_node_list) :
  reachable nr_cpu_ids a -> registry_inv a.
Proof.
  induction 1 as [t bus_nodes ok r a Hinit | a a' _ IH Hstep].
  - eapply init_inv; eassumption.
  - eapply step_inv; eassumption.
Qed.

(** Without hyperthreading the hardware thread masks lie in the process
    pool. *)
Lemma hw_threads_in_pool_single (a : hfi1_affinity_node_list) :
  num_core_siblings a = 1 -> hw_threads_in_pool nr_cpu_ids a.
Proof.
  intros Hsib i hw Hi Hhw. replace i with 0 in Hhw by lia.
  apply cpumask_subset_spec.
  now apply (find_hw_thread_mask_0 nr_cpu_ids nr_cpu_ids_nonneg a hw).
Qed.

End Invariant.

(** ** Hardware threads on contiguous CPU ids *)

Section ContiguousThreads.

Variable nr_cpu_ids : Z.
Hypothesis nr_cpu_ids_nonneg : 0 <= nr_cpu_ids.

Lemma bitmap_weight_ones (k : nat) (n : Z) :
  0 <= n -> bitmap_weight (Z.ones n) k = Z.min n (Z.of_nat k).
Proof.
  intros Hn. induction k as [|k IH]; cbn [bitmap_weight]; [lia|].
  rewrite IH, testbit_ones by assumption.
  replace (0 <=? Z.of_nat k) with true by (symmetry; apply Z.leb_le; lia).
  cbn [andb]. destruct (Z.ltb_spec (Z.of_nat k) n); lia.
Qed.

Lemma cpumask_next_succ (c : Z) (m : cpumask) :
  c + 1 < nr_cpu_ids -> Z.testbit m (c + 1) = true ->
  cpumask_next nr_cpu_ids c m = c + 1.
Proof.
  intros Hc Hb. unfold cpumask_next.
  apply find_next_bit_unique; [lia | assumption | intros j Hj; lia].
Qed.

Lemma skip_cpus_ones (k : nat) (c n : Z) :
  0 <= c -> c + Z.of_nat k < n -> n <= nr_cpu_ids ->
  skip_cpus nr_cpu_ids k c (Z.ones n) = c + Z.of_nat k.
Proof.
  revert c. induction k as [|k IH]; intros c Hc Hk Hn; cbn [skip_cpus]; [lia|].
  rewrite cpumask_next_succ, IH; try lia.
  rewrite testbit_ones by lia.
  apply andb_true_iff. split; [apply Z.leb_le | apply Z.ltb_lt]; lia.
Qed.

(** Clearing [k] CPUs that are all in the mask, from [c] on, clears the
    CPUs [c] to [c + k - 1]. *)
Lemma clear_cpus_run (k : nat) (c : Z) (m : cpumask) (x : Z) :
  0 <= c -> c + Z.of_nat k <= nr_cpu_ids ->
  (forall j, c <= j < c + Z.of_nat k -> Z.testbit m j = true) ->
  Z.testbit (clear_cpus nr_cpu_ids k c m) x
  = Z.testbit m x && negb ((c <=? x) && (x <? c + Z.of_nat k)).
Proof.
  revert c m. induction k as [|k IH]; intros c m Hc Hk Hrun; cbn [clear_cpus].
  - replace ((c <=? x) && (x <? c + Z.of_nat 0)) with false; [now rewrite andb_true_r|].
    symmetry. apply andb_false_iff.
    destruct (Z.leb_spec c x); [right; apply Z.ltb_ge; lia | now left].
  - assert (Hone : Z.testbit (cpumask_clear_cpu c m) x
                   = Z.testbit m x && negb (x =? c)).
    { rewrite testbit_clear_cpu.
      now replace (0 <=? c) with true by (symmetry; apply Z.leb_le; lia). }
    destruct k as [|k].
    + cbn [clear_cpus]. rewrite Hone. f_equal. f_equal.
      destruct (Z.eqb_spec x c), (Z.leb_spec c x), (Z.ltb_spec x (c + Z.of_nat 1));
        try reflexivity; lia.
    + rewrite cpumask_next_succ; [|lia|].
      * rewrite IH; [|lia|lia|].
        -- rewrite Hone. rewrite <- andb_assoc. f_equal.
           destruct (Z.eqb_spec x c), (Z.leb_spec (c + 1) x), (Z.leb_spec c x),
             (Z.ltb_spec x (c + 1 + Z.of_nat (S k))),
             (Z.ltb_spec x (c + Z.of_nat (S (S k)))); try reflexivity; lia.
        -- intros j Hj. rewrite testbit_clear_cpu, Hrun by lia.
           replace (j =? c) with false by (symmetry; apply Z.eqb_neq; lia).
           now rewrite andb_false_r.
      * rewrite testbit_clear_cpu, Hrun by lia.
        replace (c + 1 =? c) with false by (symmetry; apply Z.eqb_neq; lia).
        now rewrite andb_false_r.
Qed.

(** On the CPUs 0 to [n - 1], keeping the first [p] CPUs leaves the CPUs
    below [p]. *)
Lemma first_cpus_of_ones (n p : Z) (x : Z) :
  0 <= p <= n -> n <= nr_cpu_ids ->
  Z.testbit
    (clear_cpus nr_cpu_ids
       (Z.to_nat (cpumask_weight nr_cpu_ids (Z.ones n) - Z.of_nat (Z.to_nat p)))
       (skip_cpus nr_cpu_ids (Z.to_nat p) (cpumask_first nr_cpu_ids (Z.ones n)) (Z.ones n))
       (Z.ones n)) x = true ->
  0 <= x < p.
Proof.
  intros Hp Hn.
  assert (Hw : cpumask_weight nr_cpu_ids (Z.ones n) = n).
  { unfold cpumask_weight. rewrite bitmap_weight_ones by lia. lia. }
  rewrite Hw, Z2Nat.id by lia.
  destruct (Z.eq_dec p n) as [->|Hne].
  - rewrite Z.sub_diag. change (Z.to_nat 0) with 0%nat. cbn [clear_cpus].
    rewrite testbit_ones by lia. intros [H1 H2]%andb_true_iff.
    apply Z.leb_le in H1. apply Z.ltb_lt in H2. lia.
  - assert (Hfirst : cpumask_first nr_cpu_ids (Z.ones n) = 0).
    { apply cpumask_first_unique; [lia| |intros j Hj; lia].
      rewrite testbit_ones by lia.
      apply andb_true_iff. split; [apply Z.leb_le | apply Z.ltb_lt]; lia. }
    rewrite Hfirst, skip_cpus_ones by lia.
    rewrite Z2Nat.id, Z.add_0_l by lia.
    rewrite clear_cpus_run; [|lia|lia|].
    + rewrite Z2Nat.id by lia. rewrite testbit_ones by lia.
      intros [[H1 H2]%andb_true_iff H3%negb_true_iff]%andb_true_iff.
      apply Z.leb_le in H1. apply Z.ltb_lt in H2.
      apply andb_false_iff in H3 as [H3%Z.leb_gt|H3%Z.ltb_ge]; lia.
    + intros j Hj. rewrite Z2Nat.id in Hj by lia. rewrite testbit_ones by lia.
      apply andb_true_iff. split; [apply Z.leb_le | apply Z.ltb_lt]; lia.
Qed.

(** When the online CPUs are the CPUs 0 to [n - 1] and the registry
    counts them, every hardware thread mask lies in the process pool. *)
Lemma hw_threads_in_pool_contiguous (a : hfi1_affinity_node_list) :
  mask (proc a) = Z.ones (num_online_cpus a) ->
  0 <= num_online_cpus a <= nr_cpu_ids ->
  num_online_cpus a < 2 ^ 32 ->
  1 <= num_core_siblings a ->
  1 <= num_online_nodes a ->
  hw_threads_in_pool nr_cpu_ids a.
Proof.
  intros Hmask Hn H32 Hs Hd i hw Hi Hhw.
  unfold find_hw_thread_mask in Hhw.
  replace (num_core_siblings a =? 0) with false in Hhw by (symmetry; apply Z.eqb_neq; lia).
  replace (num_online_nodes a =? 0) with false in Hhw by (symmetry; apply Z.eqb_neq; lia).
  replace (0 <? num_core_siblings a) with true in Hhw by (symmetry; apply Z.ltb_lt; lia).
  cbn [orb] in Hhw. cbv zeta in Hhw. rewrite Hmask in *.
  set (n := num_online_cpus a) in *. set (s := num_core_siblings a) in *.
  set (d := num_online_nodes a) in *.
  assert (Hns : 0 <= n / s) by (apply Z.div_pos; lia).
  rewrite (Z.quot_div_nonneg n s) in Hhw by lia.
  rewrite (Z.quot_div_nonneg (n / s) d) in Hhw by lia.
  set (q := n / s / d) in *.
  assert (Hq : 0 <= q * d /\ q * d * s <= n).
  { assert (0 <= n / s) by (apply Z.div_pos; lia).
    assert (0 <= q) by (apply Z.div_pos; lia).
    assert (q * d <= n / s) by (unfold q; rewrite Z.mul_comm; apply Z.mul_div_le; lia).
    assert (n / s * s <= n) by (rewrite Z.mul_comm; apply Z.mul_div_le; lia).
    split; [nia|nia]. }
  assert (Hq0 : 0 <= q <= q * d).
  { assert (0 <= q) by (apply Z.div_pos; lia). nia. }
  assert (Hu1 : uint q = q) by (apply Z.mod_small; nia).
  assert (Hu2 : uint (q * d) = q * d) by (apply Z.mod_small; nia).
  assert (Hu3 : uint (q * d * i) = q * d * i) by (apply Z.mod_small; nia).
  rewrite Hu1, Hu2, Hu3 in Hhw. injection Hhw as <-.
  apply cpumask_subset_spec. intros x.
  unfold cpumask_shift_left. rewrite testbit_low_bits by assumption.
  intros [Hbit [Hx0%Z.leb_le Hx1%Z.ltb_lt]%andb_true_iff]%andb_true_iff.
  rewrite Z.shiftl_spec in Hbit by assumption.
  apply first_cpus_of_ones in Hbit; [|nia|lia].
  rewrite testbit_ones by lia.
  apply andb_true_iff. split; [apply Z.leb_le | apply Z.ltb_lt]; nia.
Qed.

End ContiguousThreads.

(** ** The get of a vector followed by its put *)

Section GetPut.

Variable nr_cpu_ids : Z.
Hypothesis nr_cpu_ids_nonneg : 0 <= nr_cpu_ids.

Lemma with_entry_restore (a : hfi1_affinity_node_list) (j : nat)
    (e e1 : hfi1_affinity_node) :
  node_list a !! j = Some e -> with_entry (with_entry a j e1) j e = a.
Proof.
  intros Hj. unfold with_entry. cbn [node_list with_node_list].
  rewrite list_insert_insert_eq. rewrite (list_insert_id _ _ _ Hj). now destruct a.
Qed.

Lemma put_pool_restore (e : hfi1_affinity_node) (s : pool_sel) (p : cpu_mask_set) :
  put_pool (put_pool e s p) s (get_pool e s) = e.
Proof. now destruct e, s. Qed.

(** The get of a vector that draws from a pool of the entry of its node:
    the pool is replaced by the pool after the allocation, and the mask of
    the vector is the CPU that the allocation returned. *)
Lemma get_irq_from_pool (a : hfi1_affinity_node_list) (dd : hfi1_devdata) (i : nat)
    (m : hfi1_msix_entry) (s : pool_sel) (j : nat) (e : hfi1_affinity_node) :
  msix_entries dd !! i = Some m ->
  irq_pool m = Some s ->
  (forall k, arg m = arg_sde k -> is_Some (per_sdma dd !! k)) ->
  node_affinity_lookup a (dd_node dd) = Some (j, e) ->
  exists dd1 m1,
    hfi1_get_irq_affinity nr_cpu_ids true a dd i
    = Some (0,
            with_entry a j
              (put_pool e s (snd (cpu_mask_set_get_first nr_cpu_ids (get_pool e s)))),
            dd1) /\
    dd_node dd1 = dd_node dd /\
    msix_entries dd1 !! i = Some m1 /\
    irq_pool m1 = Some s /\
    msix_mask m1
    = cpumask_set_cpu (fst (cpu_mask_set_get_first nr_cpu_ids (get_pool e s))) cpumask_none.
Proof.
  intros Hm Hpool Hsde Hlook.
  pose proof (lookup_lt_Some _ _ _ Hm) as Hlen.
  unfold hfi1_get_irq_affinity, get_irq_affinity.
  rewrite Hm. cbn [mbind option_bind negb]. rewrite Hlook.
  unfold irq_pool in *.
  destruct (msix_type m) eqn:Hty, (arg m) as [k|ctxt|] eqn:Harg; try discriminate.
  - injection Hpool as <-. destruct (Hsde k eq_refl) as [sde Hk].
    cbn [mbind option_bind]. rewrite Hk. cbn [mbind option_bind].
    eexists _, _. split; [reflexivity|]. split; [reflexivity|].
    split; [cbn [with_sde with_msix msix_entries]; now apply list_lookup_insert_eq|].
    split; reflexivity.
  - destruct (ctxt =? HFI1_CTRL_CTXT) eqn:Hctl; [discriminate|].
    injection Hpool as <-. cbn [mbind option_bind].
    eexists _, _. split; [reflexivity|]. split; [reflexivity|].
    split; [cbn [with_msix msix_entries]; now apply list_lookup_insert_eq|].
    split; [|reflexivity]. cbn [msix_type arg]. now rewrite Hctl.
Qed.

(** The put of such a vector releases the CPUs of its mask in that
    pool. *)
Lemma put_irq_to_pool (a : hfi1_affinity_node_list) (dd : hfi1_devdata) (i : nat)
    (m : hfi1_msix_entry) (s : pool_sel) (j : nat) (e : hfi1_affinity_node) :
  msix_entries dd !! i = Some m ->
  irq_pool m = Some s ->
  node_affinity_lookup a (dd_node dd) = Some (j, e) ->
  exists dd1,
    hfi1_put_irq_affinity nr_cpu_ids a dd i
    = Some (with_entry a j
              (put_pool e s (cpu_mask_set_put nr_cpu_ids (get_pool e s) (msix_mask m))),
            dd1).
Proof.
  intros Hm Hpool Hlook. unfold hfi1_put_irq_affinity.
  rewrite Hm. cbn [mbind option_bind]. rewrite Hlook. cbn [mbind option_bind].
  unfold irq_pool in Hpool.
  destruct (msix_type m) eqn:Hty, (arg m) as [k|ctxt|] eqn:Harg; try discriminate.
  - injection Hpool as <-. eexists. reflexivity.
  - destruct (ctxt =? HFI1_CTRL_CTXT); [discriminate|].
    injection Hpool as <-. eexists. reflexivity.
Qed.

(** A vector that draws its CPU from a pool of the entry of its node gets
    a CPU, and when it is put back right away the registry is what it
    was before the get. *)
Lemma get_put_irq_restores (a : hfi1_affinity_node_list) (dd : hfi1_devdata) (i : nat)
    (m : hfi1_msix_entry) (s : pool_sel) (j : nat) (e : hfi1_affinity_node) :
  msix_entries dd !! i = Some m ->
  irq_pool m = Some s ->
  (forall k, arg m = arg_sde k -> is_Some (per_sdma dd !! k)) ->
  node_affinity_lookup a (dd_node dd) = Some (j, e) ->
  cpumask_valid nr_cpu_ids (mask (get_pool e s)) ->
  cpumask_valid nr_cpu_ids (used (get_pool e s)) ->
  cpumask_subset (used (get_pool e s)) (mask (get_pool e s)) ->
  mask (get_pool e s) <> cpumask_none ->
  0 <= gen (get_pool e s) <= UINT_MAX ->
  (used (get_pool e s) = cpumask_none -> gen (get_pool e s) = 0) ->
  (used (get_pool e s) = mask (get_pool e s) -> gen (get_pool e s) < UINT_MAX) ->
  exists a1 dd1 dd2,
    hfi1_get_irq_affinity nr_cpu_ids true a dd i = Some (0, a1, dd1) /\
    hfi1_put_irq_affinity nr_cpu_ids a1 dd1 i = Some (a, dd2).
Proof.
  intros Hm Hpool Hsde Hlook Hvm Hvu Hsub Hne Hgen Hidle Hfull.
  pose proof (get_first_put_restores nr_cpu_ids nr_cpu_ids_nonneg (get_pool e s)
                Hvm Hvu Hsub Hne Hgen Hidle Hfull) as Hrestore.
  destruct (lookup_node _ _ _ _ Hlook) as [Hnode Hj].
  destruct (get_irq_from_pool a dd i m s j e Hm Hpool Hsde Hlook)
    as (dd1 & m1 & Hget & Hdd & Hm1 & Hpool1 & Hmask).
  set (e1 := put_pool e s (snd (cpu_mask_set_get_first nr_cpu_ids (get_pool e s)))) in *.
  assert (Hlook1 : node_affinity_lookup (with_entry a j e1) (dd_node dd1) = Some (j, e1)).
  { rewrite Hdd. apply (lookup_with_entry a (dd_node dd) j e e1 Hlook).
    unfold e1. now destruct s. }
  destruct (put_irq_to_pool (with_entry a j e1) dd1 i m1 s j e1 Hm1 Hpool1 Hlook1)
    as (dd2 & Hput).
  exists (with_entry a j e1), dd1, dd2. split; [exact Hget|].
  rewrite Hput, Hmask. do 2 f_equal.
  replace (get_pool e1 s) with (snd (cpu_mask_set_get_first nr_cpu_ids (get_pool e s)))
    by (unfold e1; now destruct s).
  rewrite Hrestore. unfold e1. rewrite put_pool_restore.
  now apply with_entry_restore.
Qed.

End GetPut.

(** ** The range test of the update *)

(** C8. On a system with eight online CPUs, numbered 0 to 7, the update
    is asked to move the first SDMA vector of an attached device from
    CPU 2 to CPU 8, which is not the id of a CPU: the request is not
    rejected.  The engine records CPU 8, the mask of the vector becomes
    {8}, and CPU 8 replaces CPU 2 in the mask and the used set of the
    default pool of the node. *)
Theorem update_accepts_cpu_beyond_last :
  exists a dd a' dd',
    armed_system = Some (a, dd) /\
    online_cpus two_node_topology = 8 /\
    cpu <$> per_sdma dd !! 0%nat = Some 2 /\
    default_pool a 0
    = Some {| mask := cpumask_of_list [2; 3]; used := cpumask_of_list [2; 3]; gen := 0 |} /\
    hfi1_update_sdma_affinity two_node_topology a dd 0 8 = Some (a', dd') /\
    cpu <$> per_sdma dd' !! 0%nat = Some 8 /\
    msix_mask <$> msix_entries dd' !! 0%nat = Some (cpumask_of_list [8]) /\
    default_pool a' 0
    = Some {| mask := cpumask_of_list [3; 8]; used := cpumask_of_list [3; 8]; gen := 0 |}.
Proof.
  eexists _, _, _, _.
  split; [reflexivity|]. split; [reflexivity|]. split; [reflexivity|].
  split; [reflexivity|]. split; [reflexivity|]. split; [reflexivity|].
  split; reflexivity.
Qed.

(** The same slip through the notifier: with the CPUs 0 to 6 and 9
    online, eight in number, the user gives the vector the CPUs 8 and 9;
    the notifier reports CPU 8, which is offline, and the update takes
    it. *)
Lemma notifier_accepts_offline_cpu :
  exists a dd a' dd',
    gap_system = Some (a, dd) /\
    cpu <$> per_sdma dd !! 0%nat = Some 2 /\
    cpumask_test_cpu 8 (cpu_online_mask gap_topology) = false /\
    hfi1_irq_notifier_notify 16 gap_topology a dd 0 (cpumask_of_list [8; 9])
    = Some (a', dd') /\
    cpu <$> per_sdma dd' !! 0%nat = Some 8 /\
    msix_mask <$> msix_entries dd' !! 0%nat = Some (cpumask_of_list [8]) /\
    default_pool a' 0
    = Some {| mask := cpumask_of_list [3; 4; 5; 6; 8; 9]; used := cpumask_of_list [8];
              gen := 0 |}.
Proof.
  eexists _, _, _, _.
  split; [vm_compute; reflexivity|]. split; [reflexivity|]. split; [reflexivity|].
  split; [vm_compute; reflexivity|]. split; [reflexivity|]. split; reflexivity.
Qed.

(** ** The theorems on concrete systems *)

Lemma reachable_two_node_registry : reachable 8 two_node_registry.
Proof.
  apply reach_init with (t := two_node_topology) (bus_nodes := [0]) (ok := true) (r := 0).
  reflexivity.
Defined.

Lemma reachable_attached_registry : reachable 8 attached_registry.
Proof.
  eapply reach_step; [exact reachable_two_node_registry|].
  eapply step_attach with (t := two_node_topology) (bus_node := 0) (ok := true)
                          (dd := two_engine_device).
  reflexivity.
Defined.

Lemma reachable_armed_registry : reachable 8 armed_registry.
Proof.
  eapply reach_step; [exact reachable_attached_registry|].
  eapply step_get_irq with (ok := true) (dd := attached_device) (i := 0%nat) (r := 0).
  - reflexivity.
  - intros m j e s Hm He Hs.
    vm_compute in Hm. injection Hm as <-.
    vm_compute in He. injection He as <- <-.
    vm_compute in Hs. injection Hs as <-. reflexivity.
Defined.

(** The invariant after init, attach and the get of the first SDMA
    vector. *)
Lemma used_subset_mask_witness :
  0 <= 8 /\ reachable 8 armed_registry /\ registry_inv armed_registry.
Proof.
  split; [lia|]. split; [exact reachable_armed_registry|].
  apply (used_subset_mask 8); [lia | exact reachable_armed_registry].
Defined.

(** A process pinned to CPU 9, a CPU that came online after
    [node_affinity_init] took the eight online CPUs as the mask of the
    process pool: the advisor marks CPU 9 used, and the used set of the
    process pool is no longer inside its mask. *)
Lemma pinned_process_breaks_used_subset_mask :
  reachable 16 hotplug_registry /\
  registry_inv hotplug_registry /\
  exists a,
    hfi1_get_proc_affinity 16 two_node_topology (cpumask_of_list [9]) true
      hotplug_registry 0 = Some (9, a) /\
    mask (proc a) = cpumask_of_list [0; 1; 2; 3; 4; 5; 6; 7] /\
    used (proc a) = cpumask_of_list [9] /\
    ~ registry_inv a.
Proof.
  assert (Hreach : reachable 16 hotplug_registry).
  { apply reach_init with (t := two_node_topology) (bus_nodes := [0]) (ok := true) (r := 0).
    reflexivity. }
  split; [exact Hreach|].
  split; [apply (init_inv 16 two_node_topology [0] true 0); reflexivity|].
  eexists. split; [reflexivity|]. split; [reflexivity|]. split; [reflexivity|].
  intros [Hproc _]. vm_compute in Hproc. discriminate.
Qed.

(** A vector of a receive context other than the control context draws
    from a receive pool whose mask is empty: the allocation finds no CPU
    and marks [nr_cpu_ids] used. *)
Lemma get_from_empty_pool_breaks_used_subset_mask :
  registry_inv one_queue_registry /\
  exists a dd,
    hfi1_get_irq_affinity 8 true one_queue_registry
      (with_dd_node one_queue_device 0) 0 = Some (0, a, dd) /\
    (rcv_intr <$> (snd <$> node_affinity_lookup a 0))
    = Some {| mask := cpumask_none; used := cpumask_of_list [8]; gen := 1 |} /\
    msix_mask <$> msix_entries dd !! 0%nat = Some (cpumask_of_list [8]) /\
    ~ registry_inv a.
Proof.
  split.
  { apply (attach_inv 8 two_node_topology 0 true two_node_registry one_queue_registry
             one_queue_device (with_dd_node one_queue_device 0) 0); [reflexivity|].
    apply (init_inv 8 two_node_topology [0] true 0). reflexivity. }
  eexists _, _. split; [reflexivity|]. split; [reflexivity|]. split; [reflexivity|].
  intros [_ Hnodes]. apply Forall_inv in Hnodes as [_ Hrcv].
  vm_compute in Hrcv. discriminate.
Qed.

(** With the online CPUs 0, 1, 4 and 5 and two hardware threads per core,
    the mask of the hardware threads number 1 is the mask of the threads
    number 0 shifted by two, the CPUs 2 and 3: the third process is
    advised CPU 2, which is not in the mask of the process pool. *)
Lemma shifted_threads_break_used_subset_mask :
  registry_inv sibling_registry /\
  exists a,
    three_processes = Some ([0; 1; 2], a) /\
    proc a = {| mask := cpumask_of_list [0; 1; 4; 5]; used := cpumask_of_list [0; 1; 2];
                gen := 0 |} /\
    ~ registry_inv a.
Proof.
  split; [apply (init_inv 8 sibling_topology [0] true 0); reflexivity|].
  eexists. split; [vm_compute; reflexivity|]. split; [reflexivity|].
  intros [Hproc _]. vm_compute in Hproc. discriminate.
Qed.

(** A pool with every CPU used at generation [UINT_MAX]: the allocation
    wraps the generation to 0, and the release that follows leaves the
    used set empty at generation 0 instead of restoring the pool. *)
Lemma allocate_release_at_last_generation :
  cpu_mask_set_put 8
    (snd (cpu_mask_set_get_first 8 last_generation_pool))
    (cpumask_set_cpu (fst (cpu_mask_set_get_first 8 last_generation_pool)) cpumask_none)
  = {| mask := cpumask_of_list [0; 1; 2; 3]; used := cpumask_none; gen := 0 |} /\
  cpu_mask_set_put 8
    (snd (cpu_mask_set_get_first 8 last_generation_pool))
    (cpumask_set_cpu (fst (cpu_mask_set_get_first 8 last_generation_pool)) cpumask_none)
  <> last_generation_pool.
Proof. split; [reflexivity|]. vm_compute. discriminate. Qed.

Lemma allocate_refines_spec_witness :
  0 <= 8 /\
  cpumask_valid 8 (mask half_used_pool) /\
  cpumask_valid 8 (used half_used_pool) /\
  cpumask_subset (used half_used_pool) (mask half_used_pool) /\
  mask half_used_pool <> cpumask_none /\
  (cpu_mask_set_get_first 8 half_used_pool
   = (2, {| mask := cpumask_of_list [0; 1; 2; 3]; used := cpumask_of_list [0; 1; 2];
            gen := 0 |}) <->
   allocate_spec half_used_pool 2
     {| mask := cpumask_of_list [0; 1; 2; 3]; used := cpumask_of_list [0; 1; 2]; gen := 0 |} /\
   cpumask_valid 8 (cpumask_of_list [0; 1; 2])).
Proof.
  split; [lia|]. split; [valid_mask|]. split; [valid_mask|].
  split; [reflexivity|]. split; [discriminate|].
  apply (allocate_refines_spec 8); [lia | valid_mask | valid_mask | reflexivity | discriminate].
Defined.

Lemma allocate_release_restores_witness :
  0 <= 8 /\
  cpumask_valid 8 (mask full_pool) /\
  cpumask_valid 8 (used full_pool) /\
  cpumask_subset (used full_pool) (mask full_pool) /\
  mask full_pool <> cpumask_none /\
  0 <= gen full_pool <= UINT_MAX /\
  (used full_pool = cpumask_none -> gen full_pool = 0) /\
  (used full_pool = mask full_pool -> gen full_pool < UINT_MAX) /\
  cpu_mask_set_put 8
    (snd (cpu_mask_set_get_first 8 full_pool))
    (cpumask_set_cpu (fst (cpu_mask_set_get_first 8 full_pool)) cpumask_none)
  = full_pool.
Proof.
  assert (Hgen : 0 <= gen full_pool <= UINT_MAX) by (vm_compute; split; discriminate).
  assert (Hidle : used full_pool = cpumask_none -> gen full_pool = 0) by discriminate.
  assert (Hfull : used full_pool = mask full_pool -> gen full_pool < UINT_MAX)
    by (intros _; reflexivity).
  split; [lia|]. split; [valid_mask|]. split; [valid_mask|].
  split; [reflexivity|]. split; [discriminate|].
  split; [exact Hgen|]. split; [exact Hidle|]. split; [exact Hfull|].
  apply (allocate_release_restores 8);
    [lia | valid_mask | valid_mask | reflexivity | discriminate
     | exact Hgen | exact Hidle | exact Hfull].
Defined.

Lemma exhaustion_wraparound_witness :
  0 <= 8 /\
  used fresh_pool = cpumask_none /\
  cpumask_weight 8 (mask fresh_pool) = Z.of_nat 3 /\
  fst (allocate_n 8 3 fresh_pool) = [0; 1; 3] /\
  length (fst (allocate_n 8 3 fresh_pool)) = 3%nat /\
  NoDup (fst (allocate_n 8 3 fresh_pool)) /\
  (forall j, (j <= 3)%nat -> gen (snd (allocate_n 8 j fresh_pool)) = gen fresh_pool) /\
  gen (snd (cpu_mask_set_get_first 8 (snd (allocate_n 8 3 fresh_pool)))) = 8.
Proof.
  pose proof (exhaustion_wraparound 8 ltac:(lia) fresh_pool 3 eq_refl eq_refl)
    as (Hlen & Hnodup & _ & Hgens & Hnext & _).
  split; [lia|]. split; [reflexivity|]. split; [reflexivity|]. split; [reflexivity|].
  split; [exact Hlen|]. split; [exact Hnodup|]. split; [exact Hgens|]. exact Hnext.
Defined.

Lemma attach_partition_example_witness :
  9 <= 16 /\
  node_affinity_lookup bare_registry (device_node sparse_topology 1) = None /\
  cpumask_and (real_cpu_mask bare_registry)
    (node_local_mask 16 sparse_topology (device_node sparse_topology 1))
  = cpumask_of_list [2; 4; 6; 8] /\
  n_krcv_queues two_engine_device = 2 /\
  hfi1_per_node_cntr bare_registry (device_node sparse_topology 1) = 1 /\
  exists entry,
    hfi1_dev_affinity_init 16 sparse_topology 1 true bare_registry two_engine_device
    = (0, with_node_list bare_registry (node_list bare_registry ++ [entry]),
       with_dd_node two_engine_device (device_node sparse_topology 1)) /\
    node entry = device_node sparse_topology 1 /\
    general_intr_mask entry = cpumask_of_list [2] /\
    mask (rcv_intr entry) = cpumask_of_list [4] /\
    mask (def_intr entry) = cpumask_of_list [6; 8].
Proof.
  split; [lia|]. split; [reflexivity|]. split; [reflexivity|].
  split; [reflexivity|]. split; [reflexivity|].
  apply (attach_partition_example 16 sparse_topology 1 bare_registry two_engine_device);
    [lia | reflexivity | reflexivity | reflexivity | reflexivity].
Defined.

Lemma attach_single_cpu_node_witness :
  0 <= 16 /\
  cpumask_valid 16 (real_cpu_mask bare_registry) /\
  node_affinity_lookup bare_registry (device_node sparse_topology 2) = None /\
  cpumask_weight 16
    (cpumask_and (real_cpu_mask bare_registry)
       (node_local_mask 16 sparse_topology (device_node sparse_topology 2))) = 1 /\
  exists entry c,
    hfi1_dev_affinity_init 16 sparse_topology 2 true bare_registry two_engine_device
    = (0, with_node_list bare_registry (node_list bare_registry ++ [entry]),
       with_dd_node two_engine_device (device_node sparse_topology 2)) /\
    0 <= c < 16 /\
    (forall i,
       cpu_in i (cpumask_and (real_cpu_mask bare_registry)
                   (node_local_mask 16 sparse_topology (device_node sparse_topology 2)))
       <-> i = c) /\
    general_intr_mask entry = cpumask_of_list [c] /\
    mask (rcv_intr entry) = cpumask_of_list [c] /\
    mask (def_intr entry) = cpumask_of_list [c].
Proof.
  split; [lia|]. split; [valid_mask|]. split; [reflexivity|]. split; [reflexivity|].
  apply (attach_single_cpu_node 16 ltac:(lia) sparse_topology 2 bare_registry
           two_engine_device); [valid_mask | reflexivity | reflexivity].
Defined.

Lemma update_accepted_witness :
  msix_entries armed_pair.2 !! 0%nat
  = Some {| msix_type := IRQ_SDMA; arg := arg_sde 0; msix_mask := cpumask_of_list [2];
            affinity_hint := true; notify_set := true |} /\
  per_sdma armed_pair.2 !! 0%nat = Some {| cpu := 2 |} /\
  0 <= 1 /\ uint 1 <= online_cpus two_node_topology /\ 1 <> 2 /\
  node_affinity_lookup armed_pair.1 (dd_node armed_pair.2)
  = Some (0%nat,
          {| node := 0;
             def_intr := {| mask := cpumask_of_list [2; 3]; used := cpumask_of_list [2; 3];
                            gen := 0 |};
             rcv_intr := {| mask := cpumask_of_list [1]; used := cpumask_none; gen := 0 |};
             general_intr_mask := cpumask_of_list [0] |}) /\
  exists a' dd' set',
    hfi1_update_sdma_affinity two_node_topology armed_pair.1 armed_pair.2 0 1
    = Some (a', dd') /\
    default_pool a' (dd_node armed_pair.2) = Some set' /\
    cpu_in 1 (mask set') /\ cpu_in 1 (used set') /\
    ~ cpu_in 2 (mask set') /\ ~ cpu_in 2 (used set').
Proof.
  assert (Hrange : uint 1 <= online_cpus two_node_topology) by (vm_compute; discriminate).
  assert (Hnone : ~ other_sdma_targets armed_pair.2 0
                      (cpu {| cpu := 2 |})).
  { intros H. apply other_sdma_uses_targets in H. vm_compute in H. discriminate. }
  split; [reflexivity|]. split; [reflexivity|]. split; [lia|].
  split; [exact Hrange|]. split; [lia|]. split; [reflexivity|].
  destruct (update_accepted two_node_topology armed_pair.1 armed_pair.2 0
              {| msix_type := IRQ_SDMA; arg := arg_sde 0; msix_mask := cpumask_of_list [2];
                 affinity_hint := true; notify_set := true |}
              0 {| cpu := 2 |} eq_refl eq_refl eq_refl 1 0
              {| node := 0;
                 def_intr := {| mask := cpumask_of_list [2; 3];
                                used := cpumask_of_list [2; 3]; gen := 0 |};
                 rcv_intr := {| mask := cpumask_of_list [1]; used := cpumask_none;
                                gen := 0 |};
                 general_intr_mask := cpumask_of_list [0] |}
              ltac:(lia) Hrange ltac:(cbn; lia) eq_refl)
    as (a' & dd' & set' & Hupd & Hpool & Hin1 & Hin2 & _ & Hgone & _).
  exists a', dd', set'. destruct (Hgone Hnone) as [Hg1 Hg2].
  repeat split; assumption.
Defined.

Lemma proc_affinity_first_calls_witness :
  8 <= 8 /\
  cpumask_of_node two_node_topology 0 = cpumask_of_list [0; 1; 2; 3] /\
  mask (proc two_node_registry) = cpumask_of_list [0; 1; 2; 3; 4; 5; 6; 7] /\
  used (proc two_node_registry) = cpumask_none /\
  gen (proc two_node_registry) = 0 /\
  num_core_siblings two_node_registry = 1 /\
  num_online_cpus two_node_registry = 8 /\
  1 <= num_online_nodes two_node_registry <= 8 /\
  node_affinity_lookup two_node_registry 0 = None /\
  exists a1 a2,
    hfi1_get_proc_affinity 8 two_node_topology (mask (proc two_node_registry)) true
      two_node_registry 0 = Some (0, a1) /\
    proc a1 = {| mask := mask (proc two_node_registry); used := cpumask_of_list [0];
                 gen := 0 |} /\
    hfi1_get_proc_affinity 8 two_node_topology (mask (proc two_node_registry)) true
      a1 0 = Some (1, a2) /\
    proc a2 = {| mask := mask (proc two_node_registry); used := cpumask_of_list [0; 1];
                 gen := 0 |}.
Proof.
  assert (Hnodes : 1 <= num_online_nodes two_node_registry <= 8)
    by (vm_compute; split; discriminate).
  split; [lia|]. split; [reflexivity|]. split; [reflexivity|]. split; [reflexivity|].
  split; [reflexivity|]. split; [reflexivity|]. split; [reflexivity|].
  split; [exact Hnodes|]. split; [reflexivity|].
  apply (proc_affinity_first_calls 8 ltac:(lia) two_node_topology 0 eq_refl
           two_node_registry eq_refl eq_refl eq_refl eq_refl eq_refl Hnodes eq_refl).
Defined.

Lemma update_without_entry_is_noop_witness :
  msix_entries two_engine_device !! 0%nat = Some (sdma_vector 0) /\
  arg (sdma_vector 0) = arg_sde 0 /\
  per_sdma two_engine_device !! 0%nat = Some {| cpu := 0 |} /\
  node_affinity_lookup two_node_registry (dd_node two_engine_device) = None /\
  (forall new_cpu,
     hfi1_update_sdma_affinity two_node_topology two_node_registry two_engine_device 0 new_cpu
     = Some (two_node_registry, two_engine_device)) /\
  (forall nr_cpu_ids m,
     hfi1_irq_notifier_notify nr_cpu_ids two_node_topology two_node_registry
       two_engine_device 0 m
     = Some (two_node_registry, two_engine_device)).
Proof.
  split; [reflexivity|]. split; [reflexivity|]. split; [reflexivity|].
  split; [reflexivity|].
  apply (update_without_entry_is_noop two_node_topology two_node_registry
           two_engine_device 0 (sdma_vector 0) 0 {| cpu := 0 |} eq_refl eq_refl eq_refl
           eq_refl).
Defined.

Lemma testbit_clear_other (c x : Z) (m : cpumask) :
  x <> c -> Z.testbit (cpumask_clear_cpu c m) x = Z.testbit m x.
Proof.
  intros H. rewrite testbit_clear_cpu. destruct (Z.eqb_spec x c); [lia|].
  now rewrite andb_false_r, andb_true_r.
Qed.

Lemma testbit_clear_same (c : Z) (m : cpumask) :
  0 <= c -> Z.testbit (cpumask_clear_cpu c m) c = false.
Proof.
  intros H. rewrite testbit_clear_cpu, Z.eqb_refl.
  destruct (Z.leb_spec 0 c); [|lia]. apply andb_false_r.
Qed.

Lemma testbit_set_other (c x : Z) (m : cpumask) :
  x <> c -> Z.testbit (cpumask_set_cpu c m) x = Z.testbit m x.
Proof.
  intros H. rewrite testbit_set_cpu. destruct (Z.eqb_spec x c); [lia|].
  now rewrite andb_false_r, orb_false_r.
Qed.

Lemma testbit_set_same (c : Z) (m : cpumask) :
  0 <= c -> Z.testbit (cpumask_set_cpu c m) c = true.
Proof.
  intros H. rewrite testbit_set_cpu, Z.eqb_refl.
  destruct (Z.leb_spec 0 c); [|lia]. apply orb_true_r.
Qed.

Section Ranks.

Variable nr_cpu_ids : Z.
Hypothesis nr_cpu_ids_nonneg : 0 <= nr_cpu_ids.

Local Abbreviation weight := (cpumask_weight nr_cpu_ids).
Local Abbreviation below m c := (Z.land m (Z.ones c)).

Lemma testbit_below (m : cpumask) (c x : Z) :
  0 <= c -> Z.testbit (below m c) x = Z.testbit m x && ((0 <=? x) && (x <? c)).
Proof. intros Hc. now rewrite Z.land_spec, testbit_ones. Qed.

Lemma cpumask_weight_ext (a b : cpumask) :
  (forall i, 0 <= i < nr_cpu_ids -> Z.testbit a i = Z.testbit b i) ->
  weight a = weight b.
Proof.
  intros H. apply bitmap_weight_ext. intros i Hi. apply H. lia.
Qed.

Lemma cpumask_weight_below_all (m : cpumask) : weight (below m nr_cpu_ids) = weight m.
Proof.
  apply cpumask_weight_ext. intros i Hi. rewrite testbit_below by assumption.
  destruct (Z.leb_spec 0 i), (Z.ltb_spec i nr_cpu_ids); try lia. apply andb_true_r.
Qed.

Lemma cpumask_weight_below_le (m : cpumask) (c : Z) :
  0 <= c -> weight (below m c) <= weight m.
Proof.
  intros Hc. apply bitmap_weight_subset. intros i _.
  rewrite testbit_below by assumption. now intros [H _]%andb_true_iff.
Qed.

Lemma cpumask_weight_below_first (m : cpumask) :
  weight (below m (cpumask_first nr_cpu_ids m)) = 0.
Proof.
  pose proof (cpumask_first_range nr_cpu_ids nr_cpu_ids_nonneg m) as Hr.
  apply cpumask_weight_zero; [assumption|]. apply cpumask_empty_true; [assumption|].
  intros i Hi. rewrite testbit_below by lia.
  destruct (Z.ltb_spec i (cpumask_first nr_cpu_ids m)) as [Hlt|_].
  - rewrite (cpumask_first_least nr_cpu_ids m i) by lia. reflexivity.
  - now rewrite !andb_false_r.
Qed.

(** Moving from a CPU of the mask to the next one passes one CPU. *)
Lemma cpumask_weight_below_next (m : cpumask) (c c1 : Z) :
  0 <= c < c1 -> c1 <= nr_cpu_ids ->
  Z.testbit m c = true ->
  (forall j, c < j < c1 -> Z.testbit m j = false) ->
  weight (below m c1) = weight (below m c) + 1.
Proof.
  intros Hc Hc1 Hbit Hgap.
  rewrite <- (cpumask_weight_set nr_cpu_ids (below m c) c).
  - apply cpumask_weight_ext. intros i Hi.
    rewrite testbit_set_cpu, !testbit_below by lia.
    destruct (Z.leb_spec 0 i), (Z.leb_spec 0 c); try lia. cbn [andb].
    destruct (Z.eqb_spec i c) as [->|Hne].
    + rewrite Hbit. destruct (Z.ltb_spec c c1); [|lia]. now rewrite orb_true_r.
    + rewrite orb_false_r. destruct (Z.ltb_spec i c), (Z.ltb_spec i c1); try lia;
        try reflexivity. rewrite Hgap by lia. reflexivity.
  - lia.
  - rewrite testbit_below by lia. destruct (Z.ltb_spec c c); [lia|].
    now rewrite !andb_false_r.
Qed.

(** [cpumask_next] from a CPU below [nr_cpu_ids]. *)
Lemma cpumask_next_spec (c : Z) (m : cpumask) :
  0 <= c < nr_cpu_ids ->
  let c1 := cpumask_next nr_cpu_ids c m in
  c < c1 <= nr_cpu_ids /\
  (c1 < nr_cpu_ids -> Z.testbit m c1 = true) /\
  (forall j, c < j < c1 -> Z.testbit m j = false).
Proof.
  intros Hc c1. unfold c1, cpumask_next.
  pose proof (find_next_bit_range m nr_cpu_ids (c + 1)) as Hr.
  split; [lia|]. split.
  - apply find_next_bit_hit.
  - intros j Hj. apply (find_next_bit_least m nr_cpu_ids (c + 1)). lia.
Qed.

(** The CPU that [skip_cpus] reaches from a CPU of the mask: the [n]-th
    CPU of the mask after it, or [nr_cpu_ids] when the mask has fewer. *)
Lemma skip_cpus_rank (n : nat) (c : Z) (m : cpumask) :
  0 <= c <= nr_cpu_ids ->
  (c < nr_cpu_ids -> Z.testbit m c = true) ->
  let c' := skip_cpus nr_cpu_ids n c m in
  c <= c' <= nr_cpu_ids /\
  (c' < nr_cpu_ids ->
   Z.testbit m c' = true /\ weight (below m c') = weight (below m c) + Z.of_nat n) /\
  (c' = nr_cpu_ids -> weight m <= weight (below m c) + Z.of_nat n).
Proof.
  revert c. induction n as [|n IH]; intros c Hc Hbit; cbn [skip_cpus].
  - cbv zeta. split; [lia|]. split.
    + intros Hlt. split; [auto|lia].
    + intros ->. rewrite cpumask_weight_below_all. lia.
  - destruct (Z.eq_dec c nr_cpu_ids) as [->|Hne].
    + rewrite cpumask_next_end by lia.
      destruct (IH nr_cpu_ids ltac:(lia) ltac:(lia)) as (Hr & Hlt & Heq).
      cbv zeta. split; [lia|]. split; [lia|].
      intros _. rewrite cpumask_weight_below_all. lia.
    + destruct (cpumask_next_spec c m ltac:(lia)) as (Hr1 & Hbit1 & Hgap).
      set (c1 := cpumask_next nr_cpu_ids c m) in *.
      destruct (IH c1 ltac:(lia) Hbit1) as (Hr & Hlt & Heq).
      assert (Hw : weight (below m c1) = weight (below m c) + 1).
      { apply cpumask_weight_below_next; try lia; auto. apply Hbit. lia. }
      cbv zeta. split; [lia|]. split.
      * intros H. destruct (Hlt H) as [Hb Hw']. split; [assumption|]. lia.
      * intros H. specialize (Heq H). lia.
Qed.

(** [clear_cpus] run over the CPUs of the mask that are left from a CPU
    of the mask on clears all of them. *)
Lemma clear_cpus_tail (n : nat) (c : Z) (m : cpumask) :
  0 <= c <= nr_cpu_ids ->
  (c < nr_cpu_ids -> Z.testbit m c = true) ->
  Z.of_nat n = weight m - weight (below m c) ->
  forall x, Z.testbit (clear_cpus nr_cpu_ids n c m) x
            = Z.testbit m x && negb ((c <=? x) && (x <? nr_cpu_ids)).
Proof.
  revert c m. induction n as [|n IH]; intros c m Hc Hbit Hn x; cbn [clear_cpus].
  - destruct (Z.leb_spec c x), (Z.ltb_spec x nr_cpu_ids); cbn [andb negb];
      rewrite ?andb_true_r; try reflexivity.
    rewrite andb_false_r.
    assert (Hsame : forall i, 0 <= i < Z.of_nat (Z.to_nat nr_cpu_ids) ->
              Z.testbit (below m c) i = Z.testbit m i).
    { apply bitmap_weight_subset.
      - intros i _. rewrite testbit_below by lia. now intros [? _]%andb_true_iff.
      - unfold cpumask_weight in Hn. lia. }
    rewrite <- Hsame by lia. rewrite testbit_below by lia.
    destruct (Z.ltb_spec x c); [lia|]. now rewrite !andb_false_r.
  - assert (Hlt : c < nr_cpu_ids).
    { destruct (Z.eq_dec c nr_cpu_ids) as [->|]; [|lia].
      rewrite cpumask_weight_below_all in Hn. lia. }
    specialize (Hbit Hlt).
    set (m' := cpumask_clear_cpu c m).
    destruct (cpumask_next_spec c m' ltac:(lia)) as (Hr1 & Hbit1 & Hgap).
    set (c1 := cpumask_next nr_cpu_ids c m') in *.
    assert (Hw : weight m' = weight m - 1).
    { apply cpumask_weight_clear; [lia|assumption]. }
    assert (Hgap' : forall j, c < j < c1 -> Z.testbit m j = false).
    { intros j Hj. rewrite <- (testbit_clear_other c j m) by lia. now apply Hgap. }
    assert (Hb : weight (below m' c1) = weight (below m c)).
    { apply cpumask_weight_ext. intros i Hi. rewrite !testbit_below by lia.
      destruct (Z.leb_spec 0 i); [|lia]. cbn [andb].
      destruct (Z.eq_dec i c) as [->|Hne].
      - unfold m'. rewrite testbit_clear_same by lia.
        destruct (Z.ltb_spec c c); [lia|]. now rewrite andb_false_r.
      - unfold m'. rewrite testbit_clear_other by assumption.
        destruct (Z.ltb_spec i c), (Z.ltb_spec i c1); try lia; try reflexivity.
        rewrite Hgap' by lia. reflexivity. }
    rewrite (IH c1 m') by (auto; lia).
    destruct (Z.eq_dec x c) as [->|Hne].
    + unfold m'. rewrite testbit_clear_same by lia.
      destruct (Z.leb_spec c c), (Z.ltb_spec c nr_cpu_ids); lia.
    + unfold m'. rewrite testbit_clear_other by assumption.
      destruct (Z.leb_spec c1 x), (Z.leb_spec c x), (Z.ltb_spec x nr_cpu_ids);
        cbn [andb negb]; try lia; try reflexivity.
      rewrite Hgap' by lia. reflexivity.
Qed.

(** The two loops of [init_real_cpu_mask] and [find_hw_thread_mask] one
    after the other keep the first [n] CPUs of the mask. *)
Lemma keep_first_cpus (n : nat) (m : cpumask) :
  let c := skip_cpus nr_cpu_ids n (cpumask_first nr_cpu_ids m) m in
  let m' := clear_cpus nr_cpu_ids (Z.to_nat (weight m - Z.of_nat n)) c m in
  0 <= c <= nr_cpu_ids /\
  (forall x, Z.testbit m' x = Z.testbit m x && negb ((c <=? x) && (x <? nr_cpu_ids))) /\
  weight m' = Z.min (Z.of_nat n) (weight m).
Proof.
  intros c m'.
  pose proof (cpumask_first_range nr_cpu_ids nr_cpu_ids_nonneg m) as Hr0.
  pose proof (cpumask_first_in nr_cpu_ids m) as Hin0.
  pose proof (cpumask_weight_below_first m) as Hw0.
  destruct (skip_cpus_rank n (cpumask_first nr_cpu_ids m) m Hr0 Hin0) as (Hr & Hlt & Heq).
  fold c in Hr, Hlt, Heq. rewrite Hw0 in Hlt, Heq.
  pose proof (cpumask_weight_below_le m c ltac:(lia)) as Hle.
  assert (Hbits : forall x, Z.testbit m' x
            = Z.testbit m x && negb ((c <=? x) && (x <? nr_cpu_ids))).
  { destruct (Z.le_gt_cases (weight m) (Z.of_nat n)) as [Hfew|Hmany].
    - unfold m'. replace (Z.to_nat (weight m - Z.of_nat n)) with 0%nat by lia.
      cbn [clear_cpus]. intros x.
      destruct (Z.eq_dec c nr_cpu_ids) as [Hc|Hc].
      + rewrite Hc. destruct (Z.leb_spec nr_cpu_ids x), (Z.ltb_spec x nr_cpu_ids);
          try lia; cbn [andb negb]; now rewrite andb_true_r.
      + destruct (Hlt ltac:(lia)) as [_ Hw].
        assert (Hsame : forall i, 0 <= i < Z.of_nat (Z.to_nat nr_cpu_ids) ->
                  Z.testbit (below m c) i = Z.testbit m i).
        { apply bitmap_weight_subset.
          - intros i _. rewrite testbit_below by lia. now intros [? _]%andb_true_iff.
          - unfold cpumask_weight in *. lia. }
        destruct (Z.leb_spec c x), (Z.ltb_spec x nr_cpu_ids); cbn [andb negb];
          rewrite ?andb_true_r; try reflexivity.
        rewrite andb_false_r, <- Hsame by lia. rewrite testbit_below by lia.
        destruct (Z.ltb_spec x c); [lia|]. now rewrite !andb_false_r.
    - unfold m'. apply clear_cpus_tail; [lia| |].
      + intros H. now apply Hlt.
      + destruct (Z.eq_dec c nr_cpu_ids) as [Hc|Hc]; [specialize (Heq Hc); lia|].
        destruct (Hlt ltac:(lia)) as [_ Hw]. lia. }
  split; [lia|]. split; [exact Hbits|].
  assert (Hm' : weight m' = weight (below m c)).
  { apply cpumask_weight_ext. intros i Hi. rewrite Hbits, testbit_below by lia.
    destruct (Z.leb_spec c i), (Z.ltb_spec i c), (Z.ltb_spec i nr_cpu_ids),
      (Z.leb_spec 0 i); try lia; reflexivity. }
  rewrite Hm'.
  destruct (Z.eq_dec c nr_cpu_ids) as [Hc|Hc].
  - specialize (Heq Hc). rewrite Hc, cpumask_weight_below_all. lia.
  - destruct (Hlt ltac:(lia)) as [Hb Hw]. rewrite Hw.
    assert (weight (below m c) + 1 <= weight m); [|lia].
    rewrite <- (cpumask_weight_set nr_cpu_ids (below m c) c).
    + apply bitmap_weight_subset. intros i _.
      rewrite testbit_set_cpu, testbit_below by lia.
      destruct (Z.eqb_spec i c) as [->|]; [now rewrite Hb|].
      rewrite andb_false_r, orb_false_r. now intros [? _]%andb_true_iff.
    + lia.
    + rewrite testbit_below by lia. destruct (Z.ltb_spec c c); [lia|].
      now rewrite !andb_false_r.
Qed.

End Ranks.

(** ** The real CPU mask *)

Section RealCpus.

Variable nr_cpu_ids : Z.
Hypothesis nr_cpu_ids_nonneg : 0 <= nr_cpu_ids.

Lemma cpumask_valid_subset (a b : cpumask) :
  cpumask_valid nr_cpu_ids b ->
  (forall i, Z.testbit a i = true -> Z.testbit b i = true) ->
  cpumask_valid nr_cpu_ids a.
Proof.
  intros Hb Hsub. apply cpumask_valid_spec in Hb as [_ Hb]; [|assumption].
  assert (Hhigh : forall i, nr_cpu_ids <= i -> Z.testbit a i = false).
  { intros i Hi. destruct (Z.testbit a i) eqn:Hbit; [|reflexivity].
    apply Hsub in Hbit. rewrite Hb in Hbit by assumption. discriminate. }
  apply cpumask_valid_spec; [assumption|]. split; [|exact Hhigh].
  apply Z.bits_iff_nonneg_ex. exists nr_cpu_ids. intros i Hi. apply Hhigh. lia.
Qed.

Lemma cpumask_valid_bit (m : cpumask) (i : Z) :
  cpumask_valid nr_cpu_ids m -> Z.testbit m i = true -> 0 <= i < nr_cpu_ids.
Proof.
  intros Hm Hbit. apply cpumask_valid_spec in Hm as [_ Hm]; [|assumption].
  destruct (Z.lt_ge_cases i 0) as [Hneg|Hpos].
  - rewrite Z.testbit_neg_r in Hbit by assumption. discriminate.
  - destruct (Z.lt_ge_cases i nr_cpu_ids) as [|Hhigh]; [lia|].
    rewrite Hm in Hbit by assumption. discriminate.
Qed.

(** X1. [init_real_cpu_mask] divides by the number of hardware threads
    of the first online CPU: with an empty sibling mask there is no
    result.  Otherwise the real CPU mask is made of online CPUs, holds as
    many CPUs as the online CPUs divided by the threads per core (rounded
    down), and these are the lowest-numbered online CPUs: every online
    CPU that is left out has a higher number than every real CPU. *)
Theorem real_cpu_mask_lowest_cpus (t : topology) :
  let online := cpu_online_mask t in
  let ht := cpumask_weight nr_cpu_ids
              (topology_sibling_cpumask t (cpumask_first nr_cpu_ids online)) in
  cpumask_valid nr_cpu_ids online ->
  (ht = 0 -> init_real_cpu_mask nr_cpu_ids t = None) /\
  (ht <> 0 ->
   exists real,
     init_real_cpu_mask nr_cpu_ids t = Some real /\
     cpumask_valid nr_cpu_ids real /\
     cpumask_subset real online /\
     cpumask_weight nr_cpu_ids real = cpumask_weight nr_cpu_ids online ÷ ht /\
     forall i j, cpu_in i real -> cpu_in j online -> ~ cpu_in j real -> i < j).
Proof.
  intros online ht Hvalid. unfold init_real_cpu_mask. fold online. fold ht.
  split; [intros ->; reflexivity|]. intros Hht.
  destruct (Z.eqb_spec ht 0) as [|_]; [contradiction|].
  pose proof (cpumask_weight_bounds nr_cpu_ids nr_cpu_ids_nonneg online) as Hw.
  assert (Hht1 : 1 <= ht).
  { pose proof (cpumask_weight_bounds nr_cpu_ids nr_cpu_ids_nonneg
                  (topology_sibling_cpumask t (cpumask_first nr_cpu_ids online))).
    fold ht in H. lia. }
  set (possible := cpumask_weight nr_cpu_ids online) in *.
  assert (Hquot : 0 <= possible ÷ ht <= possible).
  { rewrite Z.quot_div_nonneg by lia. split; [apply Z.div_pos; lia|].
    apply Z.div_le_upper_bound; nia. }
  destruct (keep_first_cpus nr_cpu_ids nr_cpu_ids_nonneg (Z.to_nat (possible ÷ ht)) online)
    as (Hc & Hbits & Hweight).
  fold possible in Hbits, Hweight.
  set (c := skip_cpus nr_cpu_ids (Z.to_nat (possible ÷ ht))
              (cpumask_first nr_cpu_ids online) online) in *.
  eexists. split; [reflexivity|].
  assert (Hsub : forall i,
    Z.testbit (clear_cpus nr_cpu_ids (Z.to_nat (possible - Z.of_nat (Z.to_nat (possible ÷ ht))))
                 c online) i = true -> Z.testbit online i = true).
  { intros i. rewrite Hbits. now intros [? _]%andb_true_iff. }
  split; [now apply (cpumask_valid_subset _ online)|].
  split; [now apply cpumask_subset_spec|].
  split; [lia|].
  intros i j Hi Hj Hnj. unfold cpu_in in *. rewrite Hbits in Hi, Hnj.
  apply andb_true_iff in Hi as [Hi Hci].
  pose proof (cpumask_valid_bit online i Hvalid Hi).
  pose proof (cpumask_valid_bit online j Hvalid Hj).
  rewrite Hj in Hnj. lia.
Qed.

End RealCpus.

Lemma real_cpu_mask_lowest_cpus_witness :
  0 <= 8 /\
  cpumask_valid 8 (cpu_online_mask sibling_topology) /\
  cpumask_weight 8
    (topology_sibling_cpumask sibling_topology
       (cpumask_first 8 (cpu_online_mask sibling_topology))) = 2 /\
  init_real_cpu_mask 8 sibling_topology = Some (cpumask_of_list [0; 1]) /\
  exists real,
    init_real_cpu_mask 8 sibling_topology = Some real /\
    cpumask_valid 8 real /\
    cpumask_subset real (cpu_online_mask sibling_topology) /\
    cpumask_weight 8 real = cpumask_weight 8 (cpu_online_mask sibling_topology) ÷ 2 /\
    forall i j, cpu_in i real -> cpu_in j (cpu_online_mask sibling_topology) ->
                ~ cpu_in j real -> i < j.
Proof.
  split; [lia|]. split; [valid_mask|]. split; [reflexivity|]. split; [reflexivity|].
  apply (real_cpu_mask_lowest_cpus 8 ltac:(lia) sibling_topology); [valid_mask|discriminate].
Defined.

(** ** The partition of the CPUs of a node *)

Section Partition.

Variable nr_cpu_ids : Z.
Hypothesis nr_cpu_ids_nonneg : 0 <= nr_cpu_ids.

Local Abbreviation weight := (cpumask_weight nr_cpu_ids).
Local Abbreviation below m c := (Z.land m (Z.ones c)).

(** The loop that fills the receive list moves the lowest CPUs of the
    default list: those below a CPU [c'], as many as asked for, or all
    of them when there are fewer. *)
Lemma move_rcv_cpus_spec (n : nat) (curr : Z) (def rcv : cpumask) :
  0 <= curr < nr_cpu_ids ->
  Z.testbit def curr = true ->
  (forall j, j < curr -> Z.testbit def j = false) ->
  exists c',
    curr <= c' <= nr_cpu_ids /\
    (forall x, Z.testbit (move_rcv_cpus nr_cpu_ids n curr def rcv).1 x
               = Z.testbit def x && negb (x <? c')) /\
    (forall x, Z.testbit (move_rcv_cpus nr_cpu_ids n curr def rcv).2 x
               = Z.testbit rcv x || (Z.testbit def x && (x <? c'))) /\
    weight (below def c') = Z.min (Z.of_nat n) (weight def).
Proof.
  revert curr def rcv. induction n as [|n IH]; intros curr def rcv Hcurr Hbit Hlow.
  - exists curr. cbn [move_rcv_cpus fst snd]. split; [lia|].
    pose proof (cpumask_weight_bounds nr_cpu_ids nr_cpu_ids_nonneg def) as Hw.
    repeat split.
    + intros x. destruct (Z.ltb_spec x curr); [|now rewrite andb_true_r].
      rewrite Hlow by assumption. reflexivity.
    + intros x. destruct (Z.ltb_spec x curr).
      * rewrite Hlow by assumption. now rewrite orb_false_r.
      * now rewrite andb_false_r, orb_false_r.
    + replace (Z.min (Z.of_nat 0) (weight def)) with 0 by lia.
      apply cpumask_weight_zero; [assumption|]. apply cpumask_empty_true; [assumption|].
      intros i Hi. rewrite testbit_below by lia.
      destruct (Z.ltb_spec i curr); [|now rewrite !andb_false_r].
      now rewrite Hlow.
  - cbn [move_rcv_cpus].
    set (def1 := cpumask_clear_cpu curr def).
    set (rcv1 := cpumask_set_cpu curr rcv).
    destruct (cpumask_next_spec nr_cpu_ids curr def1 ltac:(lia)) as (Hr1 & Hbit1 & Hgap).
    set (c1 := cpumask_next nr_cpu_ids curr def1) in *.
    assert (Hgap' : forall j, curr < j < c1 -> Z.testbit def j = false).
    { intros j Hj. rewrite <- (testbit_clear_other curr j def) by lia. now apply Hgap. }
    destruct (Z.leb_spec nr_cpu_ids c1) as [Hend|Hmore].
    + exists nr_cpu_ids. cbn [fst snd]. split; [lia|]. repeat split.
      * intros x. destruct (Z.eq_dec x curr) as [->|Hne].
        -- unfold def1. rewrite testbit_clear_same by lia.
           destruct (Z.ltb_spec curr nr_cpu_ids); [|lia]. now rewrite andb_false_r.
        -- unfold def1. rewrite testbit_clear_other by assumption.
           destruct (Z.ltb_spec x nr_cpu_ids); [|now rewrite andb_true_r].
           rewrite andb_false_r.
           destruct (Z.lt_ge_cases x curr); [now apply Hlow|]. apply Hgap'. lia.
      * intros x. destruct (Z.eq_dec x curr) as [->|Hne].
        -- unfold rcv1. rewrite testbit_set_same by lia. rewrite Hbit.
           destruct (Z.ltb_spec curr nr_cpu_ids); [|lia]. now rewrite orb_true_r.
        -- unfold rcv1. rewrite testbit_set_other by assumption.
           replace (Z.testbit def x && (x <? nr_cpu_ids)) with false;
             [now rewrite orb_false_r|].
           destruct (Z.ltb_spec x nr_cpu_ids); [|now rewrite andb_false_r].
           rewrite andb_true_r. symmetry.
           destruct (Z.lt_ge_cases x curr); [now apply Hlow|]. apply Hgap'. lia.
      * rewrite cpumask_weight_below_all by assumption.
        assert (Hone : weight def = 1).
        { rewrite <- (Z.add_0_l 1).
          rewrite <- (proj2 (cpumask_weight_zero nr_cpu_ids nr_cpu_ids_nonneg cpumask_none)).
          - rewrite <- (cpumask_weight_set nr_cpu_ids cpumask_none curr).
            + apply cpumask_weight_ext. intros i Hi.
              destruct (Z.eq_dec i curr) as [->|Hne].
              * rewrite testbit_set_same by lia. assumption.
              * rewrite testbit_set_other by assumption. unfold cpumask_none.
                rewrite Z.bits_0.
                destruct (Z.lt_ge_cases i curr); [now apply Hlow|]. apply Hgap'. lia.
            + lia.
            + apply Z.bits_0.
          - reflexivity. }
        lia.
    + destruct (IH c1 def1 rcv1) as (c' & Hc' & Hdef & Hrcv & Hw); try lia; auto.
      { intros j Hj. destruct (Z.eq_dec j curr) as [->|Hne].
        - unfold def1. now rewrite testbit_clear_same by lia.
        - destruct (Z.lt_ge_cases j curr).
          + unfold def1. rewrite testbit_clear_other by assumption. now apply Hlow.
          + apply Hgap. lia. }
      exists c'. split; [lia|]. repeat split.
      * intros x. rewrite Hdef. destruct (Z.eq_dec x curr) as [->|Hne].
        -- unfold def1. rewrite testbit_clear_same by lia. lia.
        -- unfold def1. now rewrite testbit_clear_other by assumption.
      * intros x. rewrite Hrcv. destruct (Z.eq_dec x curr) as [->|Hne].
        -- unfold rcv1. rewrite testbit_set_same by lia. rewrite Hbit. lia.
        -- unfold rcv1, def1.
           now rewrite testbit_set_other, testbit_clear_other by assumption.
      * assert (Hw1 : weight def1 = weight def - 1).
        { apply cpumask_weight_clear; [lia|assumption]. }
        assert (Hb : weight (below def c') = weight (below def1 c') + 1).
        { rewrite <- (cpumask_weight_set nr_cpu_ids (below def1 c') curr).
          - apply cpumask_weight_ext. intros i Hi.
            rewrite testbit_below by lia.
            destruct (Z.eq_dec i curr) as [->|Hne].
            + rewrite testbit_set_same by lia. rewrite Hbit.
              destruct (Z.leb_spec 0 curr), (Z.ltb_spec curr c'); lia.
            + rewrite testbit_set_other by assumption.
              rewrite testbit_below by lia. unfold def1.
              now rewrite testbit_clear_other by assumption.
          - lia.
          - rewrite testbit_below by lia. unfold def1.
            rewrite testbit_clear_same by lia. reflexivity. }
        lia.
Qed.

Lemma bitmap_weight_split (m a b : cpumask) (n : nat) :
  (forall i, 0 <= i < Z.of_nat n -> Z.testbit m i = Z.testbit a i || Z.testbit b i) ->
  (forall i, 0 <= i < Z.of_nat n -> Z.testbit a i && Z.testbit b i = false) ->
  bitmap_weight m n = bitmap_weight a n + bitmap_weight b n.
Proof.
  induction n as [|n IH]; intros Hor Hdisj; cbn [bitmap_weight]; [reflexivity|].
  rewrite IH by (intros; (apply Hor || apply Hdisj); lia).
  specialize (Hor (Z.of_nat n) ltac:(lia)). specialize (Hdisj (Z.of_nat n) ltac:(lia)).
  rewrite Hor.
  destruct (Z.testbit a (Z.of_nat n)), (Z.testbit b (Z.of_nat n));
    cbn [orb andb] in *; try discriminate; lia.
Qed.

(** The entry of a node with more than one candidate CPU. *)
Lemma new_affinity_node_many (real local_mask : cpumask) (nd krcv cntr : Z) :
  let cand := cpumask_and real local_mask in
  let first := cpumask_first nr_cpu_ids cand in
  let def1 := cpumask_clear_cpu first cand in
  let moved :=
    move_rcv_cpus nr_cpu_ids (Z.to_nat (uint ((krcv - 1) * cntr)))
      (cpumask_next nr_cpu_ids first def1) def1 cpumask_none in
  weight cand <> 1 ->
  new_affinity_node nr_cpu_ids real local_mask nd krcv cntr
  = {| node := nd;
       def_intr :=
         set_mask init_cpu_mask_set
           (if weight moved.1 =? 0 then cpumask_set_cpu first cpumask_none else moved.1);
       rcv_intr := set_mask init_cpu_mask_set moved.2;
       general_intr_mask := cpumask_set_cpu first cpumask_none |}.
Proof.
  intros cand first def1 moved Hw. unfold new_affinity_node.
  fold cand. fold first. fold def1. fold moved.
  destruct (Z.eqb_spec (weight cand) 1) as [|_]; [contradiction|].
  now destruct moved.
Qed.

(** The entry of a node with two or more candidate CPUs. *)
Lemma new_affinity_node_partition (real local_mask : cpumask) (nd krcv cntr : Z) :
  let cand := cpumask_and real local_mask in
  let possible := cpumask_weight nr_cpu_ids cand in
  let first := cpumask_first nr_cpu_ids cand in
  let k := uint ((krcv - 1) * cntr) in
  let e := new_affinity_node nr_cpu_ids real local_mask nd krcv cntr in
  cpumask_valid nr_cpu_ids cand ->
  2 <= possible ->
  node e = nd /\
  used (def_intr e) = cpumask_none /\ gen (def_intr e) = 0 /\
  used (rcv_intr e) = cpumask_none /\ gen (rcv_intr e) = 0 /\
  cpu_in first cand /\
  general_intr_mask e = cpumask_of_list [first] /\
  cpumask_weight nr_cpu_ids (mask (rcv_intr e)) = Z.min k (possible - 1) /\
  (forall x, cpu_in x (mask (rcv_intr e)) -> cpu_in x cand /\ first < x) /\
  (k < possible - 1 ->
   cpumask_weight nr_cpu_ids (mask (def_intr e)) = possible - 1 - k /\
   (forall y, cpu_in y (mask (def_intr e)) ->
      cpu_in y cand /\ first < y /\ forall x, cpu_in x (mask (rcv_intr e)) -> x < y) /\
   (forall x, cpu_in x cand <->
      x = first \/ cpu_in x (mask (rcv_intr e)) \/ cpu_in x (mask (def_intr e)))) /\
  (possible - 1 <= k ->
   mask (def_intr e) = general_intr_mask e /\
   (forall x, cpu_in x cand <-> x = first \/ cpu_in x (mask (rcv_intr e)))).
Proof.
  intros cand possible first k e Hvalid Hposs.
  pose proof (cpumask_first_range nr_cpu_ids nr_cpu_ids_nonneg cand) as Hfirst.
  fold first in Hfirst.
  assert (Hne : cpumask_empty nr_cpu_ids cand = false).
  { destruct (cpumask_empty nr_cpu_ids cand) eqn:He; [|reflexivity].
    apply cpumask_weight_zero in He; [|assumption]. fold possible in He. lia. }
  pose proof (cpumask_first_lt nr_cpu_ids nr_cpu_ids_nonneg cand Hne) as Hlt.
  fold first in Hlt.
  pose proof (cpumask_first_in nr_cpu_ids cand Hlt) as Hin. fold first in Hin.
  assert (Hleast : forall j, j < first -> Z.testbit cand j = false).
  { intros j Hj. destruct (Z.lt_ge_cases j 0); [now apply Z.testbit_neg_r|].
    apply (cpumask_first_least nr_cpu_ids). fold first. lia. }
  set (def1 := cpumask_clear_cpu first cand).
  assert (Hw1 : weight def1 = possible - 1).
  { apply cpumask_weight_clear; [lia|assumption]. }
  destruct (cpumask_next_spec nr_cpu_ids first def1 ltac:(lia)) as (Hr1 & Hbit1 & Hgap).
  set (c1 := cpumask_next nr_cpu_ids first def1) in *.
  assert (Hlow1 : forall j, j < c1 -> Z.testbit def1 j = false).
  { intros j Hj. destruct (Z.eq_dec j first) as [->|Hnej].
    - unfold def1. now rewrite testbit_clear_same by lia.
    - destruct (Z.lt_ge_cases j first).
      + unfold def1. rewrite testbit_clear_other by assumption. now apply Hleast.
      + apply Hgap. lia. }
  assert (Hc1 : c1 < nr_cpu_ids).
  { destruct (Z.lt_ge_cases c1 nr_cpu_ids) as [|Hge]; [assumption|].
    assert (weight def1 = 0); [|lia].
    apply cpumask_weight_zero; [assumption|]. apply cpumask_empty_true; [assumption|].
    intros i Hi. apply Hlow1. lia. }
  destruct (move_rcv_cpus_spec (Z.to_nat k) c1 def1 cpumask_none ltac:(lia) (Hbit1 Hc1) Hlow1)
    as (c' & Hc' & Hdef & Hrcv & Hwb).
  assert (Hk : 0 <= k) by (unfold k, uint; apply Z.mod_pos_bound; lia).
  rewrite Z2Nat.id, Hw1 in Hwb by assumption.
  assert (He : e = _) by (apply new_affinity_node_many; fold cand; fold possible; lia).
  cbv zeta in He. fold cand in He. fold first in He. fold def1 in He. fold c1 in He.
  fold k in He.
  set (moved := move_rcv_cpus nr_cpu_ids (Z.to_nat k) c1 def1 cpumask_none) in *.
  assert (Hdef1 : forall x, Z.testbit def1 x = Z.testbit cand x && negb (x =? first)).
  { intros x. destruct (Z.eqb_spec x first) as [->|Hnex].
    - unfold def1. rewrite testbit_clear_same by lia. now rewrite andb_false_r.
    - unfold def1. rewrite testbit_clear_other by assumption. now rewrite andb_true_r. }
  assert (Hrcv' : forall x, Z.testbit moved.2 x
            = Z.testbit cand x && ((first <? x) && (x <? c'))).
  { intros x. rewrite Hrcv, Hdef1. unfold cpumask_none. rewrite Z.bits_0. cbn [orb].
    destruct (Z.testbit cand x) eqn:Hx; [|reflexivity]. cbn [andb].
    destruct (Z.lt_ge_cases x first) as [Hxl|Hxl]; [rewrite Hleast in Hx by lia; discriminate|].
    lia. }
  assert (Hdef' : forall x, Z.testbit moved.1 x = Z.testbit cand x && (c' <=? x)).
  { intros x. rewrite Hdef, Hdef1.
    destruct (Z.testbit cand x) eqn:Hx; [|reflexivity]. cbn [andb]. lia. }
  assert (Hwr : weight moved.2 = Z.min k (possible - 1)).
  { rewrite <- Hwb. apply cpumask_weight_ext. intros i Hi.
    rewrite Hrcv', testbit_below, Hdef1 by lia.
    destruct (Z.testbit cand i) eqn:Hx; [|reflexivity]. cbn [andb].
    destruct (Z.lt_ge_cases i first) as [Hxl|Hxl]; [rewrite Hleast in Hx by lia; discriminate|].
    lia. }
  assert (Hwd : weight moved.1 = possible - 1 - Z.min k (possible - 1)).
  { assert (weight def1 = weight moved.2 + weight moved.1); [|lia].
    apply bitmap_weight_split.
    - intros i Hi. rewrite Hrcv', Hdef', Hdef1.
      destruct (Z.testbit cand i) eqn:Hx; [|reflexivity]. cbn [andb].
      destruct (Z.lt_ge_cases i first) as [Hxl|Hxl];
        [rewrite Hleast in Hx by lia; discriminate|].
      lia.
    - intros i Hi. rewrite Hrcv', Hdef'.
      destruct (Z.testbit cand i); [|reflexivity]. cbn [andb]. lia. }
  rewrite He. cbn [node def_intr rcv_intr general_intr_mask used gen mask set_mask
                   init_cpu_mask_set].
  split; [reflexivity|]. split; [reflexivity|]. split; [reflexivity|].
  split; [reflexivity|]. split; [reflexivity|]. split; [exact Hin|].
  split; [reflexivity|]. split; [exact Hwr|].
  split.
  { intros x Hx. unfold cpu_in in *. rewrite Hrcv' in Hx.
    apply andb_true_iff in Hx as [Hx Hr]. split; [assumption|lia]. }
  split.
  - intros Hfew. rewrite Hwd.
    destruct (Z.eqb_spec (possible - 1 - Z.min k (possible - 1)) 0) as [|_]; [lia|].
    split; [rewrite Hwd; lia|]. split.
    + intros y Hy. unfold cpu_in in *. rewrite Hdef' in Hy.
      apply andb_true_iff in Hy as [Hy Hr]. split; [assumption|]. split; [lia|].
      intros x Hx. rewrite Hrcv' in Hx. apply andb_true_iff in Hx as [_ Hx]. lia.
    + intros x. unfold cpu_in. rewrite Hrcv', Hdef'. split.
      * intros Hx. rewrite Hx. cbn [andb].
        destruct (Z.lt_ge_cases x first) as [Hxl|Hxl];
          [rewrite Hleast in Hx by lia; discriminate|].
        lia.
      * intros [->|[Hx|Hx]]; [assumption| |]; now apply andb_true_iff in Hx as [Hx _].
  - intros Hmany. rewrite Hwd.
    destruct (Z.eqb_spec (possible - 1 - Z.min k (possible - 1)) 0) as [_|]; [|lia].
    split; [reflexivity|].
    assert (Hnone : forall x, Z.testbit cand x = true -> x < c').
    { intros x Hx. destruct (Z.lt_ge_cases x c') as [|Hge]; [assumption|].
      assert (Hz : weight moved.1 = 0) by lia.
      apply cpumask_weight_zero in Hz; [|assumption].
      pose proof (cpumask_valid_bit nr_cpu_ids nr_cpu_ids_nonneg cand x Hvalid Hx).
      pose proof (proj1 (cpumask_empty_true nr_cpu_ids nr_cpu_ids_nonneg _) Hz x ltac:(lia))
        as Hbit.
      rewrite Hdef', Hx in Hbit. lia. }
    intros x. unfold cpu_in. rewrite Hrcv'. split.
    + intros Hx. rewrite Hx. cbn [andb]. specialize (Hnone x Hx).
      destruct (Z.lt_ge_cases x first) as [Hxl|Hxl];
        [rewrite Hleast in Hx by lia; discriminate|].
      lia.
    + intros [->|Hx]; [assumption|]. now apply andb_true_iff in Hx as [Hx _].
Qed.

(** X2. The first device that attaches on a node with two or more
    candidate CPUs (the real CPUs local to the node) creates the entry of
    the node: the general mask is the first candidate; the receive mask
    takes the next candidates in increasing order, one for each kernel
    receive queue but the first times the number of devices on the node,
    as far as there are candidates; the default mask keeps the
    candidates above these, or is the general mask when none is left.
    The three masks cover the candidates, and both pools start with no
    used CPU at generation 0. *)
Theorem attach_partition (t : topology) (bus_node : Z)
    (a : hfi1_affinity_node_list) (dd : hfi1_devdata) :
  let nd := device_node t bus_node in
  let cand := cpumask_and (real_cpu_mask a) (node_local_mask nr_cpu_ids t nd) in
  let possible := cpumask_weight nr_cpu_ids cand in
  let first := cpumask_first nr_cpu_ids cand in
  let k := uint ((n_krcv_queues dd - 1) * hfi1_per_node_cntr a nd) in
  cpumask_valid nr_cpu_ids cand ->
  node_affinity_lookup a nd = None ->
  2 <= possible ->
  exists e,
    hfi1_dev_affinity_init nr_cpu_ids t bus_node true a dd
    = (0, with_node_list a (node_list a ++ [e]), with_dd_node dd nd) /\
    node e = nd /\
    used (def_intr e) = cpumask_none /\ gen (def_intr e) = 0 /\
    used (rcv_intr e) = cpumask_none /\ gen (rcv_intr e) = 0 /\
    cpu_in first cand /\
    general_intr_mask e = cpumask_of_list [first] /\
    cpumask_weight nr_cpu_ids (mask (rcv_intr e)) = Z.min k (possible - 1) /\
    (forall x, cpu_in x (mask (rcv_intr e)) -> cpu_in x cand /\ first < x) /\
    (k < possible - 1 ->
     cpumask_weight nr_cpu_ids (mask (def_intr e)) = possible - 1 - k /\
     (forall y, cpu_in y (mask (def_intr e)) ->
        cpu_in y cand /\ first < y /\ forall x, cpu_in x (mask (rcv_intr e)) -> x < y) /\
     (forall x, cpu_in x cand <->
        x = first \/ cpu_in x (mask (rcv_intr e)) \/ cpu_in x (mask (def_intr e)))) /\
    (possible - 1 <= k ->
     mask (def_intr e) = general_intr_mask e /\
     (forall x, cpu_in x cand <-> x = first \/ cpu_in x (mask (rcv_intr e)))).
Proof.
  intros nd cand possible first k Hvalid Hnone Hposs.
  eexists. split; [now apply attach_first_device|].
  cbn [n_krcv_queues with_dd_node].
  now apply new_affinity_node_partition.
Qed.

End Partition.

(** On node 0 of the sparse topology, whose candidates are the CPUs 0, 1,
    3, 7 and 9, a device with two receive queues: CPU 0 is the general
    CPU, CPU 1 the receive CPU and the CPUs 3, 7 and 9 are left for the
    SDMA engines. *)
Lemma attach_partition_witness :
  0 <= 16 /\
  cpumask_valid 16
    (cpumask_and (real_cpu_mask bare_registry)
       (node_local_mask 16 sparse_topology (device_node sparse_topology 0))) /\
  node_affinity_lookup bare_registry (device_node sparse_topology 0) = None /\
  2 <= cpumask_weight 16
         (cpumask_and (real_cpu_mask bare_registry)
            (node_local_mask 16 sparse_topology (device_node sparse_topology 0))) /\
  exists e,
    hfi1_dev_affinity_init 16 sparse_topology 0 true bare_registry two_engine_device
    = (0, with_node_list bare_registry (node_list bare_registry ++ [e]),
       with_dd_node two_engine_device 0) /\
    general_intr_mask e = cpumask_of_list [0] /\
    mask (rcv_intr e) = cpumask_of_list [1] /\
    mask (def_intr e) = cpumask_of_list [3; 7; 9] /\
    cpumask_weight 16 (mask (rcv_intr e)) = Z.min 1 (5 - 1).
Proof.
  assert (Hvalid : cpumask_valid 16
            (cpumask_and (real_cpu_mask bare_registry)
               (node_local_mask 16 sparse_topology (device_node sparse_topology 0))))
    by valid_mask.
  assert (Hposs : 2 <= cpumask_weight 16
            (cpumask_and (real_cpu_mask bare_registry)
               (node_local_mask 16 sparse_topology (device_node sparse_topology 0))))
    by (vm_compute; discriminate).
  split; [lia|]. split; [exact Hvalid|]. split; [reflexivity|]. split; [exact Hposs|].
  destruct (attach_partition 16 ltac:(lia) sparse_topology 0 bare_registry two_engine_device
              Hvalid eq_refl Hposs)
    as (e & Hinit & _ & _ & _ & _ & _ & _ & _ & Hw & _).
  exists e. split; [exact Hinit|].
  vm_compute in Hinit. injection Hinit as <-.
  split; [reflexivity|]. split; [reflexivity|]. split; [reflexivity|].
  exact Hw.
Defined.

(** ** The bootstrap of the registry *)

Section Bootstrap.

Variable nr_cpu_ids : Z.

(** The devices on the node [k] among the devices that the PCI scan
    finds. *)
Local Abbreviation devices_on t k bus_nodes :=
  (filter (fun n => device_node t n = k) bus_nodes).

Lemma count_devices_from (t : topology) (bus_nodes : list Z) (cntr : Z -> Z) (k : Z) :
  0 <= cntr k ->
  cntr k + Z.of_nat (length bus_nodes) < 2 ^ 32 ->
  count_devices t bus_nodes cntr k
  = cntr k + Z.of_nat (length (devices_on t k bus_nodes)).
Proof.
  revert cntr. induction bus_nodes as [|n rest IH]; intros cntr Hpos Hsmall.
  - cbn. lia.
  - cbn [count_devices]. cbn [length] in Hsmall. rewrite Nat2Z.inj_succ in Hsmall.
    rewrite filter_cons. fold (device_node t n).
    match goal with
    | |- count_devices t rest ?f k = _ => set (cntr' := f)
    end.
    destruct (decide (device_node t n = k)) as [Heq|Hne].
    + assert (Hk : cntr' k = cntr k + 1).
      { unfold cntr'. rewrite Heq, Z.eqb_refl. unfold uint. apply Z.mod_small. lia. }
      rewrite IH, Hk by (rewrite Hk; lia). cbn [length]. rewrite Nat2Z.inj_succ. lia.
    + assert (Hk : cntr' k = cntr k).
      { unfold cntr'. destruct (Z.eqb_spec k (device_node t n)); [congruence|reflexivity]. }
      rewrite IH, Hk by (rewrite Hk; lia). reflexivity.
Qed.

(** X3. [node_affinity_init], when the counter array can be allocated,
    the first online CPU has a hardware thread (so that the division of
    [init_real_cpu_mask] is defined) and every device found is on a
    possible node (the array has one counter for each of them), returns
    0 and leaves: a process pool that holds the online CPUs, with none
    used, at generation 0; the topology counts of the system; the real
    CPU mask; the list of entries as it was; and for every node the
    number of the devices found on it, a device whose bus has no node
    counting for the current node. *)
Theorem node_affinity_init_counts (t : topology) (bus_nodes : list Z)
    (a : hfi1_affinity_node_list) :
  cpumask_weight nr_cpu_ids
    (topology_sibling_cpumask t (cpumask_first nr_cpu_ids (cpu_online_mask t))) <> 0 ->
  Forall (fun n => 0 <= device_node t n < possible_nodes t) bus_nodes ->
  Z.of_nat (length bus_nodes) < 2 ^ 32 ->
  exists a',
    node_affinity_init nr_cpu_ids t bus_nodes true a = Some (0, a') /\
    node_list a' = node_list a /\
    proc a' = {| mask := cpu_online_mask t; used := cpumask_none; gen := 0 |} /\
    Some (real_cpu_mask a') = init_real_cpu_mask nr_cpu_ids t /\
    num_core_siblings a'
    = cpumask_weight nr_cpu_ids
        (topology_sibling_cpumask t (cpumask_first nr_cpu_ids (cpu_online_mask t))) /\
    num_possible_nodes a' = possible_nodes t /\
    num_online_nodes a' = online_nodes t /\
    num_online_cpus a' = online_cpus t /\
    forall k, hfi1_per_node_cntr a' k = Z.of_nat (length (devices_on t k bus_nodes)).
Proof.
  intros Hht _ Hsmall. unfold node_affinity_init.
  destruct (init_real_cpu_mask nr_cpu_ids t) as [real|] eqn:Hreal.
  - cbn [mbind option_bind]. eexists. split; [reflexivity|].
    cbn [node_list proc real_cpu_mask num_core_siblings num_possible_nodes
         num_online_nodes num_online_cpus hfi1_per_node_cntr mask].
    repeat (split; [reflexivity|]).
    intros k. rewrite count_devices_from by lia. lia.
  - unfold init_real_cpu_mask in Hreal.
    destruct (Z.eqb_spec (cpumask_weight nr_cpu_ids
                (topology_sibling_cpumask t (cpumask_first nr_cpu_ids (cpu_online_mask t)))) 0);
      [contradiction | discriminate].
Qed.

End Bootstrap.

(** Three devices on the two-node system, two on node 1 and one whose
    bus has no node: the current node 0 counts one device, node 1
    two. *)
Lemma node_affinity_init_counts_witness :
  cpumask_weight 8
    (topology_sibling_cpumask two_node_topology
       (cpumask_first 8 (cpu_online_mask two_node_topology))) <> 0 /\
  Forall (fun n => 0 <= device_node two_node_topology n < possible_nodes two_node_topology)
    [1; -1; 1] /\
  Z.of_nat (length [1; -1; 1]) < 2 ^ 32 /\
  exists a',
    node_affinity_init 8 two_node_topology [1; -1; 1] true node_affinity_static
    = Some (0, a') /\
    proc a' = {| mask := cpu_online_mask two_node_topology; used := cpumask_none;
                 gen := 0 |} /\
    hfi1_per_node_cntr a' 0 = 1 /\
    hfi1_per_node_cntr a' 1 = 2.
Proof.
  assert (Hht : cpumask_weight 8
            (topology_sibling_cpumask two_node_topology
               (cpumask_first 8 (cpu_online_mask two_node_topology))) <> 0)
    by discriminate.
  assert (Hsmall : Z.of_nat (length [1; -1; 1]) < 2 ^ 32) by reflexivity.
  assert (Hnodes : Forall (fun n => 0 <= device_node two_node_topology n
                                    < possible_nodes two_node_topology) [1; -1; 1])
    by (repeat constructor; discriminate).
  split; [exact Hht|]. split; [exact Hnodes|]. split; [exact Hsmall|].
  destruct (node_affinity_init_counts 8 two_node_topology [1; -1; 1] node_affinity_static
              Hht Hnodes Hsmall)
    as (a' & Hinit & _ & Hproc & _ & _ & _ & _ & _ & Hcntr).
  exists a'. split; [exact Hinit|]. split; [exact Hproc|].
  split; [exact (Hcntr 0) | exact (Hcntr 1)].
Defined.

(** ** The entries of the registry *)

Section Entries.

Variable nr_cpu_ids : Z.

Lemma lookup_new_entry (a : hfi1_affinity_node_list) (e : hfi1_affinity_node) :
  node_affinity_lookup a (node e) = None ->
  node_affinity_lookup (with_node_list a (node_list a ++ [e])) (node e)
  = Some (length (node_list a), e).
Proof.
  unfold node_affinity_lookup. cbn [node_list with_node_list]. intros Hnone.
  rewrite list_find_app_r by assumption. cbn [list_find].
  destruct (decide (node e = node e)) as [_|]; [|contradiction].
  cbn. reflexivity.
Qed.

Lemma lookup_kept_entry (a : hfi1_affinity_node_list) (e e0 : hfi1_affinity_node)
    (nd : Z) (j : nat) :
  node_affinity_lookup a nd = Some (j, e0) ->
  node_affinity_lookup (with_node_list a (node_list a ++ [e])) nd = Some (j, e0).
Proof.
  unfold node_affinity_lookup. cbn [node_list with_node_list]. apply list_find_app_l.
Qed.

Lemma node_of_new_affinity_node (real local_mask : cpumask) (nd krcv cntr : Z) :
  node (new_affinity_node nr_cpu_ids real local_mask nd krcv cntr) = nd.
Proof.
  unfold new_affinity_node. destruct (_ =? 1); [reflexivity|].
  now destruct (move_rcv_cpus _ _ _ _ _).
Qed.

(** X4. [hfi1_dev_affinity_init] records the node of the device, and
    returns 0 or -ENOMEM.  It fails only when the node has no entry and
    the entry cannot be allocated, and then leaves the registry as it
    was.  When it returns 0 the node has an entry; every entry that was
    in the list is still found at its place; and a further device that
    attaches on the same node finds the entry and changes nothing in the
    registry, whether memory can be allocated or not and whatever its
    number of receive queues. *)
Theorem attach_registers_node (t : topology) (bus_node : Z) (ok : bool)
    (a a' : hfi1_affinity_node_list) (dd dd' : hfi1_devdata) (r : Z) :
  hfi1_dev_affinity_init nr_cpu_ids t bus_node ok a dd = (r, a', dd') ->
  dd' = with_dd_node dd (device_node t bus_node) /\
  (r = 0 \/ r = - ENOMEM) /\
  (r = - ENOMEM ->
   ok = false /\ node_affinity_lookup a (device_node t bus_node) = None /\ a' = a) /\
  (r = 0 ->
   (exists j e, node_affinity_lookup a' (dd_node dd') = Some (j, e)) /\
   (forall nd j e,
      node_affinity_lookup a nd = Some (j, e) -> node_affinity_lookup a' nd = Some (j, e)) /\
   (forall ok2 dd2,
      hfi1_dev_affinity_init nr_cpu_ids t bus_node ok2 a' dd2
      = (0, a', with_dd_node dd2 (device_node t bus_node)))).
Proof.
  unfold hfi1_dev_affinity_init. set (nd := device_node t bus_node).
  destruct (node_affinity_lookup a nd) as [[j e]|] eqn:Hlook.
  - intros [= <- <- <-]. split; [reflexivity|]. split; [now left|].
    split; [discriminate|]. intros _. cbn [dd_node with_dd_node].
    split; [now exists j, e|]. split; [auto|].
    intros ok2 dd2. now rewrite Hlook.
  - destruct ok.
    + intros [= <- <- <-]. split; [reflexivity|]. split; [now left|].
      split; [discriminate|]. intros _. cbn [dd_node with_dd_node n_krcv_queues].
      set (e := new_affinity_node nr_cpu_ids (real_cpu_mask a)
                  (node_local_mask nr_cpu_ids t nd) nd (n_krcv_queues dd)
                  (hfi1_per_node_cntr a nd)).
      assert (He : node e = nd) by apply node_of_new_affinity_node.
      assert (Hnew : node_affinity_lookup (with_node_list a (node_list a ++ [e])) nd
                     = Some (length (node_list a), e)).
      { rewrite <- He. apply lookup_new_entry. now rewrite He. }
      split; [now exists (length (node_list a)), e|].
      split; [intros nd' j' e'; apply lookup_kept_entry|].
      intros ok2 dd2. now rewrite Hnew.
    + intros [= <- <- <-]. split; [reflexivity|]. split; [now right|].
      split; [easy|]. discriminate.
Qed.

End Entries.

(** The device of the two-node system attaches on node 0, and a second
    device attaches on the same node while no memory can be had. *)
Lemma attach_registers_node_witness :
  hfi1_dev_affinity_init 8 two_node_topology 0 true two_node_registry two_engine_device
  = (0, attached_registry, attached_device) /\
  (exists j e, node_affinity_lookup attached_registry (dd_node attached_device) = Some (j, e)) /\
  hfi1_dev_affinity_init 8 two_node_topology 0 false attached_registry one_queue_device
  = (0, attached_registry, with_dd_node one_queue_device 0).
Proof.
  assert (Hinit :
    hfi1_dev_affinity_init 8 two_node_topology 0 true two_node_registry two_engine_device
    = (0, attached_registry, attached_device)) by reflexivity.
  split; [exact Hinit|].
  destruct (attach_registers_node 8 two_node_topology 0 true two_node_registry
              attached_registry two_engine_device attached_device 0 Hinit)
    as (_ & _ & _ & Hok).
  destruct (Hok eq_refl) as (Hentry & _ & Hagain).
  split; [exact Hentry|]. exact (Hagain false one_queue_device).
Defined.

(** ** What the operations change in the registry *)

Section Operations.

Variable nr_cpu_ids : Z.

Lemma same_topology_refl (a : hfi1_affinity_node_list) : same_topology a a.
Proof. now repeat split. Qed.

Lemma same_topology_trans (a a1 a2 : hfi1_affinity_node_list) :
  same_topology a a1 -> same_topology a1 a2 -> same_topology a a2.
Proof.
  unfold same_topology. intros (H1 & H2 & H3 & H4 & H5 & H6 & H7)
    (K1 & K2 & K3 & K4 & K5 & K6 & K7).
  repeat split; congruence.
Qed.

Lemma same_topology_with_entry (a : hfi1_affinity_node_list) (j : nat)
    (e : hfi1_affinity_node) :
  same_topology a (with_entry a j e).
Proof. now repeat split. Qed.

Lemma mask_of_put (p : cpu_mask_set) (m : cpumask) :
  mask (cpu_mask_set_put nr_cpu_ids p m) = mask p.
Proof. unfold cpu_mask_set_put. now destruct (_ && _). Qed.

Lemma mask_of_get_first (p : cpu_mask_set) :
  mask (cpu_mask_set_get_first nr_cpu_ids p).2 = mask p.
Proof. now rewrite get_first_pool. Qed.

Lemma change_of_pool (a : hfi1_affinity_node_list) (nd : Z) (j : nat)
    (e : hfi1_affinity_node) (s : pool_sel) (p : cpu_mask_set) :
  node_affinity_lookup a nd = Some (j, e) ->
  mask p = mask (get_pool e s) ->
  list_change a (with_entry a j (put_pool e s p)).
Proof.
  intros Hlook Hmask. apply lookup_node in Hlook as [_ Hj].
  apply (change_pool a _ j e s p); [assumption| |reflexivity].
  intros ->. exact Hmask.
Qed.

Lemma attach_change (t : topology) (bus_node : Z) (ok : bool)
    (a a' : hfi1_affinity_node_list) (dd dd' : hfi1_devdata) (r : Z) :
  hfi1_dev_affinity_init nr_cpu_ids t bus_node ok a dd = (r, a', dd') ->
  list_change a a' /\ same_topology a a'.
Proof.
  unfold hfi1_dev_affinity_init.
  destruct (node_affinity_lookup a (device_node t bus_node)) as [[j e]|] eqn:Hlook.
  - intros [= <- <- <-]. split; [now apply change_none | apply same_topology_refl].
  - destruct ok; intros [= <- <- <-].
    + split; [|now repeat split].
      eapply change_new; [|reflexivity].
      now rewrite node_of_new_affinity_node.
    + split; [now apply change_none | apply same_topology_refl].
Qed.

Lemma get_irq_change (ok : bool) (a a' : hfi1_affinity_node_list) (dd dd' : hfi1_devdata)
    (i : nat) (r : Z) :
  hfi1_get_irq_affinity nr_cpu_ids ok a dd i = Some (r, a', dd') ->
  list_change a a' /\ same_topology a a' /\ proc a' = proc a.
Proof.
  unfold hfi1_get_irq_affinity, get_irq_affinity. intros Heq.
  assert (Hsame : list_change a a /\ same_topology a a /\ proc a = proc a).
  { split; [now apply change_none|]. split; [apply same_topology_refl | reflexivity]. }
  destruct (msix_entries dd !! i) as [m|] eqn:Hm; [|discriminate].
  cbn [mbind option_bind] in Heq.
  destruct ok; cbn [negb] in Heq; [|now injection Heq as <- <- <-].
  assert (Hpool : forall j e s,
    node_affinity_lookup a (dd_node dd) = Some (j, e) ->
    a' = with_entry a j (put_pool e s (cpu_mask_set_get_first nr_cpu_ids (get_pool e s)).2) ->
    list_change a a' /\ same_topology a a' /\ proc a' = proc a).
  { intros j e s Hlook ->. split; [|split; [apply same_topology_with_entry | reflexivity]].
    eapply change_of_pool; [eassumption | apply mask_of_get_first]. }
  destruct (node_affinity_lookup a (dd_node dd)) as [[j e]|] eqn:Hlook.
  - destruct (msix_type m) eqn:Hty, (arg m) as [k|ctxt|] eqn:Harg;
      cbn [mbind option_bind] in Heq; try discriminate;
      try (now injection Heq as <- <- <-).
    + destruct (per_sdma dd !! k); [|discriminate].
      cbn [mbind option_bind] in Heq. injection Heq as <- <- <-.
      now apply (Hpool j e sel_def).
    + destruct (ctxt =? HFI1_CTRL_CTXT) eqn:Hctl; cbn [mbind option_bind] in Heq.
      * now injection Heq as <- <- <-.
      * injection Heq as <- <- <-. now apply (Hpool j e sel_rcv).
  - destruct (msix_type m) eqn:Hty, (arg m) as [k|ctxt|] eqn:Harg;
      cbn [mbind option_bind] in Heq; try discriminate;
      try (now injection Heq as <- <- <-).
    destruct (ctxt =? HFI1_CTRL_CTXT); cbn [mbind option_bind] in Heq; discriminate.
Qed.

Lemma put_irq_change (a a' : hfi1_affinity_node_list) (dd dd' : hfi1_devdata) (i : nat) :
  hfi1_put_irq_affinity nr_cpu_ids a dd i = Some (a', dd') ->
  list_change a a' /\ same_topology a a' /\ proc a' = proc a.
Proof.
  unfold hfi1_put_irq_affinity. intros Heq.
  assert (Hsame : list_change a a /\ same_topology a a /\ proc a = proc a).
  { split; [now apply change_none|]. split; [apply same_topology_refl | reflexivity]. }
  destruct (msix_entries dd !! i) as [m|] eqn:Hm; [|discriminate].
  cbn [mbind option_bind] in Heq.
  assert (Hput : forall s (x : hfi1_devdata),
    ('(j, e) ← node_affinity_lookup a (dd_node dd);
     Some (with_entry a j
             (put_pool e s (cpu_mask_set_put nr_cpu_ids (get_pool e s) (msix_mask m))),
           x)) = Some (a', dd') ->
    list_change a a' /\ same_topology a a' /\ proc a' = proc a).
  { intros s x Hs.
    destruct (node_affinity_lookup a (dd_node dd)) as [[j e]|] eqn:Hlook; [|discriminate].
    cbn [mbind option_bind] in Hs. injection Hs as <- <-.
    split; [|split; [apply same_topology_with_entry | reflexivity]].
    eapply change_of_pool; [eassumption | apply mask_of_put]. }
  destruct (msix_type m), (arg m) as [k|ctxt|];
    try discriminate; try (now injection Heq as <- <-);
    try (eapply Hput; exact Heq).
  destruct (ctxt =? HFI1_CTRL_CTXT); [now injection Heq as <- <-|].
  eapply Hput; exact Heq.
Qed.

Lemma update_change (t : topology) (a a' : hfi1_affinity_node_list) (dd dd' : hfi1_devdata)
    (i : nat) (new_cpu : Z) :
  hfi1_update_sdma_affinity t a dd i new_cpu = Some (a', dd') ->
  list_change a a' /\ same_topology a a' /\ proc a' = proc a.
Proof.
  unfold hfi1_update_sdma_affinity. intros Heq.
  assert (Hsame : list_change a a /\ same_topology a a /\ proc a = proc a).
  { split; [now apply change_none|]. split; [apply same_topology_refl | reflexivity]. }
  destruct (msix_entries dd !! i) as [m|]; [|discriminate].
  cbn [mbind option_bind] in Heq.
  destruct (arg m) as [k| |]; try discriminate.
  destruct (per_sdma dd !! k) as [sde|]; [|discriminate].
  cbn [mbind option_bind] in Heq.
  destruct (_ || _); [now injection Heq as <- <-|].
  destruct (node_affinity_lookup a (dd_node dd)) as [[j e]|] eqn:Hlook;
    [|now injection Heq as <- <-].
  injection Heq as <- <-.
  split; [|split; [apply same_topology_with_entry | reflexivity]].
  apply lookup_node in Hlook as [_ Hj].
  eapply (change_pool a _ j e sel_def); [eassumption|discriminate|reflexivity].
Qed.

Lemma get_proc_change (t : topology) (proc_mask : cpumask) (ok : bool)
    (a a' : hfi1_affinity_node_list) (nd c : Z) :
  hfi1_get_proc_affinity nr_cpu_ids t proc_mask ok a nd = Some (c, a') ->
  node_list a' = node_list a /\ same_topology a a'.
Proof.
  unfold hfi1_get_proc_affinity. intros Heq. cbv zeta in Heq.
  assert (Hsame : node_list a = node_list a /\ same_topology a a).
  { split; [reflexivity | apply same_topology_refl]. }
  assert (Hproc : forall p, mask p = mask (proc a) ->
            node_list (with_proc a p) = node_list a /\ same_topology a (with_proc a p)).
  { intros p Hp. split; [reflexivity|]. now repeat split. }
  pose proof (gen_inc_mask nr_cpu_ids (proc a)) as Hinc.
  destruct (_ =? 1); [injection Heq as <- <-; now apply Hproc|].
  destruct (_ <? _); [now injection Heq as <- <-|].
  destruct ok; cbn [negb] in Heq; [|now injection Heq as <- <-].
  match type of Heq with
  | (?x ≫= _) = _ => destruct x as [hw|]; [|discriminate]
  end.
  cbn [mbind option_bind] in Heq.
  destruct (_ <=? _); injection Heq as <- <-.
  - now apply Hproc.
  - split; [reflexivity|]. now repeat split.
Qed.

Lemma put_proc_change (a : hfi1_affinity_node_list) (c : Z) :
  node_list (hfi1_put_proc_affinity nr_cpu_ids a c) = node_list a /\
  same_topology a (hfi1_put_proc_affinity nr_cpu_ids a c).
Proof.
  unfold hfi1_put_proc_affinity.
  destruct (c <? 0); [split; [reflexivity | apply same_topology_refl]|].
  destruct (_ && _); (split; [reflexivity|]); now repeat split.
Qed.

Lemma registry_op_change (a a' : hfi1_affinity_node_list) :
  registry_op nr_cpu_ids a a' -> list_change a a' /\ same_topology a a'.
Proof.
  intros Hop. destruct Hop as [t bus_node ok a dd r a' dd' H | ok a dd i r a' dd' H
    | a dd i a' dd' H | t a dd i new_cpu a' dd' H | t proc_mask ok a nd c a' H | a c].
  - eapply attach_change; eassumption.
  - apply get_irq_change in H. tauto.
  - apply put_irq_change in H. tauto.
  - apply update_change in H. tauto.
  - apply get_proc_change in H as [Hl Ht]. split; [now apply change_none | assumption].
  - destruct (put_proc_change a c) as [Hl Ht]. split; [now apply change_none | assumption].
Qed.

(** What stays of an entry while the registry is in use. *)
Lemma list_change_entry (a a' : hfi1_affinity_node_list) (j : nat) (e : hfi1_affinity_node) :
  list_change a a' ->
  node_list a !! j = Some e ->
  exists e',
    node_list a' !! j = Some e' /\ node e' = node e /\
    general_intr_mask e' = general_intr_mask e /\
    mask (rcv_intr e') = mask (rcv_intr e).
Proof.
  intros [Hl | j0 e0 s p Hj0 Hmask Hl | e0 Hnone Hl] Hj; rewrite Hl.
  - now exists e.
  - destruct (Nat.eq_dec j0 j) as [->|Hne].
    + exists (put_pool e0 s p).
      rewrite list_lookup_insert_eq by (eapply lookup_lt_Some; eassumption).
      assert (e0 = e) as -> by congruence.
      split; [reflexivity|]. destruct s; cbn [put_pool node general_intr_mask rcv_intr];
        repeat split; auto.
    + exists e. now rewrite list_lookup_insert_ne by assumption.
  - exists e. rewrite lookup_app_l by (eapply lookup_lt_Some; eassumption). auto.
Qed.

Lemma list_change_nodup (a a' : hfi1_affinity_node_list) :
  list_change a a' ->
  NoDup (node <$> node_list a) -> NoDup (node <$> node_list a').
Proof.
  intros [Hl | j0 e0 s p Hj0 Hmask Hl | e0 Hnone Hl] Hnodup; rewrite Hl.
  - assumption.
  - rewrite list_fmap_insert.
    replace (node (put_pool e0 s p)) with (node e0) by now destruct s.
    rewrite list_insert_id; [assumption|]. now rewrite list_lookup_fmap, Hj0.
  - rewrite fmap_app. apply NoDup_app. split; [assumption|].
    split; [|apply NoDup_singleton].
    intros x Hx ->%list_elem_of_singleton.
    apply list_elem_of_fmap in Hx as (y & Hy & Hin).
    unfold node_affinity_lookup in Hnone. apply list_find_None in Hnone.
    rewrite Forall_forall in Hnone. now apply (Hnone y Hin).
Qed.

(** In a list without two entries for the same node the lookup finds
    every entry. *)
Lemma lookup_finds_entry (a : hfi1_affinity_node_list) (j : nat) (e : hfi1_affinity_node) :
  NoDup (node <$> node_list a) ->
  node_list a !! j = Some e ->
  node_affinity_lookup a (node e) = Some (j, e).
Proof.
  intros Hnodup Hj. unfold node_affinity_lookup. apply list_find_Some.
  split; [assumption|]. split; [reflexivity|].
  intros j' y Hj' Hlt Heq.
  assert (j' = j); [|lia].
  apply (NoDup_lookup (node <$> node_list a) j' j (node e) Hnodup).
  - now rewrite list_lookup_fmap, Hj', <- Heq.
  - now rewrite list_lookup_fmap, Hj.
Qed.

(** X5. Whatever operations run on the registry (attach, get and put of
    an interrupt vector, update of a moved SDMA vector, advice to a
    process and its release), with whatever arguments and results: they
    never change the topology that [node_affinity_init] recorded, the
    real CPU mask, the device counters, or the mask of the process pool;
    and an entry of the list stays at its place for its node, with the
    general CPU and the mask of the receive pool that the attach gave
    it. *)
Theorem operations_keep_entries (a a' : hfi1_affinity_node_list) :
  registry_ops nr_cpu_ids a a' ->
  same_topology a a' /\
  forall j e,
    node_list a !! j = Some e ->
    exists e',
      node_list a' !! j = Some e' /\ node e' = node e /\
      general_intr_mask e' = general_intr_mask e /\
      mask (rcv_intr e') = mask (rcv_intr e).
Proof.
  induction 1 as [a | a a1 a2 _ [IHt IHe] Hop].
  - split; [apply same_topology_refl|]. intros j e Hj. now exists e.
  - apply registry_op_change in Hop as [Hchange Htopo].
    split; [now apply (same_topology_trans a a1 a2)|].
    intros j e Hj. destruct (IHe j e Hj) as (e1 & Hj1 & Hn1 & Hg1 & Hr1).
    destruct (list_change_entry a1 a2 j e1 Hchange Hj1) as (e2 & Hj2 & Hn2 & Hg2 & Hr2).
    exists e2. repeat split; congruence.
Qed.

(** X6. The list never holds two entries for the same node: if it holds
    none to begin with (as after [node_affinity_init], when it is empty)
    it holds none after any operations, and [node_affinity_lookup] then
    finds every entry of the list, at its place, by the node of the
    entry. *)
Theorem operations_keep_nodes_unique (a a' : hfi1_affinity_node_list) :
  NoDup (node <$> node_list a) ->
  registry_ops nr_cpu_ids a a' ->
  NoDup (node <$> node_list a') /\
  forall j e,
    node_list a' !! j = Some e -> node_affinity_lookup a' (node e) = Some (j, e).
Proof.
  intros Hnodup Hops.
  assert (Hnodup' : NoDup (node <$> node_list a')).
  { induction Hops as [a | a a1 a2 _ IH Hop]; [assumption|].
    apply registry_op_change in Hop as [Hchange _].
    apply (list_change_nodup a1 a2 Hchange). now apply IH. }
  split; [assumption|]. intros j e. now apply lookup_finds_entry.
Qed.

End Operations.

(** The registry from [node_affinity_init] to the get of the first SDMA
    vector of the attached device. *)
Lemma ops_attached_registry : registry_ops 8 two_node_registry attached_registry.
Proof.
  eapply ops_then; [apply ops_none|].
  eapply op_attach with (t := two_node_topology) (bus_node := 0) (ok := true)
                        (dd := two_engine_device).
  reflexivity.
Defined.

Lemma ops_armed_registry : registry_ops 8 two_node_registry armed_registry.
Proof.
  eapply ops_then; [exact ops_attached_registry|].
  eapply op_get_irq with (ok := true) (dd := attached_device) (i := 0%nat) (r := 0).
  reflexivity.
Defined.

Lemma operations_keep_entries_witness :
  registry_ops 8 attached_registry armed_registry /\
  same_topology attached_registry armed_registry /\
  forall j e,
    node_list attached_registry !! j = Some e ->
    exists e',
      node_list armed_registry !! j = Some e' /\ node e' = node e /\
      general_intr_mask e' = general_intr_mask e /\
      mask (rcv_intr e') = mask (rcv_intr e).
Proof.
  assert (Hops : registry_ops 8 attached_registry armed_registry).
  { eapply ops_then; [apply ops_none|].
    eapply op_get_irq with (ok := true) (dd := attached_device) (i := 0%nat) (r := 0).
    reflexivity. }
  split; [exact Hops|]. exact (operations_keep_entries 8 attached_registry armed_registry Hops).
Defined.

Lemma operations_keep_nodes_unique_witness :
  NoDup (node <$> node_list two_node_registry) /\
  registry_ops 8 two_node_registry armed_registry /\
  NoDup (node <$> node_list armed_registry) /\
  forall j e,
    node_list armed_registry !! j = Some e ->
    node_affinity_lookup armed_registry (node e) = Some (j, e).
Proof.
  assert (Hnodup : NoDup (node <$> node_list two_node_registry)) by apply NoDup_nil_2.
  split; [exact Hnodup|]. split; [exact ops_armed_registry|].
  exact (operations_keep_nodes_unique 8 two_node_registry armed_registry Hnodup
           ops_armed_registry).
Defined.

(** ** The CPU of an interrupt vector *)

Section Vectors.

Variable nr_cpu_ids : Z.
Hypothesis nr_cpu_ids_nonneg : 0 <= nr_cpu_ids.

Lemma lookup_with_msix (dd : hfi1_devdata) (i : nat) (m m' : hfi1_msix_entry) :
  msix_entries dd !! i = Some m ->
  msix_entries (with_msix dd i m') !! i = Some m'.
Proof.
  intros Hm. cbn [msix_entries with_msix].
  apply list_lookup_insert_eq. eapply lookup_lt_Some; eassumption.
Qed.


(** The get and the put of a vector that is bound to the general CPU. *)
Lemma general_irq_shape (a : hfi1_affinity_node_list) (dd : hfi1_devdata)
    (i : nat) (m : hfi1_msix_entry) :
  msix_entries dd !! i = Some m ->
  msix_type m = IRQ_GENERAL \/
  (msix_type m = IRQ_RCVCTXT /\ arg m = arg_rcd HFI1_CTRL_CTXT) ->
  (forall j e,
     node_affinity_lookup a (dd_node dd) = Some (j, e) ->
     get_irq_affinity nr_cpu_ids true a dd i
     = Some (0, a,
             with_msix dd i
               {| msix_type := msix_type m; arg := arg m;
                  msix_mask := cpumask_of_list [cpumask_first nr_cpu_ids (general_intr_mask e)];
                  affinity_hint := true; notify_set := notify_set m |})) /\
  hfi1_put_irq_affinity nr_cpu_ids a dd i
  = Some (a,
          with_msix dd i
            {| msix_type := msix_type m; arg := arg m; msix_mask := cpumask_none;
               affinity_hint := false; notify_set := notify_set m |}).
Proof.
  intros Hm Hkind. unfold get_irq_affinity, hfi1_put_irq_affinity. rewrite Hm.
  cbn [mbind option_bind negb]. split.
  - intros j e ->. destruct Hkind as [Hty | [Hty Harg]]; rewrite Hty.
    + destruct (arg m); reflexivity.
    + rewrite Harg. reflexivity.
  - destruct Hkind as [Hty | [Hty Harg]]; rewrite Hty.
    + destruct (arg m); reflexivity.
    + rewrite Harg. reflexivity.
Qed.

(** X8. The general interrupt and the interrupt of the control context
    are not accounted for: on a node that has an entry the get returns 0,
    binds the vector to the first CPU of the general mask of the node and
    leaves every pool of the registry as it was; the put (which does not
    look at the entry) clears the mask and the hint of the vector and
    leaves the registry as it was. *)
Theorem general_irq_not_accounted (a : hfi1_affinity_node_list) (dd : hfi1_devdata)
    (i : nat) (m : hfi1_msix_entry) :
  msix_entries dd !! i = Some m ->
  msix_type m = IRQ_GENERAL \/
  (msix_type m = IRQ_RCVCTXT /\ arg m = arg_rcd HFI1_CTRL_CTXT) ->
  (forall j e,
     node_affinity_lookup a (dd_node dd) = Some (j, e) ->
     get_irq_affinity nr_cpu_ids true a dd i
     = Some (0, a,
             with_msix dd i
               {| msix_type := msix_type m; arg := arg m;
                  msix_mask := cpumask_of_list [cpumask_first nr_cpu_ids (general_intr_mask e)];
                  affinity_hint := true; notify_set := notify_set m |})) /\
  hfi1_put_irq_affinity nr_cpu_ids a dd i
  = Some (a,
          with_msix dd i
            {| msix_type := msix_type m; arg := arg m; msix_mask := cpumask_none;
               affinity_hint := false; notify_set := notify_set m |}).
Proof. apply general_irq_shape. Qed.

(** X9. [get_irq_affinity] and [hfi1_put_irq_affinity] use the entry of
    the node of the device without testing whether the lookup found one.
    For a vector as the driver sets it up: the get dereferences the
    missing entry exactly when the scratch mask could be allocated, the
    vector is of a known type, and the node has no entry; the put does
    exactly when the vector draws its CPU from a pool (an SDMA vector, or
    a receive vector other than that of the control context) and the
    node has no entry. *)
Theorem irq_affinity_needs_entry (ok : bool) (a : hfi1_affinity_node_list)
    (dd : hfi1_devdata) (i : nat) (m : hfi1_msix_entry) :
  msix_entries dd !! i = Some m ->
  msix_ok dd m ->
  (get_irq_affinity nr_cpu_ids ok a dd i = None <->
   ok = true /\ msix_type m <> IRQ_OTHER /\ node_affinity_lookup a (dd_node dd) = None) /\
  (hfi1_put_irq_affinity nr_cpu_ids a dd i = None <->
   irq_pool m <> None /\ node_affinity_lookup a (dd_node dd) = None).
Proof.
  intros Hm Hok. unfold get_irq_affinity, hfi1_put_irq_affinity, msix_ok, irq_pool in *.
  rewrite Hm. cbn [mbind option_bind].
  assert (Hcases : forall (P Q : Prop), (Q -> P) -> (P -> Q) -> P <-> Q) by tauto.
  destruct (msix_type m) eqn:Hty, (arg m) as [k|ctxt|] eqn:Harg; try contradiction;
    cbv beta iota in Hok;
    try lazymatch type of Hok with
        | is_Some _ => destruct Hok as [sde Hk]; rewrite Hk
        end;
    try (destruct (ctxt =? HFI1_CTRL_CTXT));
    destruct ok; cbn [negb];
    destruct (node_affinity_lookup a (dd_node dd)) as [[j e]|];
    cbn [mbind option_bind get_pool];
    try (destruct (cpu_mask_set_get_first nr_cpu_ids (def_intr e)));
    try (destruct (cpu_mask_set_get_first nr_cpu_ids (rcv_intr e)));
    cbn [mbind option_bind]; (split; apply Hcases);
    solve [discriminate | intros (? & ? & ?); congruence | intros (? & ?); congruence
          | intros _; repeat split; congruence].
Qed.

Lemma put_empty_mask (p : cpu_mask_set) :
  pool_idle_inv nr_cpu_ids p -> cpu_mask_set_put nr_cpu_ids p cpumask_none = p.
Proof.
  unfold pool_idle_inv, cpu_mask_set_put, cpumask_andnot, cpumask_none. intros Hidle.
  rewrite Z.ldiff_0_r.
  destruct (cpumask_empty nr_cpu_ids (used p)) eqn:He; cbn [andb].
  - rewrite Hidle by reflexivity. cbn. now destruct p.
  - now destruct p.
Qed.

Lemma pool_in_order_idle (p : cpu_mask_set) :
  pool_in_order nr_cpu_ids p -> pool_idle_inv nr_cpu_ids p.
Proof.
  intros (_ & Hused & _ & _ & _ & Hidle & _) He.
  rewrite cpumask_empty_valid in He by assumption.
  apply Hidle. now apply Z.eqb_eq.
Qed.

Lemma with_msix_twice (dd : hfi1_devdata) (i : nat) (m1 m2 : hfi1_msix_entry) :
  with_msix (with_msix dd i m1) i m2 = with_msix dd i m2.
Proof. unfold with_msix. cbn. now rewrite list_insert_insert_eq. Qed.

Lemma with_entry_twice (a : hfi1_affinity_node_list) (j : nat) (e1 e2 : hfi1_affinity_node) :
  with_entry (with_entry a j e1) j e2 = with_entry a j e2.
Proof. unfold with_entry, with_node_list. cbn. now rewrite list_insert_insert_eq. Qed.

Lemma with_entry_same (a : hfi1_affinity_node_list) (j : nat) (e : hfi1_affinity_node) :
  node_list a !! j = Some e -> with_entry a j e = a.
Proof.
  intros Hj. unfold with_entry, with_node_list. rewrite list_insert_id by assumption.
  now destruct a.
Qed.

Lemma put_pool_same (e : hfi1_affinity_node) (s : pool_sel) :
  put_pool e s (get_pool e s) = e.
Proof. now destruct e, s. Qed.

Lemma put_pool_twice (e : hfi1_affinity_node) (s : pool_sel) (p1 p2 : cpu_mask_set) :
  put_pool (put_pool e s p1) s p2 = put_pool e s p2.
Proof. now destruct s. Qed.

Lemma get_pool_put_pool (e : hfi1_affinity_node) (s : pool_sel) (p : cpu_mask_set) :
  get_pool (put_pool e s p) s = p.
Proof. now destruct s. Qed.

Lemma released_vector_twice (m : hfi1_msix_entry) :
  released_vector (released_vector m) = released_vector m.
Proof. unfold released_vector. cbn. now destruct (msix_type m). Qed.

(** What [hfi1_put_irq_affinity] returns for a vector as the driver sets
    it up. *)
Lemma put_irq_shape (a : hfi1_affinity_node_list) (dd : hfi1_devdata) (i : nat)
    (m : hfi1_msix_entry) :
  msix_entries dd !! i = Some m ->
  msix_ok dd m ->
  (msix_type m = IRQ_OTHER -> hfi1_put_irq_affinity nr_cpu_ids a dd i = Some (a, dd)) /\
  (msix_type m <> IRQ_OTHER -> irq_pool m = None ->
   hfi1_put_irq_affinity nr_cpu_ids a dd i
   = Some (a, with_msix dd i (released_vector m))) /\
  (forall s j e,
     irq_pool m = Some s ->
     node_affinity_lookup a (dd_node dd) = Some (j, e) ->
     hfi1_put_irq_affinity nr_cpu_ids a dd i
     = Some (with_entry a j
               (put_pool e s (cpu_mask_set_put nr_cpu_ids (get_pool e s) (msix_mask m))),
             with_msix dd i (released_vector m))).
Proof.
  intros Hm Hok. unfold hfi1_put_irq_affinity, msix_ok, irq_pool, released_vector in *.
  rewrite Hm. cbn [mbind option_bind].
  destruct (msix_type m) eqn:Hty, (arg m) as [k|ctxt|] eqn:Harg; try contradiction;
    try (destruct (ctxt =? HFI1_CTRL_CTXT));
    (split; [try discriminate; reflexivity|]);
    (split; [try discriminate; try reflexivity; try (now intros [])|]);
    try (intros s j e [= <-] ->; reflexivity); try discriminate.
Qed.

Lemma irq_pool_unaccounted (dd : hfi1_devdata) (m : hfi1_msix_entry) :
  msix_ok dd m -> irq_pool m = None ->
  msix_type m = IRQ_OTHER \/ msix_type m = IRQ_GENERAL \/
  (msix_type m = IRQ_RCVCTXT /\ arg m = arg_rcd HFI1_CTRL_CTXT).
Proof.
  unfold msix_ok, irq_pool.
  destruct (msix_type m), (arg m) as [k|ctxt|]; try contradiction; try discriminate;
    try (intros; now left); try (intros; right; now left).
  destruct (Z.eqb_spec ctxt HFI1_CTRL_CTXT) as [->|]; [|discriminate].
  intros _ _. right. right. now split.
Qed.

(** A get that fails leaves the registry alone and clears the mask of
    the vector. *)
Lemma get_irq_no_memory (a : hfi1_affinity_node_list) (dd : hfi1_devdata) (i : nat)
    (m : hfi1_msix_entry) :
  msix_entries dd !! i = Some m ->
  get_irq_affinity nr_cpu_ids false a dd i
  = Some (- ENOMEM, a,
          with_msix dd i
            {| msix_type := msix_type m; arg := arg m; msix_mask := cpumask_none;
               affinity_hint := affinity_hint m; notify_set := notify_set m |}).
Proof. intros Hm. unfold get_irq_affinity. now rewrite Hm. Qed.

Lemma get_irq_invalid (a : hfi1_affinity_node_list) (dd : hfi1_devdata) (i : nat)
    (m : hfi1_msix_entry) :
  msix_entries dd !! i = Some m ->
  msix_type m = IRQ_OTHER ->
  get_irq_affinity nr_cpu_ids true a dd i
  = Some (- EINVAL, a,
          with_msix dd i
            {| msix_type := msix_type m; arg := arg m; msix_mask := cpumask_none;
               affinity_hint := affinity_hint m; notify_set := notify_set m |}).
Proof.
  intros Hm Hty. unfold get_irq_affinity. rewrite Hm. cbn [mbind option_bind negb].
  rewrite Hty. now destruct (arg m).
Qed.

(** The put of a vector with the type and the argument of [m], at the
    place [i] of a device with the node of [dd], when [m] draws from no
    pool. *)
Lemma put_irq_unaccounted (a : hfi1_affinity_node_list) (dd dd1 : hfi1_devdata) (i : nat)
    (m m1 : hfi1_msix_entry) :
  msix_ok dd m -> irq_pool m = None ->
  msix_entries dd1 !! i = Some m1 ->
  msix_type m1 = msix_type m -> arg m1 = arg m ->
  exists dd2, hfi1_put_irq_affinity nr_cpu_ids a dd1 i = Some (a, dd2).
Proof.
  intros Hok Hs Hm1 Hty Harg.
  unfold hfi1_put_irq_affinity. rewrite Hm1. cbn [mbind option_bind].
  rewrite Hty, Harg.
  destruct (irq_pool_unaccounted dd m Hok Hs) as [H | [H | [H1 H2]]].
  - rewrite H. destruct (arg m); now eexists.
  - rewrite H. destruct (arg m); now eexists.
  - rewrite H1, H2. now eexists.
Qed.

(** X10. Releasing a vector after it got its CPU restores the registry.
    For a vector as the driver sets it up, on a node that has an entry,
    when the pool that the vector draws from (if it draws from one) is
    in order: [get_irq_affinity] returns, whether or not the scratch
    mask can be allocated, and the [hfi1_put_irq_affinity] that follows
    returns the registry to what it was before the get, with every pool
    of every node. *)
Theorem get_put_irq_restores_registry (ok : bool) (a : hfi1_affinity_node_list)
    (dd : hfi1_devdata) (i : nat) (m : hfi1_msix_entry) (j : nat)
    (e : hfi1_affinity_node) :
  msix_entries dd !! i = Some m ->
  msix_ok dd m ->
  node_affinity_lookup a (dd_node dd) = Some (j, e) ->
  (forall s, irq_pool m = Some s -> pool_in_order nr_cpu_ids (get_pool e s)) ->
  exists r a1 dd1 dd2,
    get_irq_affinity nr_cpu_ids ok a dd i = Some (r, a1, dd1) /\
    hfi1_put_irq_affinity nr_cpu_ids a1 dd1 i = Some (a, dd2).
Proof.
  intros Hm Hok Hlook Hpool.
  assert (Hcleared : forall m0,
    msix_type m0 = msix_type m -> arg m0 = arg m -> msix_mask m0 = cpumask_none ->
    exists dd2, hfi1_put_irq_affinity nr_cpu_ids a (with_msix dd i m0) i = Some (a, dd2)).
  { intros m0 Hty0 Harg0 Hmask0.
    pose proof (lookup_with_msix dd i m m0 Hm) as Hm0.
    destruct (irq_pool m) as [s|] eqn:Hs.
    - assert (Hs0 : irq_pool m0 = Some s) by (unfold irq_pool in *; now rewrite Hty0, Harg0).
      destruct (put_irq_to_pool nr_cpu_ids a (with_msix dd i m0) i m0 s j e Hm0 Hs0 Hlook)
        as (dd2 & Hput).
      exists dd2. rewrite Hput, Hmask0, put_empty_mask, put_pool_same, with_entry_same;
        [reflexivity | now apply (lookup_node a (dd_node dd)) |].
      apply pool_in_order_idle. now apply Hpool.
    - now apply (put_irq_unaccounted a dd (with_msix dd i m0) i m m0). }
  destruct ok.
  2:{ destruct (Hcleared
        {| msix_type := msix_type m; arg := arg m; msix_mask := cpumask_none;
           affinity_hint := affinity_hint m; notify_set := notify_set m |})
        as (dd2 & Hput); try reflexivity.
      eexists _, _, _, dd2. split; [exact (get_irq_no_memory a dd i m Hm) | exact Hput]. }
  destruct (irq_pool m) as [s|] eqn:Hs.
  - destruct (Hpool s eq_refl) as (H1 & H2 & H3 & H4 & H5 & H6 & H7).
    destruct (get_put_irq_restores nr_cpu_ids nr_cpu_ids_nonneg a dd i m s j e Hm Hs)
      as (a1 & dd1 & dd2 & Hget & Hput); try assumption.
    { intros k Hk. unfold msix_ok, irq_pool in *. rewrite Hk in *.
      destruct (msix_type m); try discriminate. exact Hok. }
    now exists 0, a1, dd1, dd2.
  - destruct (irq_pool_unaccounted dd m Hok Hs) as [Hty | Hkind].
    + destruct (Hcleared
        {| msix_type := msix_type m; arg := arg m; msix_mask := cpumask_none;
           affinity_hint := affinity_hint m; notify_set := notify_set m |})
        as (dd2 & Hput); try reflexivity.
      eexists _, _, _, dd2. split; [exact (get_irq_invalid a dd i m Hm Hty) | exact Hput].
    + destruct (general_irq_shape a dd i m Hm Hkind) as [Hget _].
      specialize (Hget j e Hlook).
      destruct (put_irq_unaccounted a dd
                  (with_msix dd i
                     {| msix_type := msix_type m; arg := arg m;
                        msix_mask :=
                          cpumask_of_list [cpumask_first nr_cpu_ids (general_intr_mask e)];
                        affinity_hint := true; notify_set := notify_set m |}) i m
                  {| msix_type := msix_type m; arg := arg m;
                     msix_mask :=
                       cpumask_of_list [cpumask_first nr_cpu_ids (general_intr_mask e)];
                     affinity_hint := true; notify_set := notify_set m |} Hok Hs)
        as (dd2 & Hput); try reflexivity.
      { eapply lookup_with_msix; eassumption. }
      eexists _, _, _, dd2. split; [exact Hget | exact Hput].
Qed.

(** X11. Releasing a vector twice releases nothing twice.  For a vector
    as the driver sets it up, when the pool it draws from (if it draws
    from one) has its used CPUs in its mask and is at generation 0
    whenever no CPU is used: a second [hfi1_put_irq_affinity] right
    after the first one changes neither the registry nor the device. *)
Theorem put_irq_twice (a a1 : hfi1_affinity_node_list) (dd dd1 : hfi1_devdata) (i : nat)
    (m : hfi1_msix_entry) :
  msix_entries dd !! i = Some m ->
  msix_ok dd m ->
  (forall s j e,
     irq_pool m = Some s -> node_affinity_lookup a (dd_node dd) = Some (j, e) ->
     cpumask_subset (used (get_pool e s)) (mask (get_pool e s)) /\
     pool_idle_inv nr_cpu_ids (get_pool e s)) ->
  hfi1_put_irq_affinity nr_cpu_ids a dd i = Some (a1, dd1) ->
  hfi1_put_irq_affinity nr_cpu_ids a1 dd1 i = Some (a1, dd1).
Proof.
  intros Hm Hok Hpool Hput.
  destruct (put_irq_shape a dd i m Hm Hok) as (Hother & Hnone & Hsome).
  assert (Hdec : msix_type m = IRQ_OTHER \/ msix_type m <> IRQ_OTHER)
    by (destruct (msix_type m); (now left) || (right; discriminate)).
  destruct Hdec as [Hty|Hty].
  { rewrite (Hother Hty) in Hput. injection Hput as <- <-. now apply Hother. }
  pose proof (lookup_with_msix dd i m (released_vector m) Hm) as Hm1.
  assert (Hok1 : msix_ok (with_msix dd i (released_vector m)) (released_vector m)) by exact Hok.
  destruct (put_irq_shape a1 (with_msix dd i (released_vector m)) i (released_vector m)
              Hm1 Hok1) as (_ & Hnone1 & Hsome1).
  rewrite with_msix_twice, released_vector_twice in Hnone1, Hsome1.
  destruct (irq_pool m) as [s|] eqn:Hs.
  - destruct (node_affinity_lookup a (dd_node dd)) as [[j e]|] eqn:Hlook.
    + destruct (Hpool s j e eq_refl eq_refl) as [Hsub Hidle].
      rewrite (Hsome s j e eq_refl eq_refl) in Hput. injection Hput as <- <-.
      set (p1 := cpu_mask_set_put nr_cpu_ids (get_pool e s) (msix_mask m)) in *.
      assert (Hlook1 : node_affinity_lookup (with_entry a j (put_pool e s p1)) (dd_node dd)
                       = Some (j, put_pool e s p1)).
      { apply (lookup_with_entry a (dd_node dd) j e); [assumption|].
        apply lookup_node in Hlook as [Hnode _]. now destruct s. }
      rewrite (Hsome1 s j (put_pool e s p1)); [|exact Hs|exact Hlook1].
      cbn [msix_mask released_vector].
      rewrite get_pool_put_pool, put_empty_mask by now apply put_idle_inv.
      now rewrite put_pool_twice, with_entry_twice.
    + exfalso. revert Hput. unfold hfi1_put_irq_affinity. rewrite Hm, Hlook.
      unfold irq_pool in Hs. cbn [mbind option_bind].
      destruct (msix_type m), (arg m) as [k|ctxt|]; try discriminate.
      destruct (ctxt =? HFI1_CTRL_CTXT); discriminate.
  - rewrite (Hnone Hty eq_refl) in Hput. injection Hput as <- <-.
    now apply Hnone1.
Qed.

End Vectors.

(** ** The masks of the hardware threads *)

Section HwThreadMasks.

Variable nr_cpu_ids : Z.
Hypothesis nr_cpu_ids_nonneg : 0 <= nr_cpu_ids.

(** The first [n] CPUs of a mask that holds the CPUs 0 to [k - 1]. *)
Lemma keep_first_cpus_ones (n : nat) (k x : Z) :
  0 <= k <= nr_cpu_ids ->
  Z.of_nat n <= k ->
  Z.testbit
    (clear_cpus nr_cpu_ids
       (Z.to_nat (cpumask_weight nr_cpu_ids (Z.ones k) - Z.of_nat n))
       (skip_cpus nr_cpu_ids n (cpumask_first nr_cpu_ids (Z.ones k)) (Z.ones k))
       (Z.ones k)) x
  = (0 <=? x) && (x <? Z.of_nat n).
Proof.
  intros Hk Hn.
  destruct (keep_first_cpus nr_cpu_ids nr_cpu_ids_nonneg n (Z.ones k)) as (Hc & Hbits & Hw).
  set (c := skip_cpus nr_cpu_ids n (cpumask_first nr_cpu_ids (Z.ones k)) (Z.ones k)) in *.
  set (m' := clear_cpus nr_cpu_ids _ c (Z.ones k)) in *.
  assert (Hwk : cpumask_weight nr_cpu_ids (Z.ones k) = k).
  { unfold cpumask_weight. rewrite bitmap_weight_ones by lia. lia. }
  assert (Hm' : cpumask_weight nr_cpu_ids m' = Z.min c k).
  { rewrite <- (Z.min_l (Z.min c k) (Z.of_nat (Z.to_nat nr_cpu_ids))) by lia.
    rewrite <- bitmap_weight_ones by lia.
    apply cpumask_weight_ext. intros i Hi. rewrite Hbits, !testbit_ones by lia. lia. }
  rewrite Hbits, testbit_ones by lia. lia.
Qed.

(** The run of CPUs that [find_hw_thread_mask] keeps and shifts, when
    the process pool holds the CPUs 0 to [n - 1]. *)
Lemma hw_thread_mask_run (a : hfi1_affinity_node_list) (k : Z) :
  let n := num_online_cpus a in
  let s := num_core_siblings a in
  let d := num_online_nodes a in
  let per_thread := n / s / d * d in
  mask (proc a) = Z.ones n ->
  0 <= n <= nr_cpu_ids ->
  n < 2 ^ 32 ->
  1 <= s ->
  1 <= d ->
  0 <= k < s ->
  s * per_thread <= n /\
  (n mod (s * d) = 0 -> s * per_thread = n) /\
  exists hw,
    find_hw_thread_mask nr_cpu_ids k a = Some hw /\
    forall x, cpu_in x hw <-> k * per_thread <= x < (k + 1) * per_thread.
Proof.
  intros n s d per_thread Hmask Hn H32 Hs Hd Hk.
  assert (Hns : 0 <= n / s) by (apply Z.div_pos; lia).
  set (q := n / s / d) in *.
  assert (Hq : 0 <= q) by (apply Z.div_pos; lia).
  assert (Hqd : q * d <= n / s) by (unfold q; rewrite Z.mul_comm; apply Z.mul_div_le; lia).
  assert (Hss : n / s * s <= n) by (rewrite Z.mul_comm; apply Z.mul_div_le; lia).
  assert (Hper : 0 <= per_thread /\ s * per_thread <= n) by (unfold per_thread; nia).
  split; [lia|]. split.
  { intros Hdiv. unfold per_thread, q. rewrite Z.div_div by lia.
    apply Z.div_exact in Hdiv; nia. }
  unfold find_hw_thread_mask. fold n. fold s. fold d.
  replace (s =? 0) with false by (symmetry; apply Z.eqb_neq; lia).
  replace (d =? 0) with false by (symmetry; apply Z.eqb_neq; lia).
  replace (0 <? s) with true by (symmetry; apply Z.ltb_lt; lia).
  cbn [orb]. cbv zeta. rewrite Hmask.
  rewrite (Z.quot_div_nonneg n s) by lia.
  rewrite (Z.quot_div_nonneg (n / s) d) by lia. fold q.
  assert (Hu1 : uint q = q) by (apply Z.mod_small; nia).
  assert (Hu2 : uint (q * d) = q * d) by (apply Z.mod_small; nia).
  assert (Hu3 : uint (q * d * k) = q * d * k) by (apply Z.mod_small; nia).
  rewrite Hu1, Hu2, Hu3. fold per_thread.
  eexists. split; [reflexivity|]. intros x. unfold cpu_in, cpumask_shift_left.
  rewrite testbit_low_bits by assumption.
  destruct (Z.lt_ge_cases x 0) as [Hneg|Hpos].
  { rewrite Z.testbit_neg_r by assumption. cbn [andb]. split; [discriminate | nia]. }
  rewrite Z.shiftl_spec by assumption.
  assert (Hpn : per_thread <= n) by nia.
  assert (Hpk : 0 <= per_thread * k /\ (k + 1) * per_thread <= n) by nia.
  rewrite keep_first_cpus_ones by (rewrite ?Z2Nat.id; lia).
  rewrite Z2Nat.id by lia.
  split.
  - intros H. nia.
  - intros H. assert (x < nr_cpu_ids) by nia. nia.
Qed.

(** X12. The masks of the hardware threads when the online CPUs are
    numbered 0 to [n - 1], with [s] hardware threads per core and [d]
    online nodes: with [q] the cores per socket ([n / s / d], rounded
    down), the mask of the hardware threads number [k] holds the CPUs
    [k * q * d] to [(k + 1) * q * d - 1].  The masks of different thread
    numbers are disjoint runs of online CPUs; the CPUs from [s * q * d]
    on, which exist when [s * d] does not divide [n], are in none of
    them. *)
Theorem hw_thread_mask_contiguous (a : hfi1_affinity_node_list) (k : Z) :
  let n := num_online_cpus a in
  let s := num_core_siblings a in
  let d := num_online_nodes a in
  let per_thread := n / s / d * d in
  mask (proc a) = Z.ones n ->
  0 <= n <= nr_cpu_ids ->
  n < 2 ^ 32 ->
  1 <= s ->
  1 <= d ->
  0 <= k < s ->
  s * per_thread <= n /\
  (n mod (s * d) = 0 -> s * per_thread = n) /\
  exists hw,
    find_hw_thread_mask nr_cpu_ids k a = Some hw /\
    forall x, cpu_in x hw <-> k * per_thread <= x < (k + 1) * per_thread.
Proof. exact (hw_thread_mask_run a k). Qed.

End HwThreadMasks.

(** ** The CPU advised to a process *)

Section Advice.

Variable nr_cpu_ids : Z.
Hypothesis nr_cpu_ids_nonneg : 0 <= nr_cpu_ids.

Local Abbreviation weight := (cpumask_weight nr_cpu_ids).
Local Abbreviation first_cpu := (cpumask_first nr_cpu_ids).

(** The advice to a process without preset affinity, in terms of the
    hardware thread mask and of the CPUs to choose from. *)
Lemma get_proc_advice (t : topology) (proc_mask : cpumask)
    (a : hfi1_affinity_node_list) (nd : Z) :
  weight proc_mask <> 1 ->
  weight (mask (proc a)) <= weight proc_mask ->
  let set1 := cpu_mask_set_gen_inc nr_cpu_ids (proc a) in
  hfi1_get_proc_affinity nr_cpu_ids t proc_mask true a nd
  = hw ← proc_hw_thread_mask nr_cpu_ids a;
    let avail := proc_available nr_cpu_ids hw (used set1) (cpumask_of_node t nd)
                   (intrs_mask_of (node_affinity_lookup a nd)) in
    if nr_cpu_ids <=? first_cpu avail then Some (-1, with_proc a set1)
    else Some (first_cpu avail,
               with_proc a (set_used set1 (cpumask_set_cpu (first_cpu avail) (used set1)))).
Proof.
  intros Hone Hall set1. unfold hfi1_get_proc_affinity.
  destruct (Z.eqb_spec (weight proc_mask) 1) as [|_]; [contradiction|].
  destruct (Z.ltb_spec (weight proc_mask) (weight (mask (proc a)))) as [|_]; [lia|].
  reflexivity.
Qed.

Lemma first_lowest (m : cpumask) (P : Z -> Prop) :
  (forall x, P x <-> 0 <= x < nr_cpu_ids /\ Z.testbit m x = true) ->
  (cpumask_empty nr_cpu_ids m = false ->
   first_cpu m < nr_cpu_ids /\ lowest_cpu (first_cpu m) P) /\
  (cpumask_empty nr_cpu_ids m = true ->
   first_cpu m = nr_cpu_ids /\ ~ exists x, P x).
Proof.
  intros HP. split.
  - intros Hne.
    pose proof (cpumask_first_lt nr_cpu_ids nr_cpu_ids_nonneg m Hne) as Hlt.
    pose proof (cpumask_first_range nr_cpu_ids nr_cpu_ids_nonneg m) as Hrange.
    split; [assumption|]. split.
    + apply HP. split; [lia|]. now apply cpumask_first_in.
    + intros c' [Hc' Hbit']%HP.
      destruct (Z.le_gt_cases (first_cpu m) c') as [|Hgt]; [assumption|].
      rewrite (cpumask_first_least nr_cpu_ids m c') in Hbit' by lia. discriminate.
  - intros He. split; [now apply cpumask_first_empty|].
    intros [x [Hx Hbit]%HP].
    rewrite (proj1 (cpumask_empty_true nr_cpu_ids nr_cpu_ids_nonneg m) He x Hx) in Hbit.
    discriminate.
Qed.

Lemma find_free_hw_thread_some (n : nat) (i : Z) (m0 : cpumask)
    (a : hfi1_affinity_node_list) (u : cpumask) :
  num_core_siblings a <> 0 -> num_online_nodes a <> 0 ->
  exists hw, find_free_hw_thread nr_cpu_ids n i m0 a u = Some hw.
Proof.
  intros Hs Hd. revert i m0. induction n as [|n IH]; intros i m0; cbn [find_free_hw_thread].
  - now exists m0.
  - destruct (find_hw_thread_mask_some nr_cpu_ids i a Hs Hd) as [hw ->].
    cbn [mbind option_bind]. destruct (negb _); [now exists hw | apply IH].
Qed.

(** The advisor settles on a hardware thread mask unless it divides by
    a number of online nodes that is zero. *)
Lemma proc_hw_thread_mask_some (a : hfi1_affinity_node_list) :
  (0 < num_core_siblings a -> num_online_nodes a <> 0) ->
  exists hw, proc_hw_thread_mask nr_cpu_ids a = Some hw.
Proof.
  intros Hd. unfold proc_hw_thread_mask. cbn [num_core_siblings with_proc].
  destruct (Z.ltb_spec 0 (num_core_siblings a)) as [Hs|_]; [|now eexists].
  apply find_free_hw_thread_some; cbn [num_core_siblings num_online_nodes with_proc];
    [lia | auto].
Qed.

(** X13. [hfi1_get_proc_affinity] returns (unless the registry records
    hyperthreading and no online node, when the cores per socket cannot
    be computed).  It never touches the entries of the nodes, the
    topology counts or the mask of the process pool.  Its result is -1
    or the number of a CPU below [nr_cpu_ids], and a CPU that it returns
    is marked used in the process pool when it returns.  When it returns
    -1 the process pool is as it was, or has just wrapped around. *)
Theorem proc_affinity_result (t : topology) (proc_mask : cpumask) (ok : bool)
    (a : hfi1_affinity_node_list) (nd : Z) :
  (0 < num_core_siblings a -> num_online_nodes a <> 0) ->
  exists c a',
    hfi1_get_proc_affinity nr_cpu_ids t proc_mask ok a nd = Some (c, a') /\
    node_list a' = node_list a /\
    same_topology a a' /\
    (c = -1 \/ (0 <= c < nr_cpu_ids /\ cpu_in c (used (proc a')))) /\
    (c = -1 ->
     proc a' = proc a \/ proc a' = cpu_mask_set_gen_inc nr_cpu_ids (proc a)).
Proof.
  intros Hd.
  assert (Hsome : exists c a',
            hfi1_get_proc_affinity nr_cpu_ids t proc_mask ok a nd = Some (c, a') /\
            (c = -1 \/ (0 <= c < nr_cpu_ids /\ cpu_in c (used (proc a')))) /\
            (c = -1 ->
             proc a' = proc a \/ proc a' = cpu_mask_set_gen_inc nr_cpu_ids (proc a))).
  { destruct (Z.eq_dec (weight proc_mask) 1) as [Hone|Hone].
    { unfold hfi1_get_proc_affinity. rewrite Hone. cbn [Z.eqb Pos.eqb].
      eexists _, _. split; [reflexivity|].
      assert (Hne : cpumask_empty nr_cpu_ids proc_mask = false).
      { destruct (cpumask_empty nr_cpu_ids proc_mask) eqn:He; [|reflexivity].
        apply cpumask_weight_zero in He; [lia | assumption]. }
      pose proof (cpumask_first_lt nr_cpu_ids nr_cpu_ids_nonneg proc_mask Hne).
      pose proof (cpumask_first_range nr_cpu_ids nr_cpu_ids_nonneg proc_mask).
      split; [|lia]. right. split; [lia|].
      cbn [proc with_proc used set_used]. unfold cpu_in. apply testbit_set_same. lia. }
    destruct (Z.lt_ge_cases (weight proc_mask) (weight (mask (proc a)))) as [Hfew|Hall].
    { unfold hfi1_get_proc_affinity.
      destruct (Z.eqb_spec (weight proc_mask) 1) as [|_]; [contradiction|].
      destruct (Z.ltb_spec (weight proc_mask) (weight (mask (proc a)))) as [_|]; [|lia].
      eexists _, _. split; [reflexivity|]. split; [now left | now left]. }
    destruct ok.
    2:{ unfold hfi1_get_proc_affinity.
        destruct (Z.eqb_spec (weight proc_mask) 1) as [|_]; [contradiction|].
        destruct (Z.ltb_spec (weight proc_mask) (weight (mask (proc a)))) as [|_]; [lia|].
        eexists _, _. split; [reflexivity|]. split; [now left | now left]. }
    rewrite get_proc_advice by (assumption || lia).
    destruct (proc_hw_thread_mask_some a Hd) as [hw ->]. cbn [mbind option_bind].
    cbv zeta.
    match goal with
    | |- context [nr_cpu_ids <=? first_cpu ?m] => set (avail := m)
    end.
    pose proof (cpumask_first_range nr_cpu_ids nr_cpu_ids_nonneg avail).
    destruct (Z.leb_spec nr_cpu_ids (first_cpu avail)) as [Hnone|Hlt].
    - eexists _, _. split; [reflexivity|]. split; [now left|]. intros _. now right.
    - eexists _, _. split; [reflexivity|]. split; [|lia]. right. split; [lia|].
      cbn [proc with_proc used set_used]. unfold cpu_in. apply testbit_set_same. lia. }
  destruct Hsome as (c & a' & Hget & Hc & Hminus).
  destruct (get_proc_change nr_cpu_ids t proc_mask ok a a' nd c Hget) as [Hlist Htopo].
  now exists c, a'.
Qed.

(** X14. The order in which the advisor fills the CPUs, for a process
    without preset affinity (its allowed CPUs are not a single one and
    not fewer than the CPUs of the process pool), once the scratch masks
    are allocated.  Among the CPUs of the hardware thread mask that are
    not used after the wrap-around of the pool, it gives the
    lowest-numbered CPU of the first of these sets that has one: the
    CPUs of the node of the device that no interrupt uses; the CPUs of
    that node; the CPUs of other nodes that no interrupt uses; the CPUs
    of other nodes.  The CPU is marked used and the generation is left
    as the wrap-around set it.  When no CPU of the hardware thread mask
    is free it returns -1 and marks nothing. *)
Theorem proc_affinity_tiers (t : topology) (proc_mask : cpumask)
    (a : hfi1_affinity_node_list) (nd : Z) (hw : cpumask) :
  let set1 := cpu_mask_set_gen_inc nr_cpu_ids (proc a) in
  let node_mask := cpumask_of_node t nd in
  let intrs := intrs_mask_of (node_affinity_lookup a nd) in
  let cand := proc_candidate nr_cpu_ids hw (used set1) in
  let tier1 x := cand x /\ cpu_in x node_mask /\ ~ cpu_in x intrs in
  let tier2 x := cand x /\ cpu_in x node_mask in
  let tier3 x := cand x /\ ~ cpu_in x node_mask /\ ~ cpu_in x intrs in
  weight proc_mask <> 1 ->
  weight (mask (proc a)) <= weight proc_mask ->
  proc_hw_thread_mask nr_cpu_ids a = Some hw ->
  exists c a',
    hfi1_get_proc_affinity nr_cpu_ids t proc_mask true a nd = Some (c, a') /\
    ((exists x, tier1 x) -> lowest_cpu c tier1) /\
    (~ (exists x, tier1 x) -> (exists x, tier2 x) -> lowest_cpu c tier2) /\
    (~ (exists x, tier2 x) -> (exists x, tier3 x) -> lowest_cpu c tier3) /\
    (~ (exists x, tier2 x) -> ~ (exists x, tier3 x) -> (exists x, cand x) ->
     lowest_cpu c cand) /\
    ((exists x, cand x) ->
     proc a' = {| mask := mask (proc a); used := cpumask_set_cpu c (used set1);
                  gen := gen set1 |}) /\
    (~ (exists x, cand x) -> c = -1 /\ proc a' = set1).
Proof.
  intros set1 node_mask intrs cand tier1 tier2 tier3 Hone Hall Hhw.
  rewrite get_proc_advice by assumption. rewrite Hhw. cbn [mbind option_bind]. cbv zeta.
  fold set1. fold node_mask. fold intrs.
  assert (Hmask1 : mask set1 = mask (proc a)) by apply gen_inc_mask.
  set (tier4 := fun x => cand x /\ ~ cpu_in x node_mask).
  set (available0 := cpumask_andnot (cpumask_and hw node_mask) (used set1)).
  set (diff0 := cpumask_andnot available0 intrs).
  set (other := cpumask_andnot (cpumask_andnot hw (used set1)) node_mask).
  set (diff1 := cpumask_andnot other intrs).
  assert (Hbits : forall x,
    (tier1 x <-> 0 <= x < nr_cpu_ids /\ Z.testbit diff0 x = true) /\
    (tier2 x <-> 0 <= x < nr_cpu_ids /\ Z.testbit available0 x = true) /\
    (tier3 x <-> 0 <= x < nr_cpu_ids /\ Z.testbit diff1 x = true) /\
    (tier4 x <-> 0 <= x < nr_cpu_ids /\ Z.testbit other x = true)).
  { intros x. unfold tier1, tier2, tier3, tier4, cand, proc_candidate, cpu_in,
      diff0, available0, diff1, other, cpumask_andnot, cpumask_and.
    rewrite !Z.ldiff_spec, !Z.land_spec.
    destruct (Z.testbit hw x), (Z.testbit (used set1) x), (Z.testbit node_mask x),
      (Z.testbit intrs x); cbn [andb negb]; intuition congruence. }
  destruct (first_lowest diff0 tier1 (fun x => proj1 (Hbits x))) as [Hsome1 Hnone1].
  destruct (first_lowest available0 tier2 (fun x => proj1 (proj2 (Hbits x))))
    as [Hsome2 Hnone2].
  destruct (first_lowest diff1 tier3 (fun x => proj1 (proj2 (proj2 (Hbits x)))))
    as [Hsome3 Hnone3].
  destruct (first_lowest other tier4 (fun x => proj2 (proj2 (proj2 (Hbits x)))))
    as [Hsome4 Hnone4].
  assert (H12 : (exists x, tier1 x) -> exists x, tier2 x).
  { intros [x Hx]. exists x. unfold tier1, tier2 in *. tauto. }
  assert (H34 : (exists x, tier3 x) -> exists x, tier4 x).
  { intros [x Hx]. exists x. unfold tier3, tier4 in *. tauto. }
  assert (Hcand : forall x, cand x -> tier2 x \/ tier4 x).
  { intros x Hx. unfold tier2, tier4, cpu_in.
    destruct (Z.testbit node_mask x); [left | right]; (split; [assumption|]);
      [reflexivity | discriminate]. }
  assert (Hgive : forall m P,
    first_cpu m < nr_cpu_ids -> lowest_cpu (first_cpu m) P ->
    (forall x, P x -> cand x) ->
    (exists x, P x) /\ (exists x, cand x) /\
    (if nr_cpu_ids <=? first_cpu m
     then Some (-1, with_proc a set1)
     else Some (first_cpu m,
                with_proc a (set_used set1 (cpumask_set_cpu (first_cpu m) (used set1)))))
    = Some (first_cpu m,
            with_proc a {| mask := mask (proc a);
                           used := cpumask_set_cpu (first_cpu m) (used set1);
                           gen := gen set1 |})).
  { intros m P Hlt [HP _] Hsub. split; [now exists (first_cpu m)|].
    split; [exists (first_cpu m); auto|].
    destruct (Z.leb_spec nr_cpu_ids (first_cpu m)); [lia|].
    unfold set_used. now rewrite Hmask1. }
  unfold proc_available. cbv zeta.
  fold available0. fold diff0. fold other. fold diff1.
  destruct (cpumask_empty nr_cpu_ids diff0) eqn:He1; cbn [negb].
  - destruct (Hnone1 eq_refl) as [_ Hno1].
    destruct (cpumask_empty nr_cpu_ids available0) eqn:He2.
    + destruct (Hnone2 eq_refl) as [_ Hno2].
      destruct (cpumask_empty nr_cpu_ids diff1) eqn:He3; cbn [negb].
      * destruct (Hnone3 eq_refl) as [_ Hno3].
        destruct (cpumask_empty nr_cpu_ids other) eqn:He4.
        -- destruct (Hnone4 eq_refl) as [Hfirst Hno4].
           assert (Hnoc : ~ exists x, cand x).
           { intros [x [Hx|Hx]%Hcand]; [apply Hno2 | apply Hno4]; now exists x. }
           rewrite Hfirst, Z.leb_refl. eexists _, _. split; [reflexivity|].
           split; [tauto|]. split; [tauto|]. split; [tauto|]. split; [tauto|].
           split; [tauto|]. intros _. now split.
        -- destruct (Hsome4 eq_refl) as [Hlt Hlow].
           destruct (Hgive other tier4 Hlt Hlow) as (Hex & Hexc & ->);
             [unfold tier4; tauto|].
           eexists _, _. split; [reflexivity|].
           split; [tauto|]. split; [tauto|]. split; [tauto|]. split.
           ++ intros _ _ _. destruct Hlow as [Hin Hleast]. split; [apply Hin|].
              intros c' Hc'. apply Hleast. destruct (Hcand c' Hc') as [H2|H4]; [|assumption].
              exfalso. apply Hno2. now exists c'.
           ++ split; [intros _; reflexivity | tauto].
      * destruct (Hsome3 eq_refl) as [Hlt Hlow].
        destruct (Hgive diff1 tier3 Hlt Hlow) as (Hex & Hexc & ->);
          [unfold tier3; tauto|].
        eexists _, _. split; [reflexivity|].
        split; [tauto|]. split; [tauto|]. split; [tauto|]. split; [tauto|].
        split; [intros _; reflexivity | tauto].
    + destruct (Hsome2 eq_refl) as [Hlt Hlow].
      destruct (Hgive available0 tier2 Hlt Hlow) as (Hex & Hexc & ->);
        [unfold tier2; tauto|].
      eexists _, _. split; [reflexivity|].
      split; [tauto|]. split; [tauto|]. split; [tauto|]. split; [tauto|].
        split; [intros _; reflexivity | tauto].
  - destruct (Hsome1 eq_refl) as [Hlt Hlow]. rewrite He1.
    destruct (Hgive diff0 tier1 Hlt Hlow) as (Hex & Hexc & ->);
      [unfold tier1; tauto|].
    eexists _, _. split; [reflexivity|].
    pose proof (H12 Hex) as Hex2.
    split; [tauto|]. split; [tauto|]. split; [tauto|]. split; [tauto|].
        split; [intros _; reflexivity | tauto].
Qed.

Lemma clear_set_same (c : Z) (u : cpumask) :
  Z.testbit u c = false -> cpumask_clear_cpu c (cpumask_set_cpu c u) = u.
Proof.
  intros Hc. apply Z.bits_inj'. intros n _.
  rewrite testbit_clear_cpu, testbit_set_cpu.
  destruct (Z.eqb_spec n c) as [->|_].
  - rewrite Hc. now destruct (0 <=? c).
  - now rewrite andb_false_r, orb_false_r, andb_true_r.
Qed.

Lemma proc_available_free (hw used_mask node_mask intrs_mask : cpumask) (x : Z) :
  Z.testbit (proc_available nr_cpu_ids hw used_mask node_mask intrs_mask) x = true ->
  Z.testbit hw x = true /\ Z.testbit used_mask x = false.
Proof.
  unfold proc_available, cpumask_andnot, cpumask_and. cbv zeta.
  repeat match goal with
         | |- context [if ?b then _ else _] => destruct b
         end;
    rewrite ?Z.ldiff_spec, ?Z.land_spec;
    destruct (Z.testbit hw x), (Z.testbit used_mask x), (Z.testbit node_mask x),
      (Z.testbit intrs_mask x); cbn [andb negb];
    try discriminate; auto.
Qed.

(** The process pool after a CPU that was not used is marked and
    released again. *)
Lemma put_proc_restores (a : hfi1_affinity_node_list) (set1 : cpu_mask_set) (c : Z) :
  pool_in_order nr_cpu_ids (proc a) ->
  set1 = cpu_mask_set_gen_inc nr_cpu_ids (proc a) \/ set1 = proc a ->
  0 <= c ->
  Z.testbit (used set1) c = false ->
  hfi1_put_proc_affinity nr_cpu_ids
    (with_proc a (set_used set1 (cpumask_set_cpu c (used set1)))) c
  = a.
Proof.
  intros (Hvm & Hvu & Hsub & Hne & Hgen & Hidle & Hlast) Hset Hc Hfree.
  unfold hfi1_put_proc_affinity.
  destruct (Z.ltb_spec c 0) as [|_]; [lia|].
  cbn [proc with_proc used set_used mask gen].
  rewrite clear_set_same by assumption.
  assert (Hcases : (set1 = proc a) \/
            (used (proc a) = mask (proc a) /\
             set1 = {| mask := mask (proc a); used := cpumask_none;
                       gen := uint (gen (proc a) + 1) |})).
  { destruct Hset as [->| ->]; [|now left].
    rewrite gen_inc_valid by assumption.
    destruct (Z.eqb_spec (used (proc a)) (mask (proc a))); [right | left]; auto. }
  destruct Hcases as [->|[Hfull ->]].
  - rewrite cpumask_empty_valid by assumption.
    destruct (Z.eqb_spec (used (proc a)) 0) as [Hz|_]; cbn [andb].
    + rewrite (Hidle Hz). cbn [Z.eqb negb]. unfold set_used.
      destruct a as [? ? [? ? ?] ? ? ? ? ?]; reflexivity.
    + unfold set_used. destruct a as [? ? [? ? ?] ? ? ? ? ?]; reflexivity.
  - cbn [used mask gen].
    rewrite (cpumask_empty_valid nr_cpu_ids nr_cpu_ids_nonneg)
      by now apply cpumask_valid_none.
    unfold cpumask_none. cbn [Z.eqb andb].
    rewrite uint_small by (unfold UINT_MAX in *; lia).
    destruct (Z.eqb_spec (gen (proc a) + 1) 0) as [|_]; [lia|]. cbn [negb].
    replace (gen (proc a) + 1 - 1) with (gen (proc a)) by lia.
    clear - Hfull. destruct a as [nl rm [m u g] s1 s2 s3 s4 cn].
    cbn [proc used mask gen with_proc] in *. now rewrite Hfull.
Qed.

(** X15. Releasing the CPU that was advised restores the registry.
    When the process pool is in order and [hfi1_get_proc_affinity] has
    returned a CPU, which for a process pinned to a single CPU was not
    marked used before (the advisor marks the CPU of a pinned process
    without looking whether it is used), then [hfi1_put_proc_affinity]
    for this CPU leaves the registry exactly as it was before the
    advice, also when the advice wrapped the pool around. *)
Theorem get_put_proc_restores (t : topology) (proc_mask : cpumask) (ok : bool)
    (a a' : hfi1_affinity_node_list) (nd c : Z) :
  pool_in_order nr_cpu_ids (proc a) ->
  hfi1_get_proc_affinity nr_cpu_ids t proc_mask ok a nd = Some (c, a') ->
  0 <= c ->
  (weight proc_mask = 1 -> ~ cpu_in c (used (proc a))) ->
  hfi1_put_proc_affinity nr_cpu_ids a' c = a.
Proof.
  intros Hpool Hget Hc Hpinned.
  destruct (Z.eq_dec (weight proc_mask) 1) as [Hone|Hone].
  { unfold hfi1_get_proc_affinity in Hget. rewrite Hone in Hget.
    cbn [Z.eqb Pos.eqb] in Hget. injection Hget as <- <-.
    apply put_proc_restores; [assumption | now right | assumption |].
    specialize (Hpinned Hone). unfold cpu_in in Hpinned.
    now destruct (Z.testbit (used (proc a)) (first_cpu proc_mask)). }
  destruct (Z.lt_ge_cases (weight proc_mask) (weight (mask (proc a)))) as [Hfew|Hall].
  { unfold hfi1_get_proc_affinity in Hget.
    destruct (Z.eqb_spec (weight proc_mask) 1) as [|_]; [contradiction|].
    destruct (Z.ltb_spec (weight proc_mask) (weight (mask (proc a)))) as [_|]; [|lia].
    injection Hget as <- <-. lia. }
  destruct ok.
  2:{ unfold hfi1_get_proc_affinity in Hget.
      destruct (Z.eqb_spec (weight proc_mask) 1) as [|_]; [contradiction|].
      destruct (Z.ltb_spec (weight proc_mask) (weight (mask (proc a)))) as [|_]; [lia|].
      injection Hget as <- <-. lia. }
  rewrite get_proc_advice in Hget by (assumption || lia).
  destruct (proc_hw_thread_mask nr_cpu_ids a) as [hw|]; [|discriminate].
  cbn [mbind option_bind] in Hget. cbv zeta in Hget.
  match type of Hget with
  | context [nr_cpu_ids <=? first_cpu ?m] => set (avail := m) in *
  end.
  destruct (Z.leb_spec nr_cpu_ids (first_cpu avail)) as [Hnone|Hlt];
    injection Hget as <- <-; [lia|].
  apply put_proc_restores; [assumption | now left | assumption |].
  apply (proc_available_free hw _ (cpumask_of_node t nd)
           (intrs_mask_of (node_affinity_lookup a nd))).
  now apply cpumask_first_in.
Qed.

End Advice.

(** ** A vector moved away and back *)

Section MoveBack.

Variable t : topology.

(** What [hfi1_update_sdma_affinity] returns for a move that it
    accepts. *)
Lemma update_shape (a : hfi1_affinity_node_list) (dd : hfi1_devdata) (i : nat)
    (msix : hfi1_msix_entry) (k : nat) (sde : sdma_engine) (j : nat)
    (e : hfi1_affinity_node) (new_cpu : Z) :
  msix_entries dd !! i = Some msix ->
  arg msix = arg_sde k ->
  per_sdma dd !! k = Some sde ->
  node_affinity_lookup a (dd_node dd) = Some (j, e) ->
  uint new_cpu <= online_cpus t ->
  new_cpu <> cpu sde ->
  let keep := other_sdma_uses (msix_entries dd) 0 i (cpu sde) in
  let moved (m : cpumask) :=
    if keep then cpumask_set_cpu new_cpu m
    else cpumask_clear_cpu (cpu sde) (cpumask_set_cpu new_cpu m) in
  hfi1_update_sdma_affinity t a dd i new_cpu
  = Some (with_entry a j
            (put_pool e sel_def
               {| mask := moved (mask (def_intr e)); used := moved (used (def_intr e));
                  gen := gen (def_intr e) |}),
          with_msix (with_sde dd k {| cpu := new_cpu |}) i
            {| msix_type := msix_type msix; arg := arg msix;
               msix_mask := cpumask_set_cpu new_cpu cpumask_none;
               affinity_hint := true; notify_set := notify_set msix |}).
Proof.
  intros Hm Harg Hk Hlook Hrange Hne keep moved.
  unfold hfi1_update_sdma_affinity. rewrite Hm. cbn [mbind option_bind].
  rewrite Harg, Hk. cbn [mbind option_bind].
  destruct (Z.ltb_spec (online_cpus t) (uint new_cpu)) as [|_]; [lia|].
  destruct (Z.eqb_spec new_cpu (cpu sde)) as [|_]; [contradiction|].
  cbn [orb]. rewrite Hlook.
  cbn [msix_entries with_msix with_sde]. rewrite other_sdma_uses_insert_self.
  fold keep. unfold moved. now destruct keep.
Qed.

(** X16. An SDMA vector that the user moves from CPU [A] to CPU [B] and
    back to [A], both moves being accepted, when no other SDMA vector of
    the device has [A] or [B] in its mask: the engine is on [A] again
    and the mask of the vector is [A] alone, but the default pool of the
    node is not what it was when [B] was one of its CPUs.  [A] is in
    its mask and marked used, [B] is in neither the mask nor the used
    set, whatever they held before; every other CPU and the generation
    are as they were. *)
Theorem update_there_and_back (a : hfi1_affinity_node_list) (dd : hfi1_devdata) (i : nat)
    (msix : hfi1_msix_entry) (k : nat) (j : nat) (e : hfi1_affinity_node) (A B : Z) :
  msix_entries dd !! i = Some msix ->
  arg msix = arg_sde k ->
  per_sdma dd !! k = Some {| cpu := A |} ->
  node_affinity_lookup a (dd_node dd) = Some (j, e) ->
  0 <= A -> 0 <= B -> A <> B ->
  uint A <= online_cpus t -> uint B <= online_cpus t ->
  ~ other_sdma_targets dd i A ->
  ~ other_sdma_targets dd i B ->
  exists a1 dd1 a2 dd2 p2,
    hfi1_update_sdma_affinity t a dd i B = Some (a1, dd1) /\
    hfi1_update_sdma_affinity t a1 dd1 i A = Some (a2, dd2) /\
    per_sdma dd2 !! k = Some {| cpu := A |} /\
    msix_mask <$> msix_entries dd2 !! i = Some (cpumask_of_list [A]) /\
    default_pool a2 (dd_node dd) = Some p2 /\
    gen p2 = gen (def_intr e) /\
    (forall x, cpu_in x (mask p2) <-> (x = A \/ cpu_in x (mask (def_intr e))) /\ x <> B) /\
    (forall x, cpu_in x (used p2) <-> (x = A \/ cpu_in x (used (def_intr e))) /\ x <> B).
Proof.
  intros Hm Harg Hk Hlook HA HB Hne HrA HrB HnoA HnoB.
  assert (HusesA : other_sdma_uses (msix_entries dd) 0 i A = false).
  { destruct (other_sdma_uses (msix_entries dd) 0 i A) eqn:Hu; [|reflexivity].
    apply other_sdma_uses_targets in Hu. contradiction. }
  assert (HusesB : other_sdma_uses (msix_entries dd) 0 i B = false).
  { destruct (other_sdma_uses (msix_entries dd) 0 i B) eqn:Hu; [|reflexivity].
    apply other_sdma_uses_targets in Hu. contradiction. }
  pose proof (update_shape a dd i msix k {| cpu := A |} j e B Hm Harg Hk Hlook HrB
                ltac:(cbn [cpu]; congruence)) as Hfirst.
  cbv zeta in Hfirst. cbn [cpu] in Hfirst. rewrite HusesA in Hfirst.
  set (e1 := put_pool e sel_def _) in Hfirst.
  set (msix1 := {| msix_type := msix_type msix; arg := arg msix;
                   msix_mask := cpumask_set_cpu B cpumask_none;
                   affinity_hint := true; notify_set := notify_set msix |}) in *.
  set (dd1 := with_msix (with_sde dd k {| cpu := B |}) i msix1) in *.
  assert (Hm1 : msix_entries dd1 !! i = Some msix1).
  { unfold dd1. cbn [msix_entries with_msix with_sde].
    apply list_lookup_insert_eq. eapply lookup_lt_Some; eassumption. }
  assert (Hk1 : per_sdma dd1 !! k = Some {| cpu := B |}).
  { unfold dd1. cbn [per_sdma with_msix with_sde].
    apply list_lookup_insert_eq. eapply lookup_lt_Some; eassumption. }
  assert (Hlook1 : node_affinity_lookup (with_entry a j e1) (dd_node dd1) = Some (j, e1)).
  { apply (lookup_with_entry a (dd_node dd) j e); [assumption|].
    now apply lookup_node in Hlook as [Hnode _]. }
  assert (HusesB1 : other_sdma_uses (msix_entries dd1) 0 i B = false).
  { unfold dd1. cbn [msix_entries with_msix with_sde].
    now rewrite other_sdma_uses_insert_self. }
  pose proof (update_shape (with_entry a j e1) dd1 i msix1 k {| cpu := B |} j e1 A
                Hm1 Harg Hk1 Hlook1 HrA ltac:(cbn [cpu]; congruence)) as Hsecond.
  cbv zeta in Hsecond. cbn [cpu] in Hsecond. rewrite HusesB1 in Hsecond.
  eexists _, _, _, _, _. split; [exact Hfirst|]. split; [exact Hsecond|].
  split.
  { cbn [per_sdma with_msix with_sde]. apply list_lookup_insert_eq.
    eapply lookup_lt_Some; exact Hk1. }
  split.
  { cbn [msix_entries with_msix with_sde]. rewrite list_lookup_insert_eq; [reflexivity|].
    eapply lookup_lt_Some; exact Hm1. }
  split.
  { unfold default_pool.
    rewrite (lookup_with_entry (with_entry a j e1) (dd_node dd) j e1);
      [reflexivity | exact Hlook1 |].
    apply lookup_node in Hlook as [Hnode _]. exact Hnode. }
  cbn [def_intr put_pool mask used gen]. unfold e1. cbn [def_intr put_pool mask used gen].
  split; [reflexivity|].
  assert (Hbits : forall m x,
    Z.testbit (cpumask_clear_cpu B (cpumask_set_cpu A
                 (cpumask_clear_cpu A (cpumask_set_cpu B m)))) x = true
    <-> (x = A \/ Z.testbit m x = true) /\ x <> B).
  { intros m x. repeat (rewrite testbit_clear_cpu || rewrite testbit_set_cpu).
    destruct (Z.leb_spec 0 A), (Z.leb_spec 0 B); try lia. cbn [andb].
    destruct (Z.eqb_spec x A), (Z.eqb_spec x B), (Z.testbit m x);
      cbn [andb orb negb]; intuition (congruence || lia). }
  split; intros x; apply Hbits.
Qed.

End MoveBack.

(** ** The order of the allocations *)

Section RoundRobin.

Variable nr_cpu_ids : Z.
Hypothesis nr_cpu_ids_nonneg : 0 <= nr_cpu_ids.

Local Abbreviation weight := (cpumask_weight nr_cpu_ids).
Local Abbreviation get_first := (cpu_mask_set_get_first nr_cpu_ids).
Local Abbreviation alloc := (allocate_n nr_cpu_ids).

(** The used CPUs are the lowest CPUs of the mask. *)
Local Abbreviation lowest_used p :=
  (forall x y, 0 <= x < nr_cpu_ids -> Z.testbit (used p) x = true ->
               0 <= y < nr_cpu_ids -> Z.testbit (mask p) y = true ->
               Z.testbit (used p) y = false -> x < y).

Lemma allocate_n_app (n1 n2 : nat) (p : cpu_mask_set) :
  alloc (n1 + n2) p
  = ((alloc n1 p).1 ++ (alloc n2 (alloc n1 p).2).1, (alloc n2 (alloc n1 p).2).2).
Proof.
  revert p. induction n1 as [|n1 IH]; intros p; cbn [Nat.add allocate_n fst snd app].
  - now destruct (alloc n2 p).
  - destruct (get_first p) as [c p1]. rewrite IH.
    now destruct (alloc n1 p1) as [cs p2].
Qed.

(** While CPUs are left the allocations go up the mask. *)
Lemma allocate_n_increasing (n : nat) (p : cpu_mask_set) :
  cpumask_subset (used p) (mask p) ->
  weight (used p) + Z.of_nat n <= weight (mask p) ->
  lowest_used p ->
  let r := alloc n p in
  (forall i j ci cj, r.1 !! i = Some ci -> r.1 !! j = Some cj -> (i < j)%nat -> ci < cj) /\
  (forall c x, c ∈ r.1 -> 0 <= x < nr_cpu_ids -> Z.testbit (used p) x = true -> x < c) /\
  (forall x, Z.testbit (used r.2) x = true -> Z.testbit (used p) x = true \/ x ∈ r.1).
Proof.
  revert p. induction n as [|n IH]; intros p Hsub Hw Hlow; cbv zeta.
  - cbn [allocate_n fst snd]. split; [intros i j ci cj Hi; now rewrite lookup_nil in Hi|].
    split; [intros c x Hc; now apply elem_of_nil in Hc | auto].
  - destruct (weight_lt_not_equal nr_cpu_ids nr_cpu_ids_nonneg p ltac:(lia)) as [Hinc Hne].
    pose proof (get_first_cpu nr_cpu_ids nr_cpu_ids_nonneg p Hsub Hne)
      as (Hc & Hcm & Hcu & Hleast).
    pose proof (get_first_subset nr_cpu_ids nr_cpu_ids_nonneg p Hsub Hne) as Hsub1.
    pose proof (get_first_pool nr_cpu_ids p) as Hp1.
    rewrite Hinc in Hcu, Hp1, Hleast.
    cbn [allocate_n].
    destruct (get_first p) as [c p1].
    cbn [fst snd] in *. subst p1. cbn [mask used gen] in *.
    set (p1 := {| mask := mask p; used := cpumask_set_cpu c (used p); gen := gen p |}) in *.
    assert (Hw1 : weight (used p1) = weight (used p) + 1) by now apply cpumask_weight_set.
    assert (Hlow1 : lowest_used p1).
    { intros x y Hx Hux Hy Hmy Huy. cbn [used mask p1] in *.
      assert (Hyc : y <> c) by (intros ->; now rewrite testbit_set_same in Huy by lia).
      rewrite testbit_set_other in Huy by assumption.
      destruct (Z.eq_dec x c) as [->|Hxc].
      - destruct (Z.lt_ge_cases c y) as [|Hge]; [assumption|].
        specialize (Hleast y ltac:(lia)). rewrite Hmy, Huy in Hleast. discriminate.
      - rewrite testbit_set_other in Hux by assumption. now apply (Hlow x y). }
    specialize (IH p1 Hsub1 ltac:(change (mask p1) with (mask p); lia) Hlow1).
    cbv zeta in IH. destruct IH as (IHs & IHu & IHin).
    destruct (alloc n p1) as [cs p2]. cbn [fst snd] in *.
    assert (Hcs : forall c', c' ∈ cs -> c < c').
    { intros c' Hc'. apply (IHu c' c Hc'); [lia|]. cbn [used p1].
      apply testbit_set_same. lia. }
    split; [|split].
    + intros i j ci cj Hi Hj Hij. destruct j as [|j]; [lia|]. cbn in Hj.
      destruct i as [|i].
      * cbn in Hi. injection Hi as <-. apply Hcs.
        apply list_elem_of_lookup. now exists j.
      * cbn in Hi. apply (IHs i j); [assumption | assumption | lia].
    + intros c' x [->|Hin]%elem_of_cons Hx Hux.
      * now apply (Hlow x c).
      * apply (IHu c' x Hin Hx). cbn [used p1].
        destruct (Z.eq_dec x c) as [->|Hxc];
          [apply testbit_set_same; lia | now rewrite testbit_set_other].
    + intros x [Hx|Hx]%IHin.
      * cbn [used p1] in Hx. destruct (Z.eq_dec x c) as [->|Hxc].
        -- right. apply elem_of_cons. now left.
        -- rewrite testbit_set_other in Hx by assumption. now left.
      * right. apply elem_of_cons. now right.
Qed.

(** The allocation looks at the generation only to increment it. *)
Lemma get_first_same_cpus (p q : cpu_mask_set) :
  mask p = mask q -> used p = used q ->
  (get_first p).1 = (get_first q).1 /\
  mask (get_first p).2 = mask (get_first q).2 /\
  used (get_first p).2 = used (get_first q).2.
Proof.
  intros Hm Hu. unfold cpu_mask_set_get_first, cpu_mask_set_gen_inc.
  rewrite Hm, Hu. destruct (cpumask_equal nr_cpu_ids (mask q) (used q));
    cbn [fst snd mask used set_used]; now rewrite ?Hm, ?Hu.
Qed.

Lemma allocate_n_same_cpus (n : nat) (p q : cpu_mask_set) :
  mask p = mask q -> used p = used q -> (alloc n p).1 = (alloc n q).1.
Proof.
  revert p q. induction n as [|n IH]; intros p q Hm Hu; cbn [allocate_n]; [reflexivity|].
  destruct (get_first_same_cpus p q Hm Hu) as (Hc & Hm1 & Hu1).
  destruct (get_first p) as [c p1], (get_first q) as [c' q1]. cbn [fst snd] in *.
  specialize (IH p1 q1 Hm1 Hu1).
  destruct (alloc n p1) as [cs p2], (alloc n q1) as [cs' q2]. cbn [fst snd] in *.
  congruence.
Qed.

(** X17. The CPUs of a pool are handed out round-robin in increasing
    order.  From a pool with no used CPU whose mask has [k] CPUs, [k]
    allocations return the CPUs of the mask from the lowest to the
    highest, each once; the next [k] allocations, which start with the
    wrap-around of the pool, return the same CPUs in the same order. *)
Theorem round_robin_order (p : cpu_mask_set) (k : nat) :
  used p = cpumask_none ->
  weight (mask p) = Z.of_nat k ->
  let l := (alloc k p).1 in
  (forall i j ci cj, l !! i = Some ci -> l !! j = Some cj -> (i < j)%nat -> ci < cj) /\
  (forall c, c ∈ l <-> 0 <= c < nr_cpu_ids /\ cpu_in c (mask p)) /\
  (alloc (k + k) p).1 = l ++ l.
Proof.
  intros Hused Hweight l.
  assert (Hsub : cpumask_subset (used p) (mask p)) by now rewrite Hused.
  assert (Hw0 : weight (used p) = 0).
  { rewrite Hused. apply cpumask_weight_zero; [assumption|].
    apply cpumask_empty_true; [assumption|]. intros i _. apply Z.bits_0. }
  assert (Hlow : lowest_used p).
  { intros x y _ Hx. rewrite Hused in Hx. unfold cpumask_none in Hx.
    rewrite Z.bits_0 in Hx. discriminate. }
  destruct (allocate_n_increasing k p Hsub ltac:(lia) Hlow) as (Hsorted & _ & Hin).
  destruct (allocate_n_fresh nr_cpu_ids nr_cpu_ids_nonneg k p Hsub ltac:(lia))
    as (Hm & Hg & Hs & Hw & Hlen & Hnodup & Hmem & _).
  cbv zeta in *. fold l in Hsorted, Hin, Hlen, Hnodup, Hmem.
  set (p1 := (alloc k p).2) in *.
  assert (Hfull : cpumask_equal nr_cpu_ids (mask p1) (used p1) = true).
  { apply cpumask_weight_subset_eq; [assumption | now rewrite Hm | ].
    rewrite Hm. lia. }
  split; [exact Hsorted|]. split.
  - intros c. split.
    + intros Hc. destruct (Hmem c Hc) as (Hr & Hbit & _). now split.
    + intros [Hr Hbit].
      assert (Hu1 : Z.testbit (used p1) c = true).
      { rewrite <- (proj1 (cpumask_equal_true nr_cpu_ids nr_cpu_ids_nonneg _ _) Hfull c Hr).
        now rewrite Hm. }
      destruct (Hin c Hu1) as [Hu|]; [|assumption].
      rewrite Hused in Hu. unfold cpumask_none in Hu. rewrite Z.bits_0 in Hu. discriminate.
  - rewrite allocate_n_app. cbn [fst]. fold l. fold p1. f_equal.
    destruct k as [|k]; [reflexivity|].
    set (q := {| mask := mask p; used := cpumask_none; gen := uint (gen p1 + 1) |}).
    assert (Hne : cpumask_empty nr_cpu_ids (mask p) = false).
    { destruct (cpumask_empty nr_cpu_ids (mask p)) eqn:He; [|reflexivity].
      apply cpumask_weight_zero in He; [lia | assumption]. }
    assert (Hq : cpumask_equal nr_cpu_ids (mask q) (used q) = false).
    { destruct (cpumask_equal nr_cpu_ids (mask q) (used q)) eqn:He; [|reflexivity].
      apply cpumask_weight_equal in He; [|assumption]. cbn [mask used q] in He.
      rewrite <- Hused in He. lia. }
    assert (Hstep : get_first p1 = get_first q).
    { unfold cpu_mask_set_get_first, cpu_mask_set_gen_inc. rewrite Hfull, Hq, Hm.
      reflexivity. }
    transitivity (alloc (S k) q).1.
    + cbn [allocate_n]. now rewrite Hstep.
    + apply allocate_n_same_cpus; [reflexivity | now rewrite Hused].
Qed.

End RoundRobin.

(** ** The properties on concrete systems *)


(** The general vector of the attached device is bound to CPU 0. *)
Lemma general_irq_not_accounted_witness :
  msix_entries attached_device !! 2%nat = Some general_vector /\
  (msix_type general_vector = IRQ_GENERAL \/
   (msix_type general_vector = IRQ_RCVCTXT /\ arg general_vector = arg_rcd HFI1_CTRL_CTXT)) /\
  (exists dd',
     get_irq_affinity 8 true attached_registry attached_device 2 =
       Some (0, attached_registry, dd') /\
     msix_mask <$> msix_entries dd' !! 2%nat = Some (cpumask_of_list [0])) /\
  exists dd',
    hfi1_put_irq_affinity 8 attached_registry attached_device 2 = Some (attached_registry, dd').
Proof.
  assert (Hm : msix_entries attached_device !! 2%nat = Some general_vector) by reflexivity.
  assert (Hkind : msix_type general_vector = IRQ_GENERAL \/
                  (msix_type general_vector = IRQ_RCVCTXT /\
                   arg general_vector = arg_rcd HFI1_CTRL_CTXT)) by now left.
  split; [exact Hm|]. split; [exact Hkind|].
  destruct (general_irq_not_accounted 8 attached_registry attached_device 2 general_vector
              Hm Hkind) as [Hget Hput].
  split.
  - eexists. split; [apply (Hget 0%nat); reflexivity|]. reflexivity.
  - eexists. exact Hput.
Defined.

(** Before the device attaches its node has no entry: the get of its
    first SDMA vector dereferences the missing entry, and so does the
    put. *)
Lemma irq_affinity_needs_entry_witness :
  msix_entries two_engine_device !! 0%nat = Some (sdma_vector 0) /\
  msix_ok two_engine_device (sdma_vector 0) /\
  node_affinity_lookup two_node_registry (dd_node two_engine_device) = None /\
  get_irq_affinity 8 true two_node_registry two_engine_device 0 = None /\
  hfi1_put_irq_affinity 8 two_node_registry two_engine_device 0 = None.
Proof.
  assert (Hm : msix_entries two_engine_device !! 0%nat = Some (sdma_vector 0)) by reflexivity.
  assert (Hok : msix_ok two_engine_device (sdma_vector 0)) by (now exists {| cpu := 0 |}).
  split; [exact Hm|]. split; [exact Hok|]. split; [reflexivity|].
  destruct (irq_affinity_needs_entry 8 true two_node_registry two_engine_device 0
              (sdma_vector 0) Hm Hok) as [Hget Hput].
  split.
  - apply Hget. split; [reflexivity|]. split; [discriminate | reflexivity].
  - apply Hput. split; [discriminate | reflexivity].
Defined.

Lemma attached_default_pool_in_order :
  forall s, irq_pool (sdma_vector 0) = Some s ->
            pool_in_order 8 (get_pool
              {| node := 0;
                 def_intr := {| mask := cpumask_of_list [2; 3]; used := cpumask_none;
                                gen := 0 |};
                 rcv_intr := {| mask := cpumask_of_list [1]; used := cpumask_none; gen := 0 |};
                 general_intr_mask := cpumask_of_list [0] |} s).
Proof.
  intros s [= <-]. cbn [get_pool def_intr mask used gen].
  split; [valid_mask|]. split; [valid_mask|]. split; [reflexivity|].
  split; [discriminate|]. split; [vm_compute; split; discriminate|].
  split; [reflexivity | discriminate].
Defined.

(** The first SDMA vector of the attached device gets a CPU and
    releases it. *)
Lemma get_put_irq_restores_registry_witness :
  0 <= 8 /\
  msix_entries attached_device !! 0%nat = Some (sdma_vector 0) /\
  msix_ok attached_device (sdma_vector 0) /\
  node_affinity_lookup attached_registry (dd_node attached_device)
  = Some (0%nat,
          {| node := 0;
             def_intr := {| mask := cpumask_of_list [2; 3]; used := cpumask_none; gen := 0 |};
             rcv_intr := {| mask := cpumask_of_list [1]; used := cpumask_none; gen := 0 |};
             general_intr_mask := cpumask_of_list [0] |}) /\
  exists r a1 dd1 dd2,
    get_irq_affinity 8 true attached_registry attached_device 0 = Some (r, a1, dd1) /\
    hfi1_put_irq_affinity 8 a1 dd1 0 = Some (attached_registry, dd2).
Proof.
  assert (Hm : msix_entries attached_device !! 0%nat = Some (sdma_vector 0)) by reflexivity.
  assert (Hok : msix_ok attached_device (sdma_vector 0)) by (now exists {| cpu := 0 |}).
  split; [lia|]. split; [exact Hm|]. split; [exact Hok|]. split; [reflexivity|].
  exact (get_put_irq_restores_registry 8 ltac:(lia) true attached_registry attached_device 0
           (sdma_vector 0) 0 _ Hm Hok eq_refl attached_default_pool_in_order).
Defined.

(** The first SDMA vector of the armed device is released twice. *)
Lemma put_irq_twice_witness :
  0 <= 8 /\
  exists m a1 dd1,
    msix_entries armed_device !! 0%nat = Some m /\
    msix_ok armed_device m /\
    hfi1_put_irq_affinity 8 armed_registry armed_device 0 = Some (a1, dd1) /\
    hfi1_put_irq_affinity 8 a1 dd1 0 = Some (a1, dd1).
Proof.
  split; [lia|].
  assert (Hm : msix_entries armed_device !! 0%nat
               = Some {| msix_type := IRQ_SDMA; arg := arg_sde 0;
                         msix_mask := cpumask_of_list [2];
                         affinity_hint := true; notify_set := true |}) by reflexivity.
  assert (Hok : msix_ok armed_device
                  {| msix_type := IRQ_SDMA; arg := arg_sde 0;
                     msix_mask := cpumask_of_list [2];
                     affinity_hint := true; notify_set := true |})
    by (now exists {| cpu := 2 |}).
  assert (Hput : hfi1_put_irq_affinity 8 armed_registry armed_device 0
                 = Some (attached_registry,
                         with_msix armed_device 0
                           (released_vector
                              {| msix_type := IRQ_SDMA; arg := arg_sde 0;
                                 msix_mask := cpumask_of_list [2];
                                 affinity_hint := true; notify_set := true |})))
    by (vm_compute; reflexivity).
  eexists _, _, _. split; [exact Hm|]. split; [exact Hok|]. split; [exact Hput|].
  apply (put_irq_twice 8 ltac:(lia) armed_registry _ armed_device _ 0 _ Hm Hok); [|exact Hput].
  intros s j e [= <-] He. vm_compute in He. injection He as <- <-.
  split; [reflexivity|]. intros Hempty. vm_compute in Hempty. discriminate.
Defined.

(** With eight CPUs and two hardware threads per core on one node, the
    hardware threads number 1 are the CPUs 4 to 7. *)
Lemma hw_thread_mask_contiguous_witness :
  0 <= 8 /\
  mask (proc threaded_registry) = Z.ones (num_online_cpus threaded_registry) /\
  0 <= num_online_cpus threaded_registry <= 8 /\
  num_online_cpus threaded_registry < 2 ^ 32 /\
  1 <= num_core_siblings threaded_registry /\
  1 <= num_online_nodes threaded_registry /\
  0 <= 1 < num_core_siblings threaded_registry /\
  find_hw_thread_mask 8 1 threaded_registry = Some (cpumask_of_list [4; 5; 6; 7]) /\
  exists hw,
    find_hw_thread_mask 8 1 threaded_registry = Some hw /\
    forall x, cpu_in x hw <-> 1 * (8 / 2 / 1 * 1) <= x < (1 + 1) * (8 / 2 / 1 * 1).
Proof.
  assert (Hn : 0 <= num_online_cpus threaded_registry <= 8) by (vm_compute; split; discriminate).
  assert (Hk : 0 <= 1 < num_core_siblings threaded_registry)
    by (vm_compute; split; [discriminate|reflexivity]).
  assert (Hs : 1 <= num_core_siblings threaded_registry) by (vm_compute; discriminate).
  assert (Hd : 1 <= num_online_nodes threaded_registry) by (vm_compute; discriminate).
  assert (H32 : num_online_cpus threaded_registry < 2 ^ 32) by reflexivity.
  split; [lia|]. split; [reflexivity|]. split; [exact Hn|]. split; [exact H32|].
  split; [exact Hs|]. split; [exact Hd|]. split; [exact Hk|]. split; [reflexivity|].
  apply (hw_thread_mask_contiguous 8 ltac:(lia) threaded_registry 1 eq_refl Hn H32 Hs Hd Hk).
Defined.

(** A process allowed on every CPU of the two-node system asks for a CPU
    near node 0. *)
Lemma proc_affinity_result_witness :
  0 <= 8 /\
  (0 < num_core_siblings two_node_registry -> num_online_nodes two_node_registry <> 0) /\
  exists c a',
    hfi1_get_proc_affinity 8 two_node_topology (cpumask_of_list [0; 1; 2; 3; 4; 5; 6; 7])
      true two_node_registry 0 = Some (c, a') /\
    node_list a' = node_list two_node_registry /\
    same_topology two_node_registry a' /\
    (c = -1 \/ (0 <= c < 8 /\ cpu_in c (used (proc a')))).
Proof.
  assert (Hd : 0 < num_core_siblings two_node_registry ->
               num_online_nodes two_node_registry <> 0) by (intros _; discriminate).
  split; [lia|]. split; [exact Hd|].
  destruct (proc_affinity_result 8 ltac:(lia) two_node_topology
              (cpumask_of_list [0; 1; 2; 3; 4; 5; 6; 7]) true two_node_registry 0 Hd)
    as (c & a' & Hget & Hlist & Htopo & Hc & _).
  now exists c, a'.
Defined.

(** On the armed system the interrupts of node 0 use the CPUs 0 and 2: a
    process that opens a context on a device of node 0 is advised CPU 1,
    the lowest CPU of the node that no interrupt uses. *)
Lemma proc_affinity_tiers_witness :
  0 <= 8 /\
  cpumask_weight 8 (cpumask_of_list [0; 1; 2; 3; 4; 5; 6; 7]) <> 1 /\
  cpumask_weight 8 (mask (proc armed_registry))
  <= cpumask_weight 8 (cpumask_of_list [0; 1; 2; 3; 4; 5; 6; 7]) /\
  proc_hw_thread_mask 8 armed_registry = Some (cpumask_of_list [0; 1; 2; 3; 4; 5; 6; 7]) /\
  intrs_mask_of (node_affinity_lookup armed_registry 0) = cpumask_of_list [0; 2] /\
  exists a',
    hfi1_get_proc_affinity 8 two_node_topology (cpumask_of_list [0; 1; 2; 3; 4; 5; 6; 7])
      true armed_registry 0 = Some (1, a') /\
    lowest_cpu 1
      (fun x =>
         proc_candidate 8 (cpumask_of_list [0; 1; 2; 3; 4; 5; 6; 7])
           (used (cpu_mask_set_gen_inc 8 (proc armed_registry))) x /\
         cpu_in x (cpumask_of_node two_node_topology 0) /\
         ~ cpu_in x (intrs_mask_of (node_affinity_lookup armed_registry 0))).
Proof.
  assert (Hone : cpumask_weight 8 (cpumask_of_list [0; 1; 2; 3; 4; 5; 6; 7]) <> 1)
    by discriminate.
  assert (Hall : cpumask_weight 8 (mask (proc armed_registry))
                 <= cpumask_weight 8 (cpumask_of_list [0; 1; 2; 3; 4; 5; 6; 7]))
    by (vm_compute; discriminate).
  assert (Hhw : proc_hw_thread_mask 8 armed_registry
                = Some (cpumask_of_list [0; 1; 2; 3; 4; 5; 6; 7]))
    by (vm_compute; reflexivity).
  split; [lia|]. split; [exact Hone|]. split; [exact Hall|]. split; [exact Hhw|].
  split; [reflexivity|].
  destruct (proc_affinity_tiers 8 ltac:(lia) two_node_topology
              (cpumask_of_list [0; 1; 2; 3; 4; 5; 6; 7]) armed_registry 0
              (cpumask_of_list [0; 1; 2; 3; 4; 5; 6; 7]) Hone Hall Hhw)
    as (c & a' & Hget & Htier1 & _).
  assert (Hc : c = 1).
  { assert (Hval : fst <$> hfi1_get_proc_affinity 8 two_node_topology
                     (cpumask_of_list [0; 1; 2; 3; 4; 5; 6; 7]) true armed_registry 0
                   = Some 1) by (vm_compute; reflexivity).
    rewrite Hget in Hval. now injection Hval. }
  subst c. exists a'. split; [exact Hget|]. apply Htier1.
  exists 1. split; [|split].
  - split; [lia|]. split; [reflexivity|]. vm_compute. discriminate.
  - reflexivity.
  - vm_compute. discriminate.
Defined.

(** The process is advised CPU 0 and releases it. *)
Lemma get_put_proc_restores_witness :
  0 <= 8 /\
  pool_in_order 8 (proc two_node_registry) /\
  exists a',
    hfi1_get_proc_affinity 8 two_node_topology (cpumask_of_list [0; 1; 2; 3; 4; 5; 6; 7])
      true two_node_registry 0 = Some (0, a') /\
    0 <= 0 /\
    used (proc a') = cpumask_of_list [0] /\
    hfi1_put_proc_affinity 8 a' 0 = two_node_registry.
Proof.
  assert (Hpool : pool_in_order 8 (proc two_node_registry)).
  { split; [valid_mask|]. split; [valid_mask|]. split; [reflexivity|].
    split; [discriminate|]. split; [vm_compute; split; discriminate|].
    split; [reflexivity | discriminate]. }
  split; [lia|]. split; [exact Hpool|]. eexists.
  split; [vm_compute; reflexivity|]. split; [lia|]. split; [reflexivity|].
  apply (get_put_proc_restores 8 ltac:(lia) two_node_topology
           (cpumask_of_list [0; 1; 2; 3; 4; 5; 6; 7]) true two_node_registry _ 0 0 Hpool);
    [vm_compute; reflexivity | lia | discriminate].
Defined.

(** After the first SDMA vector of the device got CPU 2, the default
    pool of node 0 holds the CPUs 2 and 3, of which CPU 2 is used.  The
    user moves the vector to CPU 3 and back to CPU 2: the pool is left
    with CPU 2 alone. *)
Lemma update_there_and_back_witness :
  msix_entries armed_device !! 0%nat
  = Some {| msix_type := IRQ_SDMA; arg := arg_sde 0; msix_mask := cpumask_of_list [2];
            affinity_hint := true; notify_set := true |} /\
  per_sdma armed_device !! 0%nat = Some {| cpu := 2 |} /\
  default_pool armed_registry (dd_node armed_device)
  = Some {| mask := cpumask_of_list [2; 3]; used := cpumask_of_list [2]; gen := 0 |} /\
  0 <= 2 /\ 0 <= 3 /\ 2 <> 3 /\
  uint 2 <= online_cpus two_node_topology /\ uint 3 <= online_cpus two_node_topology /\
  ~ other_sdma_targets armed_device 0 2 /\
  ~ other_sdma_targets armed_device 0 3 /\
  exists a1 dd1 a2 dd2,
    hfi1_update_sdma_affinity two_node_topology armed_registry armed_device 0 3
    = Some (a1, dd1) /\
    hfi1_update_sdma_affinity two_node_topology a1 dd1 0 2 = Some (a2, dd2) /\
    per_sdma dd2 !! 0%nat = Some {| cpu := 2 |} /\
    default_pool a2 (dd_node armed_device)
    = Some {| mask := cpumask_of_list [2]; used := cpumask_of_list [2]; gen := 0 |}.
Proof.
  assert (Hm : msix_entries armed_device !! 0%nat
               = Some {| msix_type := IRQ_SDMA; arg := arg_sde 0;
                         msix_mask := cpumask_of_list [2];
                         affinity_hint := true; notify_set := true |})
    by reflexivity.
  assert (Hk : per_sdma armed_device !! 0%nat = Some {| cpu := 2 |}) by reflexivity.
  assert (Hlook : node_affinity_lookup armed_registry (dd_node armed_device)
                  = Some (0%nat,
                          {| node := 0;
                             def_intr := {| mask := cpumask_of_list [2; 3];
                                            used := cpumask_of_list [2]; gen := 0 |};
                             rcv_intr := {| mask := cpumask_of_list [1];
                                            used := cpumask_none; gen := 0 |};
                             general_intr_mask := cpumask_of_list [0] |}))
    by reflexivity.
  assert (HrA : uint 2 <= online_cpus two_node_topology) by (vm_compute; discriminate).
  assert (HrB : uint 3 <= online_cpus two_node_topology) by (vm_compute; discriminate).
  assert (HnoA : ~ other_sdma_targets armed_device 0 2).
  { intros H. apply other_sdma_uses_targets in H. vm_compute in H. discriminate. }
  assert (HnoB : ~ other_sdma_targets armed_device 0 3).
  { intros H. apply other_sdma_uses_targets in H. vm_compute in H. discriminate. }
  split; [exact Hm|]. split; [exact Hk|]. split; [reflexivity|].
  split; [lia|]. split; [lia|]. split; [lia|].
  split; [exact HrA|]. split; [exact HrB|]. split; [exact HnoA|]. split; [exact HnoB|].
  destruct (update_there_and_back two_node_topology armed_registry armed_device 0 _ 0 0 _ 2 3
              Hm eq_refl Hk Hlook ltac:(lia) ltac:(lia) ltac:(lia) HrA HrB HnoA HnoB)
    as (a1 & dd1 & a2 & dd2 & p2 & H1 & H2 & H3 & _ & H5 & _).
  exists a1, dd1, a2, dd2. split; [exact H1|]. split; [exact H2|]. split; [exact H3|].
  rewrite H5. f_equal.
  assert (Hp : Some p2 = Some {| mask := cpumask_of_list [2]; used := cpumask_of_list [2];
                                 gen := 0 |}); [|now injection Hp].
  rewrite <- H5. vm_compute in H1. injection H1 as <- <-.
  vm_compute in H2. injection H2 as <- <-. reflexivity.
Defined.

(** The pool over the CPUs 0, 1 and 3: six allocations. *)
Lemma round_robin_order_witness :
  0 <= 8 /\
  used fresh_pool = cpumask_none /\
  cpumask_weight 8 (mask fresh_pool) = Z.of_nat 3 /\
  (allocate_n 8 3 fresh_pool).1 = [0; 1; 3] /\
  (allocate_n 8 (3 + 3) fresh_pool).1
  = (allocate_n 8 3 fresh_pool).1 ++ (allocate_n 8 3 fresh_pool).1.
Proof.
  split; [lia|]. split; [reflexivity|]. split; [reflexivity|]. split; [reflexivity|].
  apply (round_robin_order 8 ltac:(lia) fresh_pool 3 eq_refl eq_refl).
Defined.

(** ** The order of the hardware threads *)

Section ThreadOrder.

Variable nr_cpu_ids : Z.
Hypothesis nr_cpu_ids_nonneg : 0 <= nr_cpu_ids.

Local Abbreviation weight := (cpumask_weight nr_cpu_ids).
Local Abbreviation first_cpu := (cpumask_first nr_cpu_ids).
Local Abbreviation candidate := (proc_candidate nr_cpu_ids).

(** The test of the loop over the hardware thread numbers. *)
Lemma andnot_empty_candidate (hw u : cpumask) :
  cpumask_empty nr_cpu_ids (cpumask_andnot hw u) = true <-> ~ exists x, candidate hw u x.
Proof.
  rewrite (cpumask_empty_true nr_cpu_ids nr_cpu_ids_nonneg).
  unfold proc_candidate, cpu_in, cpumask_andnot. split.
  - intros H (x & Hx & Hin & Hout). specialize (H x Hx).
    rewrite Z.ldiff_spec, Hin in H. destruct (Z.testbit u x); [now apply Hout | discriminate].
  - intros H x Hx. rewrite Z.ldiff_spec.
    destruct (Z.testbit hw x) eqn:Hin; [|reflexivity].
    destruct (Z.testbit u x) eqn:Hout; [reflexivity|].
    exfalso. apply H. exists x. rewrite Hin, Hout.
    split; [assumption|]. split; [reflexivity | discriminate].
Qed.

Lemma andnot_candidate (hw u : cpumask) :
  cpumask_empty nr_cpu_ids (cpumask_andnot hw u) = false -> exists x, candidate hw u x.
Proof.
  intros He. exists (first_cpu (cpumask_andnot hw u)).
  pose proof (cpumask_first_lt nr_cpu_ids nr_cpu_ids_nonneg _ He) as Hlt.
  pose proof (cpumask_first_range nr_cpu_ids nr_cpu_ids_nonneg (cpumask_andnot hw u)) as Hr.
  pose proof (cpumask_first_in nr_cpu_ids _ Hlt) as Hbit.
  unfold cpumask_andnot in Hbit at 1. rewrite Z.ldiff_spec in Hbit.
  apply andb_true_iff in Hbit as [Hin Hout]. apply negb_true_iff in Hout.
  unfold proc_candidate, cpu_in. rewrite Hin, Hout.
  split; [lia|]. split; [reflexivity | discriminate].
Qed.

(** The loop stops at the first hardware thread number whose mask has a
    CPU that is not used; when there is none it ends with the mask of
    the last number. *)
Lemma find_free_hw_thread_first (n : nat) (i : Z) (m0 : cpumask)
    (a : hfi1_affinity_node_list) (u hw : cpumask) :
  find_free_hw_thread nr_cpu_ids n i m0 a u = Some hw ->
  (exists k,
     i <= k < i + Z.of_nat n /\
     find_hw_thread_mask nr_cpu_ids k a = Some hw /\
     (exists x, candidate hw u x) /\
     forall k' hw',
       i <= k' < k -> find_hw_thread_mask nr_cpu_ids k' a = Some hw' ->
       ~ exists x, candidate hw' u x) \/
  ((forall k' hw',
      i <= k' < i + Z.of_nat n -> find_hw_thread_mask nr_cpu_ids k' a = Some hw' ->
      ~ exists x, candidate hw' u x) /\
   (n = O -> hw = m0) /\
   (n <> O -> find_hw_thread_mask nr_cpu_ids (i + Z.of_nat n - 1) a = Some hw)).
Proof.
  revert i m0. induction n as [|n IH]; intros i m0; cbn [find_free_hw_thread].
  - intros [= ->]. right. split; [intros k' hw' Hk'; lia|]. now split.
  - destruct (find_hw_thread_mask nr_cpu_ids i a) as [hw1|] eqn:Hhw1; [|discriminate].
    cbn [mbind option_bind].
    destruct (cpumask_empty nr_cpu_ids (cpumask_andnot hw1 u)) eqn:He; cbn [negb].
    + apply andnot_empty_candidate in He.
      intros [(k & Hk & Hfound & Hfree & Hbelow)|(Hnone & Hzero & Hlast)]%IH.
      * left. exists k. split; [lia|]. split; [assumption|]. split; [assumption|].
        intros k' hw' Hk' Hhw'. destruct (Z.eq_dec k' i) as [->|Hne].
        -- assert (hw' = hw1) as -> by congruence. assumption.
        -- apply (Hbelow k' hw'); [lia | assumption].
      * right. split; [|split; [discriminate|]].
        -- intros k' hw' Hk' Hhw'. destruct (Z.eq_dec k' i) as [->|Hne].
           ++ assert (hw' = hw1) as -> by congruence. assumption.
           ++ apply (Hnone k' hw'); [lia | assumption].
        -- intros _. destruct n as [|n'].
           ++ rewrite (Hzero eq_refl). now replace (i + Z.of_nat 1 - 1) with i by lia.
           ++ replace (i + Z.of_nat (S (S n')) - 1) with (i + 1 + Z.of_nat (S n') - 1) by lia.
              now apply Hlast.
    + intros [= <-]. left. exists i. split; [lia|]. split; [assumption|]. split.
      * now apply andnot_candidate.
      * intros k' hw' Hk'. lia.
Qed.

(** The CPUs to choose from are empty only when the hardware thread mask
    has no CPU that is not used. *)
Lemma proc_available_empty (hw u node_mask intrs : cpumask) :
  cpumask_empty nr_cpu_ids (proc_available nr_cpu_ids hw u node_mask intrs) = true ->
  ~ exists x, candidate hw u x.
Proof.
  unfold proc_available. cbv zeta.
  set (available0 := cpumask_andnot (cpumask_and hw node_mask) u).
  set (other := cpumask_andnot (cpumask_andnot hw u) node_mask).
  set (diff0 := cpumask_andnot available0 intrs).
  set (diff1 := cpumask_andnot other intrs).
  destruct (cpumask_empty nr_cpu_ids diff0) eqn:He0; cbn [negb].
  - destruct (cpumask_empty nr_cpu_ids available0) eqn:He1.
    + destruct (cpumask_empty nr_cpu_ids diff1) eqn:He3; cbn [negb].
      * intros He4 (x & Hx & Hin & Hout).
        pose proof (proj1 (cpumask_empty_true nr_cpu_ids nr_cpu_ids_nonneg _) He1 x Hx) as H1.
        pose proof (proj1 (cpumask_empty_true nr_cpu_ids nr_cpu_ids_nonneg _) He4 x Hx) as H4.
        unfold available0, other, cpumask_andnot, cpumask_and, cpu_in in *.
        rewrite Z.ldiff_spec, Z.land_spec, Hin in H1.
        rewrite !Z.ldiff_spec, Hin in H4.
        destruct (Z.testbit u x); [now apply Hout|].
        destruct (Z.testbit node_mask x); discriminate.
      * intros He. congruence.
    + intros He. congruence.
  - rewrite He0. cbv iota. intros He. congruence.
Qed.

(** The advisor finds a CPU exactly when the hardware thread mask has a
    CPU that is not used, and the CPU found is one of these. *)
Lemma proc_available_first (hw u node_mask intrs : cpumask) :
  let avail := proc_available nr_cpu_ids hw u node_mask intrs in
  ((exists x, candidate hw u x) ->
   first_cpu avail < nr_cpu_ids /\ candidate hw u (first_cpu avail)) /\
  (~ (exists x, candidate hw u x) -> first_cpu avail = nr_cpu_ids).
Proof.
  intros avail.
  pose proof (cpumask_first_range nr_cpu_ids nr_cpu_ids_nonneg avail) as Hr.
  assert (Hfound : first_cpu avail < nr_cpu_ids -> candidate hw u (first_cpu avail)).
  { intros Hlt. pose proof (cpumask_first_in nr_cpu_ids _ Hlt) as Hbit.
    apply proc_available_free in Hbit as [Hin Hout].
    unfold proc_candidate, cpu_in. rewrite Hout.
    split; [lia|]. split; [assumption | discriminate]. }
  destruct (cpumask_empty nr_cpu_ids avail) eqn:He.
  - pose proof (proc_available_empty _ _ _ _ He) as Hnone.
    split; [contradiction|]. intros _. now apply cpumask_first_empty.
  - pose proof (cpumask_first_lt nr_cpu_ids nr_cpu_ids_nonneg _ He) as Hlt.
    split; [auto|]. intros Hnone. exfalso. apply Hnone. eauto.
Qed.

(** X18. Hardware threads are filled in the order of their numbers.
    When the online CPUs are numbered 0 to [n - 1], with [s] hardware
    threads per core and [d] online nodes, the hardware threads number
    [k] are the CPUs [k * p] to [(k + 1) * p - 1], with
    [p = n / s / d * d].  For a process without preset affinity, once
    the scratch masks are allocated, the advisor gives a CPU below
    [s * p] that is not used after the wrap-around of the pool, with the
    lowest hardware thread number that such a CPU has: the threads
    number 0 of all cores are given before any thread number 1, and so
    on.  It returns -1 exactly when every CPU below [s * p] is used, so
    that a CPU from [s * p] on (there are some when [s * d] does not
    divide [n]) is never advised.  When [s * d] divides [n], there is a
    CPU and the used CPUs are CPUs of the pool, the advisor always
    gives a CPU. *)
Theorem proc_affinity_thread_order (t : topology) (proc_mask : cpumask)
    (a : hfi1_affinity_node_list) (nd : Z) :
  let n := num_online_cpus a in
  let s := num_core_siblings a in
  let d := num_online_nodes a in
  let per_thread := n / s / d * d in
  let set1 := cpu_mask_set_gen_inc nr_cpu_ids (proc a) in
  let free x := 0 <= x < s * per_thread /\ ~ cpu_in x (used set1) in
  mask (proc a) = Z.ones n ->
  0 <= n <= nr_cpu_ids ->
  n < 2 ^ 32 ->
  1 <= s ->
  1 <= d ->
  weight proc_mask <> 1 ->
  weight (mask (proc a)) <= weight proc_mask ->
  exists c a',
    hfi1_get_proc_affinity nr_cpu_ids t proc_mask true a nd = Some (c, a') /\
    (c = -1 <-> ~ exists x, free x) /\
    (c <> -1 ->
     free c /\ forall x, free x -> c / per_thread <= x / per_thread) /\
    (n mod (s * d) = 0 -> 1 <= n ->
     cpumask_subset (used (proc a)) (mask (proc a)) -> c <> -1).
Proof.
  intros n s d per_thread set1 free Hmask Hn H32 Hs Hd Hone Hall.
  (* the runs of the hardware threads *)
  assert (Hper : s * per_thread <= n).
  { apply (hw_thread_mask_run nr_cpu_ids nr_cpu_ids_nonneg a 0); auto; lia. }
  assert (Hdiv : n mod (s * d) = 0 -> s * per_thread = n).
  { apply (hw_thread_mask_run nr_cpu_ids nr_cpu_ids_nonneg a 0); auto; lia. }
  assert (Hp0 : 0 <= per_thread).
  { unfold per_thread. apply Z.mul_nonneg_nonneg; [|lia].
    apply Z.div_pos; [|lia]. apply Z.div_pos; lia. }
  set (a1 := with_proc a set1).
  assert (Hrun : forall k, 0 <= k < s ->
            exists hw, find_hw_thread_mask nr_cpu_ids k a1 = Some hw /\
              forall x, cpu_in x hw <-> k * per_thread <= x < (k + 1) * per_thread).
  { intros k Hk. unfold a1.
    rewrite find_hw_thread_mask_with_proc by apply gen_inc_mask.
    apply (hw_thread_mask_run nr_cpu_ids nr_cpu_ids_nonneg a k); auto. }
  assert (Hthread : forall k hw x,
            0 <= k < s -> find_hw_thread_mask nr_cpu_ids k a1 = Some hw ->
            (candidate hw (used set1) x
             <-> k * per_thread <= x < (k + 1) * per_thread /\ ~ cpu_in x (used set1))).
  { intros k hw x Hk Hhw. destruct (Hrun k Hk) as (hw' & Hhw' & Hbits).
    assert (hw' = hw) as -> by congruence.
    unfold proc_candidate. rewrite Hbits. split; [tauto|].
    intros [Hx Hout]. split; [nia | tauto]. }
  assert (Hin_thread : forall x, free x ->
            0 < per_thread /\ 0 <= x / per_thread < s /\
            x / per_thread * per_thread <= x < (x / per_thread + 1) * per_thread).
  { intros x [Hx _]. assert (Hpos : 0 < per_thread) by nia.
    split; [assumption|]. split.
    - split; [apply Z.div_pos; lia | apply Z.div_lt_upper_bound; lia].
    - pose proof (Z.mul_div_le x per_thread Hpos).
      pose proof (Z.mul_succ_div_gt x per_thread Hpos). lia. }
  (* the loop over the hardware thread numbers *)
  rewrite (get_proc_advice nr_cpu_ids t proc_mask a nd Hone Hall). cbv zeta. fold set1.
  unfold proc_hw_thread_mask. cbv zeta. fold set1. fold a1.
  assert (Hs1 : num_core_siblings a1 = s) by reflexivity. rewrite Hs1.
  destruct (Z.ltb_spec 0 s) as [_|]; [|lia].
  destruct (find_free_hw_thread_some nr_cpu_ids (Z.to_nat s) 0 (mask set1) a1 (used set1))
    as [hw Hloop]; [cbn; fold s; lia | cbn; fold d; lia |].
  rewrite Hloop. cbn [mbind option_bind].
  set (avail := proc_available nr_cpu_ids hw (used set1) (cpumask_of_node t nd)
                  (intrs_mask_of (node_affinity_lookup a nd))).
  destruct (proc_available_first hw (used set1) (cpumask_of_node t nd)
              (intrs_mask_of (node_affinity_lookup a nd))) as [Hsome Hnone].
  fold avail in Hsome, Hnone.
  apply find_free_hw_thread_first in Hloop
    as [(k & Hk & Hfound & Hfree & Hbelow)|(Hall_used & _ & Hlast)].
  - (* thread number [k] has a CPU that is not used *)
    rewrite Z2Nat.id in Hk by lia.
    destruct (Hsome Hfree) as [Hlt Hc].
    destruct (Z.leb_spec nr_cpu_ids (first_cpu avail)) as [|_]; [lia|].
    apply (Hthread k hw _ ltac:(lia) Hfound) in Hc as [Hc Hout].
    assert (Hpos : 0 < per_thread) by nia.
    assert (Hck : first_cpu avail / per_thread = k).
    { symmetry. apply (Z.div_unique _ per_thread k (first_cpu avail - k * per_thread)); lia. }
    assert (Hfreec : free (first_cpu avail)) by (split; [nia | assumption]).
    eexists _, _. split; [reflexivity|].
    pose proof (cpumask_first_range nr_cpu_ids nr_cpu_ids_nonneg avail) as Hr.
    split; [split; [lia | intros Hno; exfalso; apply Hno; eauto]|].
    split; [|lia]. intros _. split; [assumption|].
    intros x Hx. rewrite Hck.
    destruct (Hin_thread x Hx) as (_ & Hkx & Hrunx).
    destruct (Z.le_gt_cases k (x / per_thread)) as [|Hlow]; [assumption|].
    exfalso. destruct (Hrun (x / per_thread) Hkx) as (hw' & Hhw' & _).
    apply (Hbelow (x / per_thread) hw'); [lia | assumption|].
    exists x. apply (Hthread (x / per_thread) hw' x Hkx Hhw').
    split; [assumption | apply Hx].
  - (* every hardware thread is used *)
    rewrite Z2Nat.id in Hall_used by lia.
    assert (Hnofree : ~ exists x, free x).
    { intros [x Hx]. destruct (Hin_thread x Hx) as (_ & Hkx & Hrunx).
      destruct (Hrun (x / per_thread) Hkx) as (hw' & Hhw' & _).
      apply (Hall_used (x / per_thread) hw'); [lia | assumption|].
      exists x. apply (Hthread (x / per_thread) hw' x Hkx Hhw').
      split; [assumption | apply Hx]. }
    assert (Hnocand : ~ exists x, candidate hw (used set1) x).
    { rewrite Z2Nat.id in Hlast by lia.
      apply (Hall_used (0 + s - 1) hw); [lia|]. apply Hlast. intros H0.
      apply (f_equal Z.of_nat) in H0. rewrite Z2Nat.id in H0 by lia. cbn in H0. lia. }
    rewrite (Hnone Hnocand), Z.leb_refl.
    eexists _, _. split; [reflexivity|]. split; [tauto|]. split; [congruence|].
    intros Hexact Hn1 Hsub _.
    assert (Hbit : forall x, 0 <= x < n -> Z.testbit (used set1) x = true).
    { intros x Hx. destruct (Z.testbit (used set1) x) eqn:Hb; [reflexivity|].
      exfalso. apply Hnofree. exists x.
      split; [rewrite (Hdiv Hexact); assumption|]. unfold cpu_in. congruence. }
    unfold set1, cpu_mask_set_gen_inc in Hbit.
    destruct (cpumask_equal nr_cpu_ids (mask (proc a)) (used (proc a))) eqn:Heq.
    + specialize (Hbit 0 ltac:(lia)). cbn in Hbit. discriminate.
    + apply not_true_iff_false in Heq. apply Heq.
      apply (cpumask_equal_true nr_cpu_ids nr_cpu_ids_nonneg). intros i Hi. rewrite Hmask.
      destruct (Z.lt_ge_cases i n) as [Hlow|Hhigh].
      * rewrite Hbit by lia. apply Z.ones_spec_low. lia.
      * rewrite Z.ones_spec_high by lia.
        unfold cpumask_subset in Hsub. apply (f_equal (fun m => Z.testbit m i)) in Hsub.
        rewrite Z.ldiff_spec, Hmask, Z.ones_spec_high, Z.bits_0 in Hsub by lia.
        cbn [negb] in Hsub. rewrite andb_true_r in Hsub. now symmetry.
Qed.

End ThreadOrder.

(** With the hardware threads number 0 all used, the process is advised
    CPU 4, the first of the hardware threads number 1. *)
Lemma proc_affinity_thread_order_witness :
  0 <= 8 /\
  mask (proc threaded_busy_registry) = Z.ones (num_online_cpus threaded_busy_registry) /\
  0 <= num_online_cpus threaded_busy_registry <= 8 /\
  num_online_cpus threaded_busy_registry < 2 ^ 32 /\
  1 <= num_core_siblings threaded_busy_registry /\
  1 <= num_online_nodes threaded_busy_registry /\
  cpumask_weight 8 (cpumask_of_list [0; 1; 2; 3; 4; 5; 6; 7]) <> 1 /\
  cpumask_weight 8 (mask (proc threaded_busy_registry))
  <= cpumask_weight 8 (cpumask_of_list [0; 1; 2; 3; 4; 5; 6; 7]) /\
  exists a',
    hfi1_get_proc_affinity 8 threaded_topology (cpumask_of_list [0; 1; 2; 3; 4; 5; 6; 7])
      true threaded_busy_registry 0 = Some (4, a') /\
    used (proc a') = cpumask_of_list [0; 1; 2; 3; 4] /\
    forall x,
      0 <= x < 2 * (8 / 2 / 1 * 1) /\
      ~ cpu_in x (used (cpu_mask_set_gen_inc 8 (proc threaded_busy_registry))) ->
      4 / (8 / 2 / 1 * 1) <= x / (8 / 2 / 1 * 1).
Proof.
  assert (Hmask : mask (proc threaded_busy_registry)
                  = Z.ones (num_online_cpus threaded_busy_registry)) by reflexivity.
  assert (Hn : 0 <= num_online_cpus threaded_busy_registry <= 8)
    by (vm_compute; split; discriminate).
  assert (H32 : num_online_cpus threaded_busy_registry < 2 ^ 32) by reflexivity.
  assert (Hs : 1 <= num_core_siblings threaded_busy_registry) by (vm_compute; discriminate).
  assert (Hd : 1 <= num_online_nodes threaded_busy_registry) by (vm_compute; discriminate).
  assert (Hone : cpumask_weight 8 (cpumask_of_list [0; 1; 2; 3; 4; 5; 6; 7]) <> 1)
    by discriminate.
  assert (Hall : cpumask_weight 8 (mask (proc threaded_busy_registry))
                 <= cpumask_weight 8 (cpumask_of_list [0; 1; 2; 3; 4; 5; 6; 7]))
    by (vm_compute; discriminate).
  split; [lia|]. split; [exact Hmask|]. split; [exact Hn|]. split; [exact H32|].
  split; [exact Hs|]. split; [exact Hd|]. split; [exact Hone|]. split; [exact Hall|].
  destruct (proc_affinity_thread_order 8 ltac:(lia) threaded_topology
              (cpumask_of_list [0; 1; 2; 3; 4; 5; 6; 7]) threaded_busy_registry 0
              Hmask Hn H32 Hs Hd Hone Hall)
    as (c & a' & Hget & _ & Hfree & _).
  assert (Hval : hfi1_get_proc_affinity 8 threaded_topology
                   (cpumask_of_list [0; 1; 2; 3; 4; 5; 6; 7]) true threaded_busy_registry 0
                 = Some (4, with_proc threaded_busy_registry
                              {| mask := cpumask_of_list [0; 1; 2; 3; 4; 5; 6; 7];
                                 used := cpumask_of_list [0; 1; 2; 3; 4]; gen := 0 |}))
    by (vm_compute; reflexivity).
  rewrite Hget in Hval. injection Hval as -> ->.
  eexists. split; [exact Hget|]. split; [reflexivity|].
  apply Hfree. discriminate.
Defined.
